(** * Workout tracker: rotation engine, history analysis, week predictor
      and gap reconciler of [app.py]

    The development embeds the scheduling logic of the menu-bar application
    [app.py] and proves the properties its specification states about it.

    Conventions of the embedding:
    - a calendar date ([datetime.date]) is its proleptic Gregorian ordinal
      ([date.toordinal()]), an integer; [date - timedelta(days=k)] is
      subtraction; dates written to the store are ISO strings, produced by
      [Date.isoformat];
    - [datetime.date.today()] is a parameter [today] of every operation that
      reads the clock (one value per operation);
    - the Firestore database is a record with the [tracker/state] document
      and the [logs] collection in write order; [created_at] is the write
      order, so that the most recent writes come first in [get_history];
    - a Python exception is an [Exn] outcome that carries the state of the
      application at the time it propagates;
    - dialogs, notifications and menu rebuilding have no effect on the state
      and are left out of the operations; what a dialog returns is an
      argument, and the menu is a function of the state, [_build_menu]. *)

From Stdlib Require Import Bool ZArith String Ascii List Lia Floats.SpecFloat.
From Stdlib Require Import DecimalString.
From stdpp Require Import base option list gmap strings.

Open Scope Z_scope.

(** * Calendar dates, after CPython's [datetime] *)

Module Date.

(** The ordinals of 0001-01-01 and of 9999-12-31. *)
Definition MINORD : Z := 1.
Definition MAXORD : Z := 3652059.

Definition _is_leap (year : Z) : bool :=
  (year mod 4 =? 0) && (negb (year mod 100 =? 0) || (year mod 400 =? 0)).

Definition _days_before_year (year : Z) : Z :=
  let y := year - 1 in y * 365 + y / 4 - y / 100 + y / 400.

Definition _DAYS_IN_MONTH (month : Z) : Z :=
  match month with
  | 1 => 31 | 2 => 28 | 3 => 31 | 4 => 30 | 5 => 31 | 6 => 30
  | 7 => 31 | 8 => 31 | 9 => 30 | 10 => 31 | 11 => 30 | 12 => 31
  | _ => -1
  end.

Definition _DAYS_BEFORE_MONTH (month : Z) : Z :=
  match month with
  | 1 => 0 | 2 => 31 | 3 => 59 | 4 => 90 | 5 => 120 | 6 => 151
  | 7 => 181 | 8 => 212 | 9 => 243 | 10 => 273 | 11 => 304 | 12 => 334
  | _ => -1
  end.

Definition b2z (b : bool) : Z := if b then 1 else 0.

Definition _days_in_month (year month : Z) : Z :=
  if (month =? 2) && _is_leap year then 29 else _DAYS_IN_MONTH month.

Definition _days_before_month (year month : Z) : Z :=
  _DAYS_BEFORE_MONTH month + b2z ((month >? 2) && _is_leap year).

(** [_ymd2ord] and [_ord2ymd]: between year, month, day and the ordinal,
    with 0001-01-01 as day 1. *)
Definition _ymd2ord (year month day : Z) : Z :=
  _days_before_year year + _days_before_month year month + day.

Definition _DI400Y : Z := 146097.
Definition _DI100Y : Z := 36524.
Definition _DI4Y : Z := 1461.

Definition _ord2ymd (n : Z) : Z * Z * Z :=
  let n := n - 1 in
  let n400 := n / _DI400Y in
  let n := n mod _DI400Y in
  let year := n400 * 400 + 1 in
  let n100 := n / _DI100Y in
  let n := n mod _DI100Y in
  let n4 := n / _DI4Y in
  let n := n mod _DI4Y in
  let n1 := n / 365 in
  let n := n mod 365 in
  let year := year + (n100 * 100 + n4 * 4 + n1) in
  if (n1 =? 4) || (n100 =? 4) then (year - 1, 12, 31)
  else
    let leapyear := (n1 =? 3) && (negb (n4 =? 24) || (n100 =? 3)) in
    let month := Z.shiftr (n + 50) 5 in
    let preceding := _DAYS_BEFORE_MONTH month + b2z ((month >? 2) && leapyear) in
    if preceding >? n then
      let month := month - 1 in
      let preceding := preceding - (_DAYS_IN_MONTH month + b2z ((month =? 2) && leapyear)) in
      (year, month, n - preceding + 1)
    else (year, month, n - preceding + 1).

(** [d.weekday()]: Monday is 0. *)
Definition weekday (d : Z) : Z := (d + 6) mod 7.

(** [d.isoformat()]: ["%04d-%02d-%02d"]. *)
Definition digit (n : Z) : ascii := ascii_of_nat (48 + Z.to_nat (n mod 10)).

Definition fmt2 (n : Z) : string := String (digit (n / 10)) (String (digit n) EmptyString).
Definition fmt4 (n : Z) : string :=
  String (digit (n / 1000)) (String (digit (n / 100)) (fmt2 n)).

Definition isoformat (d : Z) : string :=
  let '(y, m, dd) := _ord2ymd d in
  fmt4 y ++ "-" ++ fmt2 m ++ "-" ++ fmt2 dd.

Definition digit_val (c : ascii) : option Z :=
  let n := Z.of_nat (nat_of_ascii c) in
  if (48 <=? n) && (n <=? 57) then Some (n - 48) else None.

Fixpoint parse_digits (s : list ascii) (acc : Z) : option Z :=
  match s with
  | [] => Some acc
  | c :: s' => match digit_val c with
               | Some v => parse_digits s' (acc * 10 + v)
               | None => None
               end
  end.

(** [date.fromisoformat(s)] for the form [YYYY-MM-DD], the one that
    [isoformat] writes; [None] for [ValueError]. *)
Definition fromisoformat (s : string) : option Z :=
  match list_ascii_of_string s with
  | [y1; y2; y3; y4; s1; m1; m2; s2; d1; d2] =>
      if negb (Ascii.eqb s1 "-") || negb (Ascii.eqb s2 "-") then None else
      match parse_digits [y1; y2; y3; y4] 0, parse_digits [m1; m2] 0, parse_digits [d1; d2] 0 with
      | Some y, Some m, Some d =>
          if (1 <=? y) && (y <=? 9999) && (1 <=? m) && (m <=? 12)
             && (1 <=? d) && (d <=? _days_in_month y m)
          then Some (_ymd2ord y m d) else None
      | _, _, _ => None
      end
  | _ => None
  end.

Definition valid_ymd (y m d : Z) : Prop :=
  1 <= y <= 9999 /\ 1 <= m <= 12 /\ 1 <= d <= _days_in_month y m.

(** The month estimate of [_ord2ymd], as a function of the day of the year
    (counted from 0) and of the leap flag. *)
Definition month_day (leapyear : bool) (n : Z) : Z * Z :=
  let month := Z.shiftr (n + 50) 5 in
  let preceding := _DAYS_BEFORE_MONTH month + b2z ((month >? 2) && leapyear) in
  if preceding >? n then
    let month := month - 1 in
    let preceding := preceding - (_DAYS_IN_MONTH month + b2z ((month =? 2) && leapyear)) in
    (month, n - preceding + 1)
  else (month, n - preceding + 1).

End Date.

(** * Python values and builtins used by the application *)

Module Py.

(** [a % b] on integers: [ZeroDivisionError] ([None]) when [b] is zero; the
    result has the sign of [b], as [Z.modulo]. *)
Definition mod_ (a b : Z) : option Z :=
  if b =? 0 then None else Some (a mod b).

(** [len(l)] as an integer. *)
Definition len {A} (l : list A) : Z := Z.of_nat (length l).

(** [l[i]]: a negative index counts from the end of the list; [IndexError]
    ([None]) outside [-len(l) .. len(l) - 1]. *)
Definition getitem {A} (l : list A) (i : Z) : option A :=
  if i <? 0 then
    if 0 <=? len l + i then l !! Z.to_nat (len l + i) else None
  else l !! Z.to_nat i.

(** [range(n)] and [range(a, b)]. *)
Definition range (n : Z) : list Z := seqZ 0 n.
Definition range2 (a b : Z) : list Z := seqZ a (b - a).

(** ** Floats: IEEE 754 binary64, computed by the Standard Library's
    specification of the format. *)
Definition prec : Z := 53.
Definition emax : Z := 1024.

(** [float(n)] for an integer [n]. *)
Definition float_of_int (n : Z) : spec_float :=
  binary_normalize prec emax n 0 false.

(** [a / b] on integers: [ZeroDivisionError] ([None]) when [b] is zero. *)
Definition truediv (a b : Z) : option spec_float :=
  if b =? 0 then None
  else Some (SFdiv prec emax (float_of_int a) (float_of_int b)).

(** [x * n] for a float [x] and an integer [n]. *)
Definition mul_int (x : spec_float) (n : Z) : spec_float :=
  SFmul prec emax x (float_of_int n).

(** [n / d] rounded to the nearest integer, ties to the even one
    ([0 < d]). *)
Definition round_half_even (n d : Z) : Z :=
  let q := n / d in
  match 2 * (n mod d) ?= d with
  | Lt => q
  | Gt => q + 1
  | Eq => if Z.even q then q else q + 1
  end.

(** [round(x)] with one argument: the nearest integer, ties to the even
    one; [None] for an infinity ([OverflowError]) or a NaN
    ([ValueError]). *)
Definition round (x : spec_float) : option Z :=
  match x with
  | S754_zero _ => Some 0
  | S754_finite s m e =>
      let r := if 0 <=? e then Z.pos m * 2 ^ e
               else round_half_even (Z.pos m) (2 ^ (- e)) in
      Some (if s then - r else r)
  | S754_infinity _ => None
  | S754_nan => None
  end.

(** ** Strings *)

(** [s.split(",")] for a one-character separator. *)
Fixpoint split (sep : ascii) (s : string) : list string :=
  match s with
  | EmptyString => [EmptyString]
  | String c s' =>
      if Ascii.eqb c sep then EmptyString :: split sep s'
      else match split sep s' with
           | w :: ws => String c w :: ws
           | [] => [String c EmptyString]
           end
  end.

End Py.

(** The library functions whose result depends on the interpreter, the
    locale or on Unicode tables are parameters of the model. *)
Class PyLib := {
  (** [datetime.date.fromisoformat(s)]; [None] when it raises [ValueError]
      or [TypeError] *)
  fromisoformat : string -> option Z;
  (** [s.strip()], [s.lower()], [s.title()] *)
  str_strip : string -> string;
  str_lower : string -> string;
  str_title : string -> string;
  (** [int(s)]; [None] when it raises [ValueError] *)
  str_int : string -> option Z;
  (** [d.strftime("%a")] *)
  strftime_a : Z -> string;
}.

(** What the proofs use of these functions. *)
Definition fromisoformat_law `{PyLib} : Prop :=
  forall d, Date.MINORD <= d <= Date.MAXORD ->
            fromisoformat (Date.isoformat d) = Some d.

Definition str_lower_law `{PyLib} : Prop :=
  forall s, str_lower s = EmptyString <-> s = EmptyString.

(** ** An instance for ASCII text

    The builtins on strings of ASCII characters: Python's white space and
    letters below 128, decimal numerals with an optional sign. The
    statements hold for every instance; this one runs the examples. *)

Module Ascii7.

Definition code (c : ascii) : Z := Z.of_nat (nat_of_ascii c).
Definition chr (n : Z) : ascii := ascii_of_nat (Z.to_nat n).

Definition is_space (c : ascii) : bool :=
  let n := code c in
  ((9 <=? n) && (n <=? 13)) || ((28 <=? n) && (n <=? 32)).
Definition is_upper (c : ascii) : bool := (65 <=? code c) && (code c <=? 90).
Definition is_lower (c : ascii) : bool := (97 <=? code c) && (code c <=? 122).
Definition to_lower (c : ascii) : ascii :=
  if is_upper c then chr (code c + 32) else c.
Definition to_upper (c : ascii) : ascii :=
  if is_lower c then chr (code c - 32) else c.

Fixpoint lstrip (s : string) : string :=
  match s with
  | EmptyString => EmptyString
  | String c s' => if is_space c then lstrip s' else s
  end.

Fixpoint rstrip (s : string) : string :=
  match s with
  | EmptyString => EmptyString
  | String c s' =>
      match rstrip s' with
      | EmptyString => if is_space c then EmptyString else String c EmptyString
      | r => String c r
      end
  end.

Definition strip (s : string) : string := rstrip (lstrip s).

Fixpoint lower (s : string) : string :=
  match s with
  | EmptyString => EmptyString
  | String c s' => String (to_lower c) (lower s')
  end.

Fixpoint title_from (prev_cased : bool) (s : string) : string :=
  match s with
  | EmptyString => EmptyString
  | String c s' =>
      if is_lower c then
        String (if prev_cased then c else to_upper c) (title_from true s')
      else if is_upper c then
        String (if prev_cased then to_lower c else c) (title_from true s')
      else String c (title_from false s')
  end.

Definition title (s : string) : string := title_from false s.

(** Decimal integers with an optional sign. *)
Definition int (s : string) : option Z :=
  match list_ascii_of_string s with
  | [] => None
  | c :: cs =>
      if Ascii.eqb c "-" then
        match cs with [] => None | _ => Z.opp <$> Date.parse_digits cs 0 end
      else if Ascii.eqb c "+" then
        match cs with [] => None | _ => Date.parse_digits cs 0 end
      else Date.parse_digits (c :: cs) 0
  end.

Definition day_abbr (d : Z) : string :=
  match Date.weekday d with
  | 0 => "Mon" | 1 => "Tue" | 2 => "Wed" | 3 => "Thu"
  | 4 => "Fri" | 5 => "Sat" | _ => "Sun"
  end.

End Ascii7.

Definition ascii_lib : PyLib := {|
  fromisoformat := Date.fromisoformat;
  str_strip := Ascii7.strip;
  str_lower := Ascii7.lower;
  str_title := Ascii7.title;
  str_int := Ascii7.int;
  strftime_a := Ascii7.day_abbr;
|}.

(** * The data model *)

(** A document of the [logs] collection. A field is [None] when the
    document has no such key ([created_at] is the position in [db_logs]). *)
Record Entry := {
  e_date : option string;
  e_workout_type : option string;
  e_status : option string;
}.

(** The [tracker/state] document, and the [state] dictionary of the
    application. *)
Record State := {
  st_cycle : list string;
  st_position : Z;
  last_log_date : option string;
  rest_days_per_week : option Z;
}.

(** The database: the state document, if it exists, and the log documents
    in the order they were written. *)
Record Db := {
  db_state : option State;
  db_logs : list Entry;
}.

(** The [WorkoutTracker] object. *)
Record App := {
  db : Db;
  state : State;
  cycle : list string;
  position : Z;
}.

Definition DEFAULT_CYCLE : list string := ["push"; "pull"; "legs"].

(** ** Statements that update one attribute or one key *)

Definition with_db (d : Db) (a : App) : App :=
  {| db := d; state := state a; cycle := cycle a; position := position a |}.
Definition with_state (s : State) (a : App) : App :=
  {| db := db a; state := s; cycle := cycle a; position := position a |}.
Definition with_cycle (c : list string) (a : App) : App :=
  {| db := db a; state := state a; cycle := c; position := position a |}.
Definition with_position (p : Z) (a : App) : App :=
  {| db := db a; state := state a; cycle := cycle a; position := p |}.

Definition state_set_cycle (c : list string) (s : State) : State :=
  {| st_cycle := c; st_position := st_position s;
     last_log_date := last_log_date s;
     rest_days_per_week := rest_days_per_week s |}.
Definition state_set_position (p : Z) (s : State) : State :=
  {| st_cycle := st_cycle s; st_position := p;
     last_log_date := last_log_date s;
     rest_days_per_week := rest_days_per_week s |}.
Definition state_set_last_log_date (d : string) (s : State) : State :=
  {| st_cycle := st_cycle s; st_position := st_position s;
     last_log_date := Some d;
     rest_days_per_week := rest_days_per_week s |}.
Definition state_set_rest_days_per_week (n : Z) (s : State) : State :=
  {| st_cycle := st_cycle s; st_position := st_position s;
     last_log_date := last_log_date s;
     rest_days_per_week := Some n |}.

(** ** Methods: state passing with exceptions *)

(** The outcome of a method call: it returns a value, or an exception
    propagates; either way the object is left in some state. *)
Inductive outcome (A : Type) : Type :=
| Ok (a : A) (s : App)
| Exn (s : App).
Arguments Ok {A} a s.
Arguments Exn {A} s.

Definition M (A : Type) : Type := App -> outcome A.

Definition ret {A} (a : A) : M A := fun s => Ok a s.
Definition bind {A B} (m : M A) (k : A -> M B) : M B :=
  fun s => match m s with
           | Ok a s' => k a s'
           | Exn s' => Exn s'
           end.
Definition raise {A} : M A := fun s => Exn s.
Definition get : M App := fun s => Ok s s.
Definition modify (f : App -> App) : M unit := fun s => Ok tt (f s).
(** A partial builtin: its exception propagates. *)
Definition try_ {A} (o : option A) : M A :=
  match o with Some a => ret a | None => raise end.

Notation "x <~ m ;; k" := (bind m (fun x => k))
  (at level 100, m at next level, right associativity).
Notation "m ;;; k" := (bind m (fun _ => k))
  (at level 100, right associativity).

(** The object after a call, however it ended. *)
Definition final {A} (o : outcome A) : App :=
  match o with Ok _ s => s | Exn s => s end.

(** ** Store access *)

Definition get_state (d : Db) : State * Db :=
  match db_state d with
  | Some s => (s, d)
  | None =>
      let s := {| st_cycle := DEFAULT_CYCLE; st_position := 0;
                  last_log_date := None; rest_days_per_week := Some 2 |} in
      (s, {| db_state := Some s; db_logs := db_logs d |})
  end.

Definition save_state (d : Db) (s : State) : Db :=
  {| db_state := Some s; db_logs := db_logs d |}.

Definition log_entry (d : Db) (workout_type status : string) (date : Z) : Db :=
  {| db_state := db_state d;
     db_logs := db_logs d ++
       [{| e_date := Some (Date.isoformat date);
           e_workout_type := Some workout_type;
           e_status := Some status |}] |}.

Definition get_history (d : Db) (limit : Z) : list Entry :=
  take (Z.to_nat limit) (reverse (db_logs d)).

(** [entry.get("date", ...)], the empty string when the key is missing. *)
Definition entry_date (e : Entry) : string := default EmptyString (e_date e).

#[global] Instance Entry_eq_dec : EqDecision Entry.
Proof. solve_decision. Defined.

(** ** The tracker *)

Section Tracker.
Context `{PyLib}.

(** [self.cycle[self.position % len(self.cycle)]] *)
Definition current_workout (a : App) : option string :=
  i ← Py.mod_ (position a) (Py.len (cycle a));
  Py.getitem (cycle a) i.

(** [(p + 1) % len(self.cycle)] *)
Definition advance (a : App) (p : Z) : option Z :=
  Py.mod_ (p + 1) (Py.len (cycle a)).

(** [__init__], once the database is there. *)
Definition init (d : Db) : option App :=
  let '(s, d') := get_state d in
  let a := {| db := d'; state := s; cycle := st_cycle s;
              position := st_position s |} in
  _ ← current_workout a;
  Some a.

Definition _logged_today (a : App) (today : Z) : bool :=
  bool_decide (last_log_date (state a) = Some (Date.isoformat today)).

Fixpoint streak_loop (entries : list Entry) (expected streak : Z) : Z :=
  match entries with
  | [] => streak
  | entry :: entries' =>
      match fromisoformat (entry_date entry) with
      | None => streak
      | Some entry_date =>
          if bool_decide (entry_date <> expected) then streak
          else
            let streak :=
              if bool_decide (e_status entry = Some "done")
              then streak + 1 else streak in
            streak_loop entries' (expected - 1) streak
      end
  end.

Definition _get_streak (a : App) (today : Z) : Z :=
  let entries := get_history (db a) 60 in
  match entries with
  | [] => 0
  | _ => streak_loop entries today 0
  end.

Definition monday_of (today : Z) : Z := today - Date.weekday today.

Fixpoint rest_count_loop (entries : list Entry) (monday today count : Z) : Z :=
  match entries with
  | [] => count
  | entry :: entries' =>
      match fromisoformat (entry_date entry) with
      | None => rest_count_loop entries' monday today count
      | Some entry_date =>
          if (monday <=? entry_date) && (entry_date <=? today)
             && bool_decide (e_status entry = Some "rest")
          then rest_count_loop entries' monday today (count + 1)
          else rest_count_loop entries' monday today count
      end
  end.

Definition _rest_days_this_week (a : App) (today : Z) : Z :=
  let monday := monday_of today in
  let entries := get_history (db a) 30 in
  rest_count_loop entries monday today 0.

(** ** Logging today *)

Definition mark_done (today : Z) : M unit :=
  a <~ get;;
  if _logged_today a today then ret tt
  else
    workout <~ try_ (current_workout a);;
    modify (fun a => with_db (log_entry (db a) workout "done" today) a);;;
    a <~ get;;
    p <~ try_ (advance a (position a));;
    modify (with_position p);;;
    modify (fun a => with_state (state_set_position (position a) (state a)) a);;;
    modify (fun a =>
      with_state (state_set_last_log_date (Date.isoformat today) (state a)) a);;;
    modify (fun a => with_db (save_state (db a) (state a)) a).

Definition mark_rest (today : Z) : M unit :=
  a <~ get;;
  if _logged_today a today then ret tt
  else
    workout <~ try_ (current_workout a);;
    modify (fun a => with_db (log_entry (db a) "rest" "rest" today) a);;;
    modify (fun a =>
      with_state (state_set_last_log_date (Date.isoformat today) (state a)) a);;;
    modify (fun a => with_db (save_state (db a) (state a)) a).

(** ** Missed days *)

(** The dialog of [_check_missed_days] is a script: the button codes that
    [rumps.alert] returns, call after call ([1] for Done, [-1] for Rest, [0]
    for Skip); when the script is used up the next call does not return:
    it raises. *)
Fixpoint missed_loop (last : Z) (offsets : list Z) (script : list Z)
    (changed : bool) : M bool :=
  match offsets with
  | [] => ret changed
  | i :: offsets' =>
      let missed_date := last + i in
      a <~ get;;
      workout <~ try_ (current_workout a);;
      match script with
      | [] => raise
      | response :: script' =>
          (if response =? 1 then
             modify (fun a =>
               with_db (log_entry (db a) workout "done" missed_date) a);;;
             a <~ get;;
             p <~ try_ (advance a (position a));;
             modify (with_position p)
           else if response =? -1 then
             modify (fun a =>
               with_db (log_entry (db a) "rest" "rest" missed_date) a)
           else
             modify (fun a =>
               with_db (log_entry (db a) workout "skip" missed_date) a));;;
          missed_loop last offsets' script' true
      end
  end.

Definition _check_missed_days (today : Z) (script : list Z) : M unit :=
  a <~ get;;
  match last_log_date (state a) with
  | None => ret tt
  | Some EmptyString => ret tt
  | Some last_log_date =>
      match fromisoformat last_log_date with
      | None => ret tt
      | Some last =>
          let gap := today - last in
          if gap <=? 1 then ret tt
          else
            changed <~ missed_loop last (Py.range2 1 gap) script false;;
            if changed then
              modify (fun a =>
                with_state (state_set_position (position a) (state a)) a);;;
              modify (fun a =>
                with_state
                  (state_set_last_log_date (Date.isoformat (today - 1))
                     (state a)) a);;;
              modify (fun a => with_db (save_state (db a) (state a)) a)
            else ret tt
      end
  end.

(** ** Editing the rotation and the rest target *)

(** The dialogs return [response.clicked] and [response.text]. *)
Definition normalize_cycle (text : string) : list string :=
  (fun w => str_lower (str_strip w)) <$>
    filter (fun w => str_strip w <> EmptyString) (Py.split "," text).

Definition edit_cycle (clicked : bool) (text : string) : M unit :=
  if clicked then
    let new_cycle := normalize_cycle text in
    match new_cycle with
    | [] => ret tt
    | _ =>
        modify (with_cycle new_cycle);;;
        modify (with_position 0);;;
        modify (fun a => with_state (state_set_cycle (cycle a) (state a)) a);;;
        modify (fun a => with_state (state_set_position 0 (state a)) a);;;
        modify (fun a => with_db (save_state (db a) (state a)) a)
    end
  else ret tt.

Definition edit_rest_target (clicked : bool) (text : string) : M unit :=
  if clicked then
    match str_int (str_strip text) with
    | Some new_target =>
        if (0 <=? new_target) && (new_target <=? 7) then
          modify (fun a =>
            with_state (state_set_rest_days_per_week new_target (state a)) a);;;
          modify (fun a => with_db (save_state (db a) (state a)) a)
        else ret tt
    | None => ret tt
    end
  else ret tt.

(** ** The week schedule *)

(** The dictionary [logged]: the first entry seen for each date string. *)
Definition logged_map (entries : list Entry) : gmap string Entry :=
  foldl (fun logged entry =>
           let date_str := entry_date entry in
           match logged !! date_str with
           | None => <[date_str := entry]> logged
           | Some _ => logged
           end) ∅ entries.

Definition unlogged_days (logged : gmap string Entry) (monday today : Z)
  : list Z :=
  filter (fun i => logged !! Date.isoformat (monday + i) = None
                   /\ today <= monday + i) (Py.range 7).

Fixpoint rest_pick_loop (unlogged : list Z) (step : spec_float)
    (ks : list Z) (rest_indices : gset Z) : option (gset Z) :=
  match ks with
  | [] => Some rest_indices
  | i :: ks' =>
      r ← Py.round (Py.mul_int step (i + 1));
      let idx := r - 1 in
      let idx := Z.min idx (Py.len unlogged - 1) in
      u ← Py.getitem unlogged idx;
      rest_pick_loop unlogged step ks' ({[u]} ∪ rest_indices)
  end.

Definition predict_rest (unlogged : list Z) (rest_remaining : Z)
  : option (gset Z) :=
  if (0 <? rest_remaining) && (0 <? Py.len unlogged) then
    step ← Py.truediv (Py.len unlogged) rest_remaining;
    rest_pick_loop unlogged step (Py.range rest_remaining) ∅
  else Some ∅.

Definition line_logged (day_label mark wtype : string) : string :=
  "  " +:+ day_label +:+ "  " +:+ mark +:+ "  " +:+ wtype.
Definition line_past (day_label : string) : string :=
  "  " +:+ day_label +:+ "  ·  —".
Definition line_rest (day_label : string) : string :=
  "  " +:+ day_label +:+ "  ·  Rest".
Definition line_workout (day_label wtype : string) : string :=
  "  " +:+ day_label +:+ "  ·  " +:+ wtype.
Definition mark_today (day today : Z) (line : string) : string :=
  if day =? today then line +:+ "  ←" else line.

(** The body of the loop over the seven days: the line of day [i] and the
    cursor after it. An entry found in [logged] is a non-empty dictionary
    (it has the [date] key it was filed under), so that [if entry:] tests
    whether the date is logged. *)
Definition schedule_day (a : App) (logged : gmap string Entry)
    (rest_indices : gset Z) (monday today i cycle_pos : Z)
  : option (string * Z) :=
  let day := monday + i in
  let day_str := Date.isoformat day in
  let day_label := strftime_a day in
  '(line, cycle_pos) ←
    match logged !! day_str with
    | Some entry =>
        let status := default EmptyString (e_status entry) in
        let wtype := str_title (default "?" (e_workout_type entry)) in
        let mark := if bool_decide (status = "done") then "+" else "-" in
        let line := line_logged day_label mark wtype in
        if bool_decide (status = "done") then
          cycle_pos ← advance a cycle_pos; Some (line, cycle_pos)
        else Some (line, cycle_pos)
    | None =>
        if day <? today then Some (line_past day_label, cycle_pos)
        else if bool_decide (i ∈ rest_indices) then
          Some (line_rest day_label, cycle_pos)
        else
          k ← Py.mod_ cycle_pos (Py.len (cycle a));
          w ← Py.getitem (cycle a) k;
          cycle_pos ← advance a cycle_pos;
          Some (line_workout day_label (str_title w), cycle_pos)
    end;
  Some (mark_today day today line, cycle_pos).

Fixpoint schedule_loop (a : App) (logged : gmap string Entry)
    (rest_indices : gset Z) (monday today : Z) (ixs : list Z) (cycle_pos : Z)
  : option (list string) :=
  match ixs with
  | [] => Some []
  | i :: ixs' =>
      '(line, cycle_pos) ←
        schedule_day a logged rest_indices monday today i cycle_pos;
      days ← schedule_loop a logged rest_indices monday today ixs' cycle_pos;
      Some (line :: days)
  end.

Definition week_unlogged (a : App) (today : Z) : list Z :=
  unlogged_days (logged_map (get_history (db a) 30)) (monday_of today) today.

Definition rest_remaining (a : App) (today : Z) : Z :=
  let rest_target := default 2 (rest_days_per_week (state a)) in
  let rest_taken := _rest_days_this_week a today in
  Z.max 0 (rest_target - rest_taken).

Definition week_rest_indices (a : App) (today : Z) : option (gset Z) :=
  predict_rest (week_unlogged a today) (rest_remaining a today).

Definition week_start_pos (a : App) (today : Z) : option Z :=
  if _logged_today a today
  then Py.mod_ (position a - 1) (Py.len (cycle a))
  else Some (position a).

Definition _get_week_schedule (a : App) (today : Z) : option (list string) :=
  let monday := monday_of today in
  let logged := logged_map (get_history (db a) 30) in
  rest_indices ← week_rest_indices a today;
  cycle_pos ← week_start_pos a today;
  schedule_loop a logged rest_indices monday today (Py.range 7) cycle_pos.

End Tracker.

(** * Vocabulary of the statements *)

(** The outcome that [_check_missed_days] reads from a button code. *)
Definition decision (response : Z) : string :=
  if response =? 1 then "done" else if response =? -1 then "rest" else "skip".

(** The number of Done answers in a script. *)
Definition count_done (script : list Z) : nat :=
  length (filter (fun r => r = 1) script).

(** [k] steps of the rotation of length [n], from [p]. *)
Definition advance_n (n : Z) (k : nat) (p : Z) : Z :=
  Nat.iter k (fun p => (p + 1) mod n) p.

Definition is_done (e : Entry) : Prop := e_status e = Some "done".
Definition is_rest (e : Entry) : Prop := e_status e = Some "rest".

(** The number of log entries with status [done]. *)
Definition done_entries (es : list Entry) : nat := length (filter is_done es).

(** The entry that [log_entry] writes. *)
Definition entry_for (date : Z) (workout_type status : string) : Entry :=
  {| e_date := Some (Date.isoformat date);
     e_workout_type := Some workout_type;
     e_status := Some status |}.

(** The application in sync with its store: what [__init__] establishes. *)
Definition synced (a : App) : Prop :=
  db_state (db a) = Some (state a) /\
  st_cycle (state a) = cycle a /\
  st_position (state a) = position a.

(** The actions that log a day, and a run of them: an exception ends the
    run. *)
Inductive action : Type :=
| MarkDone (today : Z)
| MarkRest (today : Z)
| CheckMissed (today : Z) (script : list Z).

Section Runs.
Context `{PyLib}.

Definition step (act : action) : M unit :=
  match act with
  | MarkDone today => mark_done today
  | MarkRest today => mark_rest today
  | CheckMissed today script => _check_missed_days today script
  end.

Fixpoint run (acts : list action) : M unit :=
  match acts with
  | [] => ret tt
  | act :: acts' => step act;;; run acts'
  end.

End Runs.

(** The application on its first start, with an empty database. *)
Definition fresh_app : App :=
  let s := {| st_cycle := DEFAULT_CYCLE; st_position := 0;
              last_log_date := None; rest_days_per_week := Some 2 |} in
  {| db := {| db_state := Some s; db_logs := [] |}; state := s;
     cycle := DEFAULT_CYCLE; position := 0 |}.

(** The position and the log entries that a backfill over the days
    [last + i], [i] in [offsets], produces from the answers of a script, as
    long as there are answers. *)
Fixpoint backfill_pos (n : Z) (offsets script : list Z) (p : Z) : Z :=
  match offsets, script with
  | _ :: offsets', r :: script' =>
      backfill_pos n offsets' script' (if r =? 1 then (p + 1) mod n else p)
  | _, _ => p
  end.

Fixpoint backfill_log (cyc : list string) (last : Z) (offsets script : list Z)
    (p : Z) : list Entry :=
  match offsets, script with
  | i :: offsets', r :: script' =>
      let w := default EmptyString (cyc !! Z.to_nat (p mod Py.len cyc)) in
      entry_for (last + i) (if r =? -1 then "rest" else w) (decision r)
        :: backfill_log cyc last offsets' script'
             (if r =? 1 then (p + 1) mod Py.len cyc else p)
  | _, _ => []
  end.

(** The object after a backfill that appended [es] and moved the cursor
    to [p]; nothing is saved yet. *)
Definition after_backfill (a : App) (es : list Entry) (p : Z) : App :=
  {| db := {| db_state := db_state (db a); db_logs := db_logs (db a) ++ es |};
     state := state a; cycle := cycle a; position := p |}.

(** The object after one answered dialog. *)
Definition after_answer (a : App) (w : string) (date r : Z) : App :=
  if r =? 1 then
    with_position ((position a + 1) mod Py.len (cycle a))
      (with_db (log_entry (db a) w "done" date) a)
  else if r =? -1 then with_db (log_entry (db a) "rest" "rest" date) a
  else with_db (log_entry (db a) w "skip" date) a.

(** The call returned: no exception propagated. *)
Definition returned {A} (o : outcome A) : Prop :=
  match o with Ok _ _ => True | Exn _ => False end.

(** What a call did to the log and to the cursor: it appended [new] and
    moved the cursor one step for each [done] entry among them. *)
Definition logged_and_moved (a a' : App) (new : list Entry) : Prop :=
  db_logs (db a') = db_logs (db a) ++ new /\
  cycle a' = cycle a /\
  position a' =
    advance_n (Py.len (cycle a)) (done_entries new) (position a).

(** The entries are dated today, yesterday, the day before, and so on, in
    this order. *)
Definition dated_back_from `{PyLib} (today : Z) (es : list Entry) : Prop :=
  forall k e, es !! k = Some e ->
              fromisoformat (entry_date e) = Some (today - Z.of_nat k).

(** An entry that [_rest_days_this_week] counts: its date can be read, is
    between [monday] and [today], both included, and its status is
    [rest]. *)
Definition rest_in_week `{PyLib} (monday today : Z) (e : Entry) : bool :=
  match fromisoformat (entry_date e) with
  | Some d =>
      (monday <=? d) && (d <=? today) && bool_decide (e_status e = Some "rest")
  | None => false
  end.

(** The application with some log in its database. *)
Definition with_logs (es : list Entry) (a : App) : App :=
  with_db {| db_state := db_state (db a); db_logs := es |} a.

(** The slot that the [k]-th predicted rest day falls on, with exact
    arithmetic: the element of [unlogged] at the index
    [round(len(unlogged) * k / rest_remaining) - 1], at most the last index;
    the index [-1], for a quotient that rounds to 0, is the last element. *)
Definition rest_index (unlogged : list Z) (rest_remaining k : Z) : Z :=
  Z.min (Py.round_half_even (Py.len unlogged * k) rest_remaining - 1)
        (Py.len unlogged - 1).

Definition rest_slot (unlogged : list Z) (rest_remaining k : Z) : option Z :=
  Py.getitem unlogged (rest_index unlogged rest_remaining k).

(** The float computation of the loop of [predict_rest], for the [k]-th
    rest day. *)
Definition float_round (l r k : Z) : option Z :=
  step ← Py.truediv l r; Py.round (Py.mul_int step k).

Section Cursor.
Context `{PyLib}.

(** The dictionary [logged] of [_get_week_schedule]. *)
Definition week_logged (a : App) : gmap string Entry :=
  logged_map (get_history (db a) 30).

(** Day [i] of the week moves the running cursor: it is logged as [done],
    or it is not logged, not past, and not a predicted rest day. *)
Definition advancing (logged : gmap string Entry) (rest_indices : gset Z)
    (monday today i : Z) : bool :=
  match logged !! Date.isoformat (monday + i) with
  | Some entry => bool_decide (default EmptyString (e_status entry) = "done")
  | None => negb (monday + i <? today) && negb (bool_decide (i ∈ rest_indices))
  end.

(** The running cursor when the loop reaches day [i], from the cursor
    [start] on Monday. *)
Definition cursor_at (a : App) (logged : gmap string Entry)
    (rest_indices : gset Z) (monday today start i : Z) : Z :=
  advance_n (Py.len (cycle a))
    (length (filter (fun j => advancing logged rest_indices monday today j = true)
               (seqZ 0 i)))
    start.

End Cursor.

(** ** States of the examples

    Monday is 2024-01-01, the day 738886. *)

(** Monday is logged as done. *)
Definition app_mon : App := final (mark_done 738886 fresh_app).

(** Monday and Tuesday are logged as done. *)
Definition app_mon_tue : App :=
  final ((mark_done 738886;;; mark_done 738887) fresh_app).

(** Monday, Tuesday and Wednesday are logged as done. *)
Definition app_mon_tue_wed : App := final (mark_done 738888 app_mon_tue).

(** Monday and Wednesday are logged as done, Tuesday is not logged. *)
Definition app_mon_wed : App := final (mark_done 738888 app_mon).

(** Monday done, Tuesday rest, Wednesday done. *)
Definition app_mon_rest_wed : App :=
  final (mark_done 738888 (final (mark_rest 738887 app_mon))).

(** Two [rest] entries for Tuesday in the log. *)
Definition app_two_rests : App :=
  with_logs [entry_for 738887 "rest" "rest"; entry_for 738887 "rest" "rest"]
    fresh_app.

(** A database whose state document holds a position that is not an index
    into its rotation of three labels. *)
Definition db_position_5 : Db :=
  {| db_state := Some {| st_cycle := DEFAULT_CYCLE; st_position := 5;
                         last_log_date := None;
                         rest_days_per_week := Some 2 |};
     db_logs := [] |}.

(** Three days of actions with two workouts: done on Monday, rest on
    Tuesday, done on Wednesday. *)
Definition two_of_three : list action :=
  [MarkDone 738886; MarkRest 738887; MarkDone 738888].

(** A week of actions: done on Monday, rest on Tuesday, a second click on
    Tuesday, a start on Saturday that backfills Wednesday to Friday, and
    done on Saturday. *)
Definition week_acts : list action :=
  [MarkDone 738886; MarkRest 738887; MarkDone 738887;
   CheckMissed 738891 [1; 0; -1]; MarkDone 738891].

(** * Every operation of the tracker *)

(** The calls that change the tracker: the two buttons, the start-up
    check, and the two edit dialogs with what they return. *)
Inductive command : Type :=
| CmdDone (today : Z)
| CmdRest (today : Z)
| CmdMissed (today : Z) (script : list Z)
| CmdEditCycle (clicked : bool) (text : string)
| CmdEditRest (clicked : bool) (text : string).

Section Commands.
Context `{PyLib}.

Definition exec1 (c : command) : M unit :=
  match c with
  | CmdDone today => mark_done today
  | CmdRest today => mark_rest today
  | CmdMissed today script => _check_missed_days today script
  | CmdEditCycle clicked text => edit_cycle clicked text
  | CmdEditRest clicked text => edit_rest_target clicked text
  end.

(** A sequence of calls; an exception ends it. *)
Fixpoint exec (cs : list command) : M unit :=
  match cs with
  | [] => ret tt
  | c :: cs' => exec1 c;;; exec cs'
  end.

End Commands.

(** The clicks of one day: [true] for Done, [false] for Rest Instead. *)
Definition click (today : Z) (done : bool) : M unit :=
  if done then mark_done today else mark_rest today.

Fixpoint clicks (today : Z) (bs : list bool) : M unit :=
  match bs with
  | [] => ret tt
  | b :: bs' => click today b;;; clicks today bs'
  end.

(** An entry as [log_entry] writes them: dated, with one of the three
    statuses, and labelled [rest] when the status is [rest]. *)
Definition written (e : Entry) : Prop :=
  exists d w st,
    e = entry_for d w st /\
    (st = "done" \/ st = "rest" \/ st = "skip") /\
    (st = "rest" -> w = "rest").

(** The state a tracker keeps: a rotation that is not empty, a position
    that is an index into it, and a rest target from 0 to 7. *)
Definition well_formed (a : App) : Prop :=
  cycle a <> [] /\
  0 <= position a < Py.len (cycle a) /\
  0 <= default 2 (rest_days_per_week (state a)) <= 7.

(** The tracker after a backfill that ran to its end on [today]: the
    position and the last log date are written to the state, and the state
    is saved. *)
Definition after_reconcile (a : App) (today : Z) (es : list Entry) (p : Z)
  : App :=
  let s := state_set_last_log_date (Date.isoformat (today - 1))
             (state_set_position p (state a)) in
  {| db := save_state (db (after_backfill a es p)) s; state := s;
     cycle := cycle a; position := p |}.

(** A week of calls for the examples: done on Monday, a rest target of 3,
    rest on Tuesday, a start on Saturday that backfills three days, a new
    rotation, done on Saturday. *)
Definition busy_week : list command :=
  [CmdDone 738886; CmdEditRest true "3"; CmdRest 738887;
   CmdMissed 738891 [1; 0; -1]; CmdEditCycle true "Upper, Lower";
   CmdDone 738891].

(** Day [j] of the week is logged as [done] in the dictionary. *)
Definition done_day (logged : gmap string Entry) (monday j : Z) : bool :=
  match logged !! Date.isoformat (monday + j) with
  | Some entry => bool_decide (default EmptyString (e_status entry) = "done")
  | None => false
  end.

(** The number of days of the week before [today] that are logged as
    [done]. *)
Definition done_days_before (logged : gmap string Entry) (today : Z) : nat :=
  length (filter (fun j => done_day logged (monday_of today) j = true)
            (seqZ 0 (Date.weekday today))).

(** ** The text of the rotation dialog *)

(** [sep.join(ws)] *)
Fixpoint join (sep : string) (ws : list string) : string :=
  match ws with
  | [] => EmptyString
  | w :: ws' =>
      match ws' with
      | [] => w
      | _ => w +:+ sep +:+ join sep ws'
      end
  end.

(** [current_cycle], the text that the dialog of [edit_cycle] opens with. *)
Definition current_cycle (a : App) : string := join ", " (cycle a).

(** A label without a comma. *)
Fixpoint comma_free (w : string) : bool :=
  match w with
  | EmptyString => true
  | String c w' => negb (Ascii.eqb c ",") && comma_free w'
  end.

(** A label that the normalisation of [edit_cycle] leaves as it is, alone
    and after the blank that [join] puts before it. *)
Definition clean_label `{PyLib} (w : string) : Prop :=
  comma_free w = true /\ w <> EmptyString /\
  str_strip w = w /\ str_strip (String " " w) = w /\ str_lower w = w.

(** The state document that [get_state] writes on the first run. *)
Definition first_state : State :=
  {| st_cycle := DEFAULT_CYCLE; st_position := 0;
     last_log_date := None; rest_days_per_week := Some 2 |}.

(** The number of days of the week up to [today], today included, that are
    logged as [done]. *)
Definition done_days_through (logged : gmap string Entry) (today : Z) : nat :=
  length (filter (fun j => done_day logged (monday_of today) j = true)
            (seqZ 0 (Date.weekday today + 1))).

(** The tracker after Rest Instead on the first Monday of the examples. *)
Definition app_rest_mon : App := final (mark_rest 738886 fresh_app).

(** * The menu *)

(** [str(n)], as an f-string formats an integer. *)
Definition str_of_int (n : Z) : string := NilZero.string_of_int (Z.to_int n).

(** What a menu item calls. *)
Inductive callback : Type :=
| cb_mark_done
| cb_mark_rest
| cb_show_schedule
| cb_edit_cycle
| cb_edit_rest_target
| cb_quit.

(** The calls of [self.menu.add], in order: an item with its title and its
    callback, a separator ([None]), or the rotation item with the titles of
    the items added to it. *)
Inductive menu_entry : Type :=
| MenuItem (title : string) (cb : option callback)
| Separator
| Submenu (title : string) (subitems : list string).

(** The title of the application and the menu that [_build_menu] leaves. *)
Record Menu := { menu_title : string; menu_items : list menu_entry }.

Definition title_rest : string := "😴 Rest".
Definition title_done (logged_type : string) : string :=
  "✅ " +:+ logged_type.
Definition title_current (wtype : string) : string := "🏋️ " +:+ wtype.
Definition arrow_here : string := "→ ".
Definition arrow_none : string := "    ".
Definition rotation_line (arrow wtype : string) : string :=
  arrow +:+ "🏋️ " +:+ wtype.
Definition done_button : menu_entry := MenuItem "✅ Done" (Some cb_mark_done).
Definition rest_button : menu_entry :=
  MenuItem "😴 Rest Instead" (Some cb_mark_rest).
Definition streak_item (streak : Z) : menu_entry :=
  MenuItem ("🔥 " +:+ str_of_int streak +:+ " day streak") None.
Definition rest_counter_item (rest_taken rest_target : Z) : menu_entry :=
  MenuItem ("😴 Rest: " +:+ str_of_int rest_taken +:+ "/"
            +:+ str_of_int rest_target +:+ " this week") None.
Definition fixed_items : list menu_entry :=
  [MenuItem "📅 View Schedule" (Some cb_show_schedule);
   MenuItem "Edit Cycle..." (Some cb_edit_cycle);
   MenuItem "Rest Days/Week..." (Some cb_edit_rest_target);
   MenuItem "Quit" (Some cb_quit)].

Section Menu.
Context `{PyLib}.

(** The loop over [enumerate(self.cycle)], from index [i]. *)
Fixpoint rotation_loop (a : App) (i : Z) (ws : list string)
  : option (list string) :=
  match ws with
  | [] => Some []
  | w :: ws' =>
      k ← Py.mod_ (position a) (Py.len (cycle a));
      let arrow := if i =? k then arrow_here else arrow_none in
      lines ← rotation_loop a (i + 1) ws';
      Some (rotation_line arrow (str_title w) :: lines)
  end.

Definition _build_menu (a : App) (today : Z) : option Menu :=
  current ← current_workout a;
  let done_today := _logged_today a today in
  let streak := _get_streak a today in
  let streak_items :=
    if 0 <? streak then [streak_item streak; Separator] else [] in
  let '(title, today_items) :=
    if done_today then
      let entries := get_history (db a) 1 in
      let logged_type :=
        match entries with
        | e :: _ => str_title (default current (e_workout_type e))
        | [] => str_title current
        end in
      let logged_status :=
        match entries with
        | e :: _ => default EmptyString (e_status e)
        | [] => EmptyString
        end in
      let title :=
        if bool_decide (str_lower logged_type = "rest")
           || bool_decide (logged_status = "rest")
        then title_rest else title_done logged_type in
      (title, [MenuItem "Today's workout logged!" None; Separator])
    else
      (title_current (str_title current),
       [MenuItem ("Today: " +:+ str_title current +:+ " Day") None;
        Separator; done_button; rest_button; Separator]) in
  let rest_target := default 2 (rest_days_per_week (state a)) in
  let rest_taken := _rest_days_this_week a today in
  lines ← rotation_loop a 0 (cycle a);
  Some {| menu_title := title;
          menu_items :=
            streak_items ++ today_items
            ++ [rest_counter_item rest_taken rest_target; Separator]
            ++ [Submenu "— Rotation —" lines; Separator]
            ++ fixed_items |}.

End Menu.

(** A menu entry that calls [mark_done] or [mark_rest]. *)
Definition logs_today (e : menu_entry) : bool :=
  match e with
  | MenuItem _ (Some cb_mark_done) | MenuItem _ (Some cb_mark_rest) => true
  | _ => false
  end.

(** The rotation items of a menu, each with the titles of its items. *)
Definition rotation_of (m : Menu) : list (list string) :=
  omap (fun e => match e with Submenu _ lines => Some lines | _ => None end)
    (menu_items m).

(** * Facts about the calendar *)

Module DateFacts.
Import Date.

Lemma leap_decomp (a b c d : Z) :
  0 <= b <= 3 -> 0 <= c <= 24 -> 0 <= d <= 3 ->
  _is_leap (a * 400 + 1 + (b * 100 + c * 4 + d))
  = (d =? 3) && (negb (c =? 24) || (b =? 3)).
Proof.
  intros Hb Hc Hd. unfold _is_leap.
  set (y := a * 400 + 1 + (b * 100 + c * 4 + d)).
  assert (H4 : y mod 4 = (d + 1) mod 4).
  { unfold y. replace (a * 400 + 1 + (b * 100 + c * 4 + d))
      with (d + 1 + (a * 100 + b * 25 + c) * 4) by ring.
    apply Z.mod_add. lia. }
  assert (H100 : y mod 100 = (c * 4 + d + 1) mod 100).
  { unfold y. replace (a * 400 + 1 + (b * 100 + c * 4 + d))
      with (c * 4 + d + 1 + (a * 4 + b) * 100) by ring.
    apply Z.mod_add. lia. }
  assert (H400 : y mod 400 = (b * 100 + c * 4 + d + 1) mod 400).
  { unfold y. replace (a * 400 + 1 + (b * 100 + c * 4 + d))
      with (b * 100 + c * 4 + d + 1 + a * 400) by ring.
    apply Z.mod_add. lia. }
  rewrite H4, H100, H400. clear H4 H100 H400 y.
  repeat match goal with
         | |- context [?x =? ?y] => destruct (Z.eqb_spec x y)
         end; simpl; try reflexivity; exfalso;
    Z.div_mod_to_equations; lia.
Qed.

Lemma dby_decomp (a b c d : Z) :
  0 <= b <= 3 -> 0 <= c <= 24 -> 0 <= d <= 3 ->
  _days_before_year (a * 400 + 1 + (b * 100 + c * 4 + d))
  = a * 146097 + b * 36524 + c * 1461 + d * 365.
Proof.
  intros Hb Hc Hd. unfold _days_before_year.
  replace (a * 400 + 1 + (b * 100 + c * 4 + d) - 1)
    with (a * 400 + b * 100 + c * 4 + d) by ring.
  set (y := a * 400 + b * 100 + c * 4 + d).
  assert (H4 : y / 4 = a * 100 + b * 25 + c).
  { symmetry. apply (Z.div_unique y 4 _ d); [lia | unfold y; ring]. }
  assert (H100 : y / 100 = a * 4 + b).
  { symmetry. apply (Z.div_unique y 100 _ (c * 4 + d)); [lia | unfold y; ring]. }
  assert (H400 : y / 400 = a).
  { symmetry. apply (Z.div_unique y 400 _ (b * 100 + c * 4 + d)); [lia | unfold y; ring]. }
  rewrite H4, H100, H400. unfold y. ring.
Qed.

Lemma month_day_spec (leapyear : bool) (n : Z) :
  0 <= n < 365 + b2z leapyear ->
  let '(m, d) := month_day leapyear n in
  1 <= m <= 12 /\
  1 <= d <= (if (m =? 2) && leapyear then 29 else _DAYS_IN_MONTH m) /\
  _DAYS_BEFORE_MONTH m + b2z ((m >? 2) && leapyear) + d = n + 1.
Proof.
  intros Hn. unfold month_day. rewrite Z.shiftr_div_pow2 by lia.
  change (2 ^ 5) with 32.
  pose proof (Z.div_mod (n + 50) 32 ltac:(lia)) as E.
  pose proof (Z.mod_pos_bound (n + 50) 32 ltac:(lia)) as B.
  set (m := (n + 50) / 32) in *. set (r := (n + 50) mod 32) in *.
  clearbody m r.
  assert (Hm : 1 <= m <= 13) by (destruct leapyear; simpl in Hn; lia).
  assert (Hc : m = 1 \/ m = 2 \/ m = 3 \/ m = 4 \/ m = 5 \/ m = 6 \/ m = 7 \/
               m = 8 \/ m = 9 \/ m = 10 \/ m = 11 \/ m = 12 \/ m = 13) by lia.
  destruct leapyear; simpl in Hn;
    repeat (destruct Hc as [-> | Hc]); try subst m;
    repeat match goal with
      | |- context [_DAYS_BEFORE_MONTH ?k] =>
          let v := eval vm_compute in (_DAYS_BEFORE_MONTH k) in
          change (_DAYS_BEFORE_MONTH k) with v
      | |- context [_DAYS_IN_MONTH ?k] =>
          let v := eval vm_compute in (_DAYS_IN_MONTH k) in
          change (_DAYS_IN_MONTH k) with v
      | |- context [b2z ?k] =>
          let v := eval vm_compute in (b2z k) in change (b2z k) with v
      end;
    match goal with
    | |- context [?x >? ?y] => destruct (Z.gtb_spec x y)
    end; cbv beta iota zeta;
    repeat match goal with
      | |- context [_DAYS_IN_MONTH ?k] =>
          let v := eval vm_compute in (_DAYS_IN_MONTH k) in
          change (_DAYS_IN_MONTH k) with v
      | |- context [_DAYS_BEFORE_MONTH ?k] =>
          let v := eval vm_compute in (_DAYS_BEFORE_MONTH k) in
          change (_DAYS_BEFORE_MONTH k) with v
      | |- context [b2z ?k] =>
          let v := eval vm_compute in (b2z k) in change (b2z k) with v
      | |- context [if ?k then _ else _] =>
          let v := eval vm_compute in k in change k with v
      end; cbv beta iota; lia.
Qed.

Lemma ord2ymd_spec (n : Z) :
  MINORD <= n <= MAXORD ->
  exists y m d, _ord2ymd n = (y, m, d) /\ valid_ymd y m d /\ _ymd2ord y m d = n.
Proof.
  unfold MINORD, MAXORD. intros Hn. unfold _ord2ymd, _DI400Y, _DI100Y, _DI4Y.
  pose proof (Z.div_mod (n - 1) 146097 ltac:(lia)) as E1.
  pose proof (Z.mod_pos_bound (n - 1) 146097 ltac:(lia)) as B1.
  set (a := (n - 1) / 146097) in *. set (r1 := (n - 1) mod 146097) in *.
  pose proof (Z.div_mod r1 36524 ltac:(lia)) as E2.
  pose proof (Z.mod_pos_bound r1 36524 ltac:(lia)) as B2.
  set (b := r1 / 36524) in *. set (r2 := r1 mod 36524) in *.
  pose proof (Z.div_mod r2 1461 ltac:(lia)) as E3.
  pose proof (Z.mod_pos_bound r2 1461 ltac:(lia)) as B3.
  set (c := r2 / 1461) in *. set (r3 := r2 mod 1461) in *.
  pose proof (Z.div_mod r3 365 ltac:(lia)) as E4.
  pose proof (Z.mod_pos_bound r3 365 ltac:(lia)) as B4.
  set (d := r3 / 365) in *. set (r4 := r3 mod 365) in *.
  clearbody a r1 b r2 c r3 d r4.
  assert (Ha : 0 <= a <= 24) by lia.
  assert (Hb : 0 <= b <= 4) by lia.
  assert (Hc : 0 <= c <= 24) by lia.
  assert (Hd : 0 <= d <= 4) by lia.
  destruct (Z.eqb_spec d 4) as [Hd4|Hd4]; simpl orb.
  - (* 31 December of the leap year that ends a 4-year cycle *)
    exists (a * 400 + 1 + (b * 100 + c * 4 + d) - 1), 12, 31.
    split; [reflexivity|].
    replace (a * 400 + 1 + (b * 100 + c * 4 + d) - 1)
      with (a * 400 + 1 + (b * 100 + c * 4 + 3)) by lia.
    unfold valid_ymd, _ymd2ord, _days_in_month, _days_before_month.
    rewrite dby_decomp, leap_decomp by lia.
    destruct (Z.eqb_spec c 24); [lia|]. cbn. lia.
  - destruct (Z.eqb_spec b 4) as [Hb4|Hb4].
    + (* 31 December of the year that ends a 400-year cycle *)
      exists (a * 400 + 1 + (b * 100 + c * 4 + d) - 1), 12, 31.
      split; [reflexivity|].
      replace (a * 400 + 1 + (b * 100 + c * 4 + d) - 1)
        with (a * 400 + 1 + (3 * 100 + 24 * 4 + 3)) by lia.
      unfold valid_ymd, _ymd2ord, _days_in_month, _days_before_month.
      rewrite dby_decomp, leap_decomp by lia. cbn. lia.
    + set (leap := (d =? 3) && (negb (c =? 24) || (b =? 3))).
      set (y := a * 400 + 1 + (b * 100 + c * 4 + d)).
      pose proof (month_day_spec leap r4) as Hmd.
      exists y, (fst (month_day leap r4)), (snd (month_day leap r4)).
      split.
      { unfold month_day. cbv zeta.
        destruct (_ >? _); reflexivity. }
      destruct (month_day leap r4) as [m dd]. cbn [fst snd].
      destruct Hmd as (Hm & Hdd & Hsum); [destruct leap; simpl; lia|].
      unfold valid_ymd, _ymd2ord, _days_in_month, _days_before_month, y.
      rewrite dby_decomp, leap_decomp by lia. fold leap.
      repeat split; try lia.
Qed.

Lemma digit_val_digit (n : Z) : digit_val (digit n) = Some (n mod 10).
Proof.
  unfold digit_val, digit.
  pose proof (Z.mod_pos_bound n 10 ltac:(lia)) as B.
  rewrite nat_ascii_embedding by lia.
  rewrite Nat2Z.inj_add, Z2Nat.id by lia.
  change (Z.of_nat 48) with 48.
  destruct (Z.leb_spec 48 (48 + n mod 10)); [|lia].
  destruct (Z.leb_spec (48 + n mod 10) 57); [|lia].
  cbn [andb]. f_equal. lia.
Qed.


Lemma parse_fmt2 (n : Z) : 0 <= n <= 99 ->
  parse_digits [digit (n / 10); digit n] 0 = Some n.
Proof.
  intros Hn. cbn [parse_digits]. rewrite !digit_val_digit. f_equal.
  rewrite (Z.mod_small (n / 10) 10).
  - pose proof (Z.div_mod n 10 ltac:(lia)). lia.
  - split; [apply Z.div_pos; lia | apply Z.div_lt_upper_bound; lia].
Qed.

Lemma parse_fmt4 (n : Z) : 0 <= n <= 9999 ->
  parse_digits [digit (n / 1000); digit (n / 100); digit (n / 10); digit n] 0 = Some n.
Proof.
  intros Hn. cbn [parse_digits]. rewrite !digit_val_digit. f_equal.
  assert (H1 : n / 100 = n / 10 / 10) by (rewrite Z.div_div by lia; reflexivity).
  assert (H2 : n / 1000 = n / 10 / 10 / 10) by (rewrite !Z.div_div by lia; reflexivity).
  rewrite H2, H1.
  pose proof (Z.div_mod n 10 ltac:(lia)) as En.
  pose proof (Z.mod_pos_bound n 10 ltac:(lia)) as Bn.
  set (a := n / 10) in *.
  pose proof (Z.div_mod a 10 ltac:(lia)) as Ea.
  pose proof (Z.mod_pos_bound a 10 ltac:(lia)) as Ba.
  set (b := a / 10) in *.
  pose proof (Z.div_mod b 10 ltac:(lia)) as Eb.
  pose proof (Z.mod_pos_bound b 10 ltac:(lia)) as Bb.
  set (c := b / 10) in *.
  assert (Hc : 0 <= c < 10) by lia.
  rewrite (Z.mod_small c 10) by lia. lia.
Qed.

Lemma days_in_month_le (y m : Z) : _days_in_month y m <= 31.
Proof.
  unfold _days_in_month. destruct (_ && _); [lia|].
  unfold _DAYS_IN_MONTH.
  repeat match goal with |- context [match ?x with _ => _ end] => destruct x end; lia.
Qed.

(** [fromisoformat] reads back what [isoformat] writes, for every date
    between 0001-01-01 and 9999-12-31. *)
Lemma fromisoformat_isoformat (n : Z) :
  MINORD <= n <= MAXORD -> fromisoformat (isoformat n) = Some n.
Proof.
  intros Hn. destruct (ord2ymd_spec n Hn) as (y & m & d & E & (Hy & Hm & Hd) & Hord).
  unfold isoformat. rewrite E. unfold fromisoformat, fmt4, fmt2.
  cbv [String.append list_ascii_of_string].
  change (Ascii.eqb "-" "-") with true. cbn [negb orb].
  pose proof (days_in_month_le y m) as Hd'.
  rewrite parse_fmt4, !parse_fmt2 by lia.
  repeat match goal with
         | |- context [?x <=? ?y] => destruct (Z.leb_spec x y); [|lia]
         end.
  cbn [andb]. congruence.
Qed.

Lemma isoformat_inj (a b : Z) :
  MINORD <= a <= MAXORD -> MINORD <= b <= MAXORD ->
  isoformat a = isoformat b -> a = b.
Proof.
  intros Ha Hb E. apply (f_equal fromisoformat) in E.
  rewrite !fromisoformat_isoformat in E by assumption. congruence.
Qed.

End DateFacts.

(** * Lemmas on the model *)

Ltac unfold_m :=
  unfold bind, get, modify, try_, ret, raise in *.

(** Membership in a list that is written out. *)
Ltac in_list := solve [repeat first [left | right]].

Lemma fresh_app_init : init {| db_state := None; db_logs := [] |} = Some fresh_app.
Proof. reflexivity. Qed.

Lemma len_pos {A} (l : list A) : l <> [] -> 0 < Py.len l.
Proof. destruct l; [congruence|]. intros _. unfold Py.len. simpl. lia. Qed.

Lemma getitem_nonneg {A} (l : list A) (i : Z) :
  0 <= i -> Py.getitem l i = l !! Z.to_nat i.
Proof.
  intros Hi. unfold Py.getitem. destruct (Z.ltb_spec i 0); [lia|reflexivity].
Qed.

Lemma getitem_in_range {A} (l : list A) (i : Z) :
  0 <= i < Py.len l -> is_Some (Py.getitem l i).
Proof.
  intros Hi. rewrite getitem_nonneg by lia.
  apply lookup_lt_is_Some. unfold Py.len in Hi. lia.
Qed.

Lemma mod_len {A} (l : list A) (p : Z) :
  l <> [] -> Py.mod_ p (Py.len l) = Some (p mod Py.len l).
Proof.
  intros Hl. pose proof (len_pos l Hl). unfold Py.mod_.
  destruct (Z.eqb_spec (Py.len l) 0); [lia|reflexivity].
Qed.

(** With a rotation that is not empty, [current_workout] returns a label. *)
Lemma current_workout_some (a : App) :
  cycle a <> [] ->
  exists w, current_workout a = Some w /\
            cycle a !! Z.to_nat (position a mod Py.len (cycle a)) = Some w.
Proof.
  intros Hc. unfold current_workout. rewrite mod_len by assumption. simpl.
  pose proof (len_pos _ Hc) as Hl.
  pose proof (Z.mod_pos_bound (position a) (Py.len (cycle a)) Hl) as Hb.
  destruct (getitem_in_range (cycle a) _ Hb) as [w Hw].
  exists w. split; [assumption|]. rewrite getitem_nonneg in Hw by lia. assumption.
Qed.

Lemma logged_today_true (a : App) (today : Z) :
  last_log_date (state a) = Some (Date.isoformat today) ->
  _logged_today a today = true.
Proof. intros E. unfold _logged_today. rewrite bool_decide_eq_true. assumption. Qed.

Lemma logged_today_false (a : App) (today : Z) :
  last_log_date (state a) <> Some (Date.isoformat today) ->
  _logged_today a today = false.
Proof. intros E. unfold _logged_today. rewrite bool_decide_eq_false. assumption. Qed.

(** What [mark_done] does on a day that is not logged yet. *)
Lemma mark_done_fresh (a : App) (today : Z) (w : string) :
  _logged_today a today = false ->
  cycle a <> [] ->
  current_workout a = Some w ->
  let p := (position a + 1) mod Py.len (cycle a) in
  let s := state_set_last_log_date (Date.isoformat today)
             (state_set_position p (state a)) in
  mark_done today a =
    Ok tt {| db := save_state (log_entry (db a) w "done" today) s;
             state := s; cycle := cycle a; position := p |}.
Proof.
  intros Hl Hc Hw. unfold mark_done. unfold_m. rewrite Hl, Hw. simpl.
  unfold advance. simpl. rewrite mod_len by assumption. reflexivity.
Qed.

(** What [mark_rest] does on a day that is not logged yet. *)
Lemma mark_rest_fresh (a : App) (today : Z) :
  _logged_today a today = false ->
  cycle a <> [] ->
  let s := state_set_last_log_date (Date.isoformat today) (state a) in
  mark_rest today a =
    Ok tt {| db := save_state (log_entry (db a) "rest" "rest" today) s;
             state := s; cycle := cycle a; position := position a |}.
Proof.
  intros Hl Hc. unfold mark_rest. unfold_m. rewrite Hl.
  destruct (current_workout_some a Hc) as (w & Hw & _). rewrite Hw. reflexivity.
Qed.

(** Dropping the empty labels before or after lower-casing is the same. *)
Lemma normalize_cycle_alt `{PyLib} (text : string) :
  str_lower_law ->
  normalize_cycle text =
    filter (fun w => w <> EmptyString)
      ((fun w => str_lower (str_strip w)) <$> Py.split "," text).
Proof.
  intros Hlow. unfold normalize_cycle.
  induction (Py.split "," text) as [|w ws IH]; [reflexivity|].
  rewrite fmap_cons, !filter_cons.
  destruct (decide (str_strip w <> EmptyString)) as [Hw|Hw];
    destruct (decide (str_lower (str_strip w) <> EmptyString)) as [Hl|Hl].
  - rewrite fmap_cons, IH. reflexivity.
  - exfalso. apply Hl. intros E. apply Hw. apply Hlow. exact E.
  - exfalso. apply Hw. intros E. apply Hl. apply Hlow. exact E.
  - exact IH.
Qed.

Lemma ascii_lower_law : @str_lower_law ascii_lib.
Proof. intros s. destruct s; simpl; split; congruence. Qed.

Lemma ascii_fromisoformat_law : @fromisoformat_law ascii_lib.
Proof. intros d Hd. apply DateFacts.fromisoformat_isoformat. assumption. Qed.

(** ** The loop of [_check_missed_days] *)

Lemma after_backfill_nil (a : App) : after_backfill a [] (position a) = a.
Proof.
  destruct a as [[ds dl] s c p]. unfold after_backfill. simpl.
  rewrite app_nil_r. reflexivity.
Qed.

Lemma missed_loop_cons `{PyLib} (last i r : Z) (offsets script : list Z)
    (changed : bool) (a : App) (w : string) :
  cycle a <> [] -> current_workout a = Some w ->
  missed_loop last (i :: offsets) (r :: script) changed a =
  missed_loop last offsets script true (after_answer a w (last + i) r).
Proof.
  intros Hc Hw. cbn [missed_loop]. unfold after_answer. unfold_m. rewrite Hw.
  destruct (r =? 1).
  - unfold advance. cbn [with_db cycle position].
    rewrite mod_len by assumption. reflexivity.
  - destruct (r =? -1); reflexivity.
Qed.

Lemma missed_loop_out `{PyLib} (last i : Z) (offsets : list Z)
    (changed : bool) (a : App) :
  cycle a <> [] -> missed_loop last (i :: offsets) [] changed a = Exn a.
Proof.
  intros Hc. destruct (current_workout_some a Hc) as (w & Hw & _).
  cbn [missed_loop]. unfold_m. rewrite Hw. reflexivity.
Qed.

Lemma missed_loop_spec `{PyLib} (last : Z) (offsets script : list Z)
    (changed : bool) (a : App) :
  cycle a <> [] ->
  let a' := after_backfill a
              (backfill_log (cycle a) last offsets script (position a))
              (backfill_pos (Py.len (cycle a)) offsets script (position a)) in
  missed_loop last offsets script changed a =
    if decide (length offsets <= length script)%nat
    then Ok (changed || bool_decide (offsets <> [])) a'
    else Exn a'.
Proof.
  revert script changed a.
  induction offsets as [|i offsets IH]; intros script changed a Hc.
  - cbv zeta. cbn [missed_loop backfill_log backfill_pos length].
    rewrite after_backfill_nil.
    case_decide as Hn; [|lia].
    unfold ret. rewrite bool_decide_eq_false_2 by congruence.
    rewrite orb_false_r. reflexivity.
  - destruct (current_workout_some a Hc) as (w & Hw & Hlk).
    cbv zeta. destruct script as [|r script].
    + rewrite missed_loop_out by assumption.
      cbn [backfill_log backfill_pos length]. rewrite after_backfill_nil.
      case_decide as Hn; [simpl in Hn; lia|reflexivity].
    + rewrite (missed_loop_cons _ _ _ _ _ _ _ w) by assumption.
      assert (Hc1 : cycle (after_answer a w (last + i) r) = cycle a).
      { unfold after_answer. destruct (r =? 1); [|destruct (r =? -1)]; reflexivity. }
      specialize (IH script true (after_answer a w (last + i) r)).
      cbv zeta in IH. rewrite IH by (rewrite Hc1; assumption). clear IH.
      cbn [backfill_log backfill_pos length]. rewrite Hlk. cbn [default].
      rewrite Hc1.
      assert (Ea : forall es p,
        after_backfill (after_answer a w (last + i) r) es p =
        after_backfill a
          (entry_for (last + i) (if r =? -1 then "rest" else w) (decision r) :: es) p).
      { intros es p. unfold after_backfill, after_answer, decision.
        destruct (Z.eqb_spec r 1) as [->|Hr1].
        - cbn. rewrite <- app_assoc. reflexivity.
        - destruct (r =? -1); cbn; rewrite <- app_assoc; reflexivity. }
      rewrite Ea.
      assert (Ep : position (after_answer a w (last + i) r)
                   = if r =? 1 then (position a + 1) mod Py.len (cycle a)
                     else position a).
      { unfold after_answer. destruct (r =? 1); [|destruct (r =? -1)]; reflexivity. }
      rewrite Ep.
      rewrite (bool_decide_eq_true_2 (i :: offsets <> [])) by congruence.
      rewrite orb_true_r. cbn [orb].
      destruct (decide (length offsets <= length script)%nat);
        destruct (decide (S (length offsets) <= S (length script))%nat);
        try lia; reflexivity.
Qed.

(** ** The rotation *)

Lemma advance_n_succ_r (n : Z) (k : nat) (p : Z) :
  advance_n n (S k) p = advance_n n k ((p + 1) mod n).
Proof.
  unfold advance_n. exact (Nat.iter_succ_r k (fun q => (q + 1) mod n) p).
Qed.

(** After at least one step the position is reduced modulo the length. *)
Lemma advance_n_pos (n : Z) (k : nat) (p : Z) :
  0 < n -> (0 < k)%nat -> advance_n n k p = (p + Z.of_nat k) mod n.
Proof.
  intros Hn Hk. destruct k as [|k]; [lia|]. clear Hk.
  induction k as [|k IH].
  - reflexivity.
  - change (advance_n n (S (S k)) p) with ((advance_n n (S k) p + 1) mod n).
    rewrite IH. rewrite Zplus_mod_idemp_l. f_equal. lia.
Qed.

Lemma advance_n_in_range (n : Z) (k : nat) (p : Z) :
  0 <= p < n -> advance_n n k p = (p + Z.of_nat k) mod n.
Proof.
  intros Hp. destruct k as [|k].
  - simpl. rewrite Z.add_0_r, Z.mod_small by assumption. reflexivity.
  - apply advance_n_pos; lia.
Qed.

Lemma count_done_cons (r : Z) (script : list Z) :
  count_done (r :: script) =
  if r =? 1 then S (count_done script) else count_done script.
Proof.
  unfold count_done. rewrite filter_cons.
  destruct (Z.eqb_spec r 1); case_decide; try contradiction; reflexivity.
Qed.

Lemma backfill_pos_advance (n : Z) (offsets script : list Z) (p : Z) :
  backfill_pos n offsets script p =
  advance_n n (count_done (take (length offsets) script)) p.
Proof.
  revert script p. induction offsets as [|i offsets IH]; intros script p.
  - reflexivity.
  - destruct script as [|r script]; [reflexivity|].
    cbn [backfill_pos length take]. rewrite IH, count_done_cons.
    destruct (r =? 1); [rewrite advance_n_succ_r|]; reflexivity.
Qed.

Lemma backfill_log_length (cyc : list string) (last : Z)
    (offsets script : list Z) (p : Z) :
  length (backfill_log cyc last offsets script p)
  = Nat.min (length offsets) (length script).
Proof.
  revert script p. induction offsets as [|i offsets IH]; intros script p.
  - reflexivity.
  - destruct script as [|r script]; [reflexivity|].
    cbn [backfill_log length]. rewrite IH. reflexivity.
Qed.

(** The [k]-th entry of a backfill is dated [last + i] for the [k]-th offset
    [i] and records the [k]-th answer; the label is [rest] for a Rest answer
    and otherwise the workout the cursor is on after the Done answers
    before it. *)
Lemma backfill_log_lookup (cyc : list string) (last : Z)
    (offsets script : list Z) (p : Z) (k : nat) (i r : Z) :
  offsets !! k = Some i -> script !! k = Some r ->
  backfill_log cyc last offsets script p !! k =
    Some (entry_for (last + i)
            (if r =? -1 then "rest"
             else default EmptyString
                    (cyc !! Z.to_nat
                       (advance_n (Py.len cyc) (count_done (take k script)) p
                        mod Py.len cyc)))
            (decision r)).
Proof.
  revert script p k. induction offsets as [|j offsets IH]; intros script p k Ho Hs.
  - discriminate.
  - destruct script as [|r0 script]; [discriminate|].
    destruct k as [|k].
    + cbn in Ho, Hs. injection Ho as ->. injection Hs as ->. reflexivity.
    + cbn in Ho, Hs. cbn [backfill_log]. rewrite lookup_cons.
      rewrite (IH _ _ k Ho Hs).
      cbn [take]. rewrite count_done_cons.
      destruct (r0 =? 1); [rewrite advance_n_succ_r|]; reflexivity.
Qed.

Lemma done_entries_cons (e : Entry) (es : list Entry) :
  done_entries (e :: es) =
  if bool_decide (e_status e = Some "done") then S (done_entries es)
  else done_entries es.
Proof.
  unfold done_entries, is_done. rewrite filter_cons.
  case_decide; case_bool_decide; try contradiction; reflexivity.
Qed.

Lemma done_entries_app (es1 es2 : list Entry) :
  done_entries (es1 ++ es2) = (done_entries es1 + done_entries es2)%nat.
Proof. unfold done_entries. rewrite filter_app, length_app. reflexivity. Qed.

Lemma decision_done (r : Z) : decision r = "done" <-> r = 1.
Proof.
  unfold decision. destruct (Z.eqb_spec r 1); [tauto|].
  destruct (r =? -1); split; intros; try discriminate; contradiction.
Qed.

(** A backfill writes one [done] entry for each Done answer. *)
Lemma backfill_log_done (cyc : list string) (last : Z)
    (offsets script : list Z) (p : Z) :
  done_entries (backfill_log cyc last offsets script p)
  = count_done (take (length offsets) script).
Proof.
  revert script p. induction offsets as [|i offsets IH]; intros script p.
  - reflexivity.
  - destruct script as [|r script]; [reflexivity|].
    cbn [backfill_log length take]. rewrite done_entries_cons, count_done_cons, IH.
    cbn [entry_for e_status].
    destruct (Z.eqb_spec r 1) as [Hr|Hr].
    + rewrite bool_decide_eq_true_2; [reflexivity|].
      f_equal. apply decision_done. assumption.
    + rewrite bool_decide_eq_false_2; [reflexivity|].
      intros E. apply Hr. apply decision_done. congruence.
Qed.

(** ** [_check_missed_days] *)

Lemma range2_length (a b : Z) : length (Py.range2 a b) = Z.to_nat (b - a).
Proof. unfold Py.range2. apply length_seqZ. Qed.

Lemma range2_lookup (a b : Z) (k : nat) :
  (k < Z.to_nat (b - a))%nat -> Py.range2 a b !! k = Some (a + Z.of_nat k).
Proof. intros Hk. unfold Py.range2. apply lookup_seqZ_lt. lia. Qed.

Lemma range2_nonempty (a b : Z) : a < b -> Py.range2 a b <> [].
Proof.
  intros Hab E. apply (f_equal length) in E. rewrite range2_length in E.
  simpl in E. lia.
Qed.

(** [_check_missed_days] up to the loop: with a last log date that reads as
    [last] and more than one day behind, it runs the loop over the offsets
    [1 .. gap - 1]. *)
Lemma check_missed_days_unfold `{PyLib} (a : App) (today : Z)
    (script : list Z) (s : string) (last : Z) :
  last_log_date (state a) = Some s -> s <> EmptyString ->
  fromisoformat s = Some last ->
  _check_missed_days today script a =
    if today - last <=? 1 then Ok tt a
    else
      match missed_loop last (Py.range2 1 (today - last)) script false a with
      | Ok true a1 =>
          let s1 := state_set_last_log_date (Date.isoformat (today - 1))
                      (state_set_position (position a1) (state a1)) in
          Ok tt {| db := save_state (db a1) s1; state := s1;
                   cycle := cycle a1; position := position a1 |}
      | Ok false a1 => Ok tt a1
      | Exn a1 => Exn a1
      end.
Proof.
  intros Hs Hne Hf. unfold _check_missed_days. unfold bind at 1, get.
  rewrite Hs. destruct s as [|c s]; [congruence|]. rewrite Hf.
  destruct (today - last <=? 1); [reflexivity|].
  unfold bind at 1.
  destruct (missed_loop _ _ _ _ _) as [[|] a1|a1]; reflexivity.
Qed.

(** ** One action, then a run *)

Lemma advance_n_add (n : Z) (j k : nat) (p : Z) :
  advance_n n (j + k) p = advance_n n k (advance_n n j p).
Proof.
  unfold advance_n. rewrite Nat.add_comm. apply Nat.iter_add.
Qed.

Lemma logged_and_moved_refl (a : App) : logged_and_moved a a [].
Proof. unfold logged_and_moved. rewrite app_nil_r. repeat split. Qed.

Lemma logged_and_moved_trans (a a1 a2 : App) (new1 new2 : list Entry) :
  logged_and_moved a a1 new1 -> logged_and_moved a1 a2 new2 ->
  logged_and_moved a a2 (new1 ++ new2).
Proof.
  intros (L1 & C1 & P1) (L2 & C2 & P2). unfold logged_and_moved.
  rewrite L2, L1, app_assoc, C2, C1, P2, P1, C1, done_entries_app, advance_n_add.
  repeat split.
Qed.

Lemma mark_done_effect (a : App) (today : Z) :
  cycle a <> [] ->
  exists new,
    returned (mark_done today a) /\
    logged_and_moved a (final (mark_done today a)) new /\
    (st_position (state a) = position a ->
     st_position (state (final (mark_done today a)))
     = position (final (mark_done today a))).
Proof.
  intros Hc. destruct (_logged_today a today) eqn:Hl.
  - exists []. unfold mark_done. unfold_m. rewrite Hl. cbn.
    split; [exact I|]. split; [apply logged_and_moved_refl|tauto].
  - destruct (current_workout_some a Hc) as (w & Hw & _).
    exists [entry_for today w "done"].
    rewrite (mark_done_fresh a today w Hl Hc Hw). cbn.
    split; [exact I|]. split; [|reflexivity].
    repeat split.
Qed.

Lemma mark_rest_effect (a : App) (today : Z) :
  cycle a <> [] ->
  exists new,
    returned (mark_rest today a) /\
    logged_and_moved a (final (mark_rest today a)) new /\
    done_entries new = 0%nat /\
    (st_position (state a) = position a ->
     st_position (state (final (mark_rest today a)))
     = position (final (mark_rest today a))).
Proof.
  intros Hc. destruct (_logged_today a today) eqn:Hl.
  - exists []. unfold mark_rest. unfold_m. rewrite Hl. cbn.
    split; [exact I|]. split; [apply logged_and_moved_refl|tauto].
  - exists [entry_for today "rest" "rest"].
    rewrite (mark_rest_fresh a today Hl Hc). cbn.
    split; [exact I|]. split; [|split; [reflexivity|tauto]].
    repeat split.
Qed.

Lemma check_missed_days_effect `{PyLib} (a : App) (today : Z) (script : list Z) :
  cycle a <> [] ->
  exists new,
    logged_and_moved a (final (_check_missed_days today script a)) new /\
    (done_entries new <= count_done script)%nat /\
    (returned (_check_missed_days today script a) ->
     st_position (state a) = position a ->
     st_position (state (final (_check_missed_days today script a)))
     = position (final (_check_missed_days today script a))).
Proof.
  intros Hc.
  assert (Hnop : _check_missed_days today script a = Ok tt a ->
    exists new,
      logged_and_moved a (final (_check_missed_days today script a)) new /\
      (done_entries new <= count_done script)%nat /\
      (returned (_check_missed_days today script a) ->
       st_position (state a) = position a ->
       st_position (state (final (_check_missed_days today script a)))
       = position (final (_check_missed_days today script a)))).
  { intros E. rewrite E. exists []. cbn.
    split; [apply logged_and_moved_refl|]. split; [lia|tauto]. }
  destruct (last_log_date (state a)) as [s|] eqn:Hs.
  2:{ apply Hnop. unfold _check_missed_days. unfold_m. rewrite Hs. reflexivity. }
  destruct (decide (s = EmptyString)) as [->|Hne].
  { apply Hnop. unfold _check_missed_days. unfold_m. rewrite Hs. reflexivity. }
  destruct (fromisoformat s) as [last|] eqn:Hf.
  2:{ apply Hnop. unfold _check_missed_days. unfold_m. rewrite Hs.
      destruct s; [congruence|]. rewrite Hf. reflexivity. }
  destruct (Z.leb_spec (today - last) 1) as [Hg|Hg].
  { apply Hnop. rewrite (check_missed_days_unfold a today script s last Hs Hne Hf).
    destruct (Z.leb_spec (today - last) 1); [reflexivity|lia]. }
  rewrite (check_missed_days_unfold a today script s last Hs Hne Hf).
  destruct (Z.leb_spec (today - last) 1); [lia|].
  rewrite missed_loop_spec by assumption. cbv zeta.
  exists (backfill_log (cycle a) last (Py.range2 1 (today - last)) script (position a)).
  assert (Hle : (count_done (take (length (Py.range2 1 (today - last))) script)
                 <= count_done script)%nat).
  { unfold count_done. rewrite <- (take_drop (length (Py.range2 1 (today - last))) script) at 2.
    rewrite filter_app, length_app. lia. }
  rewrite backfill_log_done.
  split; [|split; [exact Hle|]].
  - case_decide.
    + rewrite (bool_decide_eq_true_2 (Py.range2 1 (today - last) <> []))
        by (apply range2_nonempty; lia).
      cbn. unfold logged_and_moved. cbn.
      rewrite backfill_log_done, backfill_pos_advance. repeat split.
    + cbn. unfold logged_and_moved. cbn.
      rewrite backfill_log_done, backfill_pos_advance. repeat split.
  - case_decide.
    + rewrite (bool_decide_eq_true_2 (Py.range2 1 (today - last) <> []))
        by (apply range2_nonempty; lia).
      cbn. reflexivity.
    + cbn. contradiction.
Qed.

Lemma step_effect `{PyLib} (act : action) (a : App) :
  cycle a <> [] ->
  exists new,
    logged_and_moved a (final (step act a)) new /\
    (returned (step act a) ->
     st_position (state a) = position a ->
     st_position (state (final (step act a))) = position (final (step act a))).
Proof.
  intros Hc. destruct act as [today|today|today script]; cbn [step].
  - destruct (mark_done_effect a today Hc) as (new & _ & Hm & Hs).
    exists new. split; [exact Hm|]. intros _. exact Hs.
  - destruct (mark_rest_effect a today Hc) as (new & _ & Hm & _ & Hs).
    exists new. split; [exact Hm|]. intros _. exact Hs.
  - destruct (check_missed_days_effect a today script Hc) as (new & Hm & _ & Hs).
    exists new. split; assumption.
Qed.

Lemma run_effect `{PyLib} (acts : list action) (a : App) :
  cycle a <> [] ->
  exists new,
    logged_and_moved a (final (run acts a)) new /\
    (returned (run acts a) ->
     st_position (state a) = position a ->
     st_position (state (final (run acts a))) = position (final (run acts a))).
Proof.
  revert a. induction acts as [|act acts IH]; intros a Hc.
  - exists []. cbn. split; [apply logged_and_moved_refl|tauto].
  - destruct (step_effect act a Hc) as (new1 & Hm1 & Hs1).
    cbn [run]. unfold bind. destruct (step act a) as [u a1|a1]; cbn in Hm1, Hs1.
    + assert (Hc1 : cycle a1 <> []) by (destruct Hm1 as (_ & -> & _); exact Hc).
      destruct (IH a1 Hc1) as (new2 & Hm2 & Hs2).
      exists (new1 ++ new2). split.
      * eapply logged_and_moved_trans; eassumption.
      * intros Hr Hsync. apply Hs2; [exact Hr|]. apply Hs1; [exact I|exact Hsync].
    + exists new1. cbn. split; [exact Hm1|]. contradiction.
Qed.

(** ** The streak *)

Lemma get_streak_loop `{PyLib} (a : App) (today : Z) :
  _get_streak a today = streak_loop (get_history (db a) 60) today 0.
Proof. unfold _get_streak. destruct (get_history (db a) 60); reflexivity. Qed.

Lemma dated_back_from_cons `{PyLib} (today : Z) (e : Entry) (es : list Entry) :
  dated_back_from today (e :: es) ->
  fromisoformat (entry_date e) = Some today /\ dated_back_from (today - 1) es.
Proof.
  intros Hd. split.
  - rewrite (Hd 0%nat e eq_refl). f_equal. lia.
  - intros k x Hx. rewrite (Hd (S k) x Hx). f_equal. lia.
Qed.

(** The scan walks through a chain of entries dated day after day and
    counts its [done] entries. *)
Lemma streak_loop_chain `{PyLib} (pre post : list Entry) (today acc : Z) :
  dated_back_from today pre ->
  streak_loop (pre ++ post) today acc =
  streak_loop post (today - Z.of_nat (length pre))
    (acc + Z.of_nat (done_entries pre)).
Proof.
  revert today acc. induction pre as [|e pre IH]; intros today acc Hd.
  - cbn. f_equal; lia.
  - apply dated_back_from_cons in Hd as [He Hd].
    cbn [app streak_loop]. rewrite He.
    rewrite bool_decide_eq_false_2 by tauto.
    rewrite (IH _ _ Hd). rewrite done_entries_cons.
    case_bool_decide; f_equal; cbn [length]; lia.
Qed.

Lemma streak_loop_stop `{PyLib} (e : Entry) (post : list Entry) (expected acc : Z) :
  fromisoformat (entry_date e) <> Some expected ->
  streak_loop (e :: post) expected acc = acc.
Proof.
  intros Hne. cbn [streak_loop].
  destruct (fromisoformat (entry_date e)) as [d|]; [|reflexivity].
  rewrite bool_decide_eq_true_2; [reflexivity|congruence].
Qed.

Lemma get_history_app (d : Db) (older recent : list Entry) (limit : Z) :
  db_logs d = older ++ recent ->
  (length recent <= Z.to_nat limit)%nat ->
  get_history d limit =
  reverse recent ++ take (Z.to_nat limit - length recent) (reverse older).
Proof.
  intros E Hl. unfold get_history. rewrite E, reverse_app.
  rewrite take_app. rewrite length_reverse.
  rewrite take_ge by (rewrite length_reverse; lia). reflexivity.
Qed.

Lemma entry_for_date `{PyLib} (d : Z) (w st : string) :
  fromisoformat_law -> Date.MINORD <= d <= Date.MAXORD ->
  fromisoformat (entry_date (entry_for d w st)) = Some d.
Proof. intros Hlaw Hd. apply Hlaw. exact Hd. Qed.

(** ** Rest days of the week *)

Lemma monday_of_spec (today : Z) :
  Date.weekday (monday_of today) = 0 /\ 0 <= today - monday_of today <= 6.
Proof.
  unfold monday_of, Date.weekday.
  pose proof (Z.mod_pos_bound (today + 6) 7 ltac:(lia)) as Hb.
  split; [|lia].
  replace (today - (today + 6) mod 7 + 6) with ((today + 6) - (today + 6) mod 7)
    by lia.
  rewrite Zminus_mod_idemp_r. replace (today + 6 - (today + 6)) with 0 by lia.
  reflexivity.
Qed.

Lemma rest_count_loop_filter `{PyLib} (entries : list Entry)
    (monday today count : Z) :
  rest_count_loop entries monday today count =
  count + Z.of_nat (length (filter (fun e => rest_in_week monday today e = true)
                              entries)).
Proof.
  revert count. induction entries as [|e entries IH]; intros count.
  - cbn. lia.
  - assert (Hstep : rest_count_loop (e :: entries) monday today count =
             rest_count_loop entries monday today
               (if rest_in_week monday today e then count + 1 else count)).
    { cbn [rest_count_loop]. unfold rest_in_week.
      destruct (fromisoformat (entry_date e)) as [d|]; [|reflexivity].
      destruct ((monday <=? d) && (d <=? today)
                && bool_decide (e_status e = Some "rest")); reflexivity. }
    rewrite Hstep, IH, filter_cons.
    destruct (rest_in_week monday today e); case_decide; try congruence;
      cbn [length]; lia.
Qed.

(** ** Rest days of the week predictor *)

(** For at most seven slots and at most seven rest days, the float
    computation [round((l / r) * k)] is the exact quotient [l * k / r]
    rounded to the nearest integer, ties to even. *)
Lemma float_round_exact (l r k : Z) :
  1 <= l <= 7 -> 1 <= r <= 7 -> 1 <= k <= r ->
  float_round l r k = Some (Py.round_half_even (l * k) r).
Proof.
  intros Hl Hr Hk.
  assert (Cl : l = 1 \/ l = 2 \/ l = 3 \/ l = 4 \/ l = 5 \/ l = 6 \/ l = 7) by lia.
  assert (Cr : r = 1 \/ r = 2 \/ r = 3 \/ r = 4 \/ r = 5 \/ r = 6 \/ r = 7) by lia.
  assert (Ck : k = 1 \/ k = 2 \/ k = 3 \/ k = 4 \/ k = 5 \/ k = 6 \/ k = 7) by lia.
  clear Hl Hr.
  repeat (destruct Cl as [-> | Cl]); try subst l;
    repeat (destruct Cr as [-> | Cr]); try subst r;
    repeat (destruct Ck as [-> | Ck]); try subst k;
    first [ lia | vm_compute; reflexivity ].
Qed.

Lemma round_half_even_nonneg (n d : Z) :
  0 <= n -> 0 < d -> 0 <= Py.round_half_even n d.
Proof.
  intros Hn Hd. unfold Py.round_half_even.
  pose proof (Z.div_pos n d Hn Hd) as Hq.
  destruct (2 * (n mod d) ?= d); [destruct (Z.even (n / d))|..]; lia.
Qed.

Lemma rest_index_bounds (unlogged : list Z) (r k : Z) :
  unlogged <> [] -> 0 < r -> 0 <= k ->
  -1 <= rest_index unlogged r k <= Py.len unlogged - 1.
Proof.
  intros Hu Hr Hk. unfold rest_index.
  pose proof (len_pos unlogged Hu) as Hl.
  pose proof (round_half_even_nonneg (Py.len unlogged * k) r ltac:(lia) Hr).
  lia.
Qed.

Lemma getitem_wrap_some {A} (l : list A) (i : Z) :
  - Py.len l <= i < Py.len l -> exists x, Py.getitem l i = Some x /\ x ∈ l.
Proof.
  intros Hi. unfold Py.getitem, Py.len in *.
  destruct (Z.ltb_spec i 0).
  - destruct (Z.leb_spec 0 (Z.of_nat (length l) + i)); [|lia].
    destruct (lookup_lt_is_Some_2 l (Z.to_nat (Z.of_nat (length l) + i)))
      as [x Hx]; [lia|].
    exists x. split; [exact Hx|]. eapply list_elem_of_lookup_2. exact Hx.
  - destruct (lookup_lt_is_Some_2 l (Z.to_nat i)) as [x Hx]; [lia|].
    exists x. split; [exact Hx|]. eapply list_elem_of_lookup_2. exact Hx.
Qed.

Lemma rest_slot_some (unlogged : list Z) (r k : Z) :
  unlogged <> [] -> 0 < r -> 0 <= k ->
  exists u, rest_slot unlogged r k = Some u /\ u ∈ unlogged.
Proof.
  intros Hu Hr Hk. unfold rest_slot. apply getitem_wrap_some.
  pose proof (rest_index_bounds unlogged r k Hu Hr Hk).
  pose proof (len_pos unlogged Hu). lia.
Qed.

Lemma rest_pick_loop_spec (unlogged : list Z) (r : Z) (step : spec_float)
    (ks : list Z) (acc : gset Z) :
  Py.truediv (Py.len unlogged) r = Some step ->
  unlogged <> [] -> Py.len unlogged <= 7 -> 1 <= r <= 7 ->
  (forall i, i ∈ ks -> 0 <= i < r) ->
  exists rs : gset Z,
    rest_pick_loop unlogged step ks acc = Some rs /\
    forall u, u ∈ rs <->
      u ∈ acc \/ exists i, i ∈ ks /\ rest_slot unlogged r (i + 1) = Some u.
Proof.
  intros Hstep Hu Hl Hr. revert acc.
  induction ks as [|i ks IH]; intros acc Hks.
  - exists acc. split; [reflexivity|]. intros u. split; [tauto|].
    intros [Ha|(i & Hi & _)]; [exact Ha|]. inversion Hi.
  - assert (Hi : 0 <= i < r) by (apply Hks; left).
    pose proof (len_pos unlogged Hu) as Hpos.
    pose proof (float_round_exact (Py.len unlogged) r (i + 1)
                  ltac:(lia) Hr ltac:(lia)) as Hf.
    unfold float_round in Hf. rewrite Hstep in Hf. cbn in Hf.
    destruct (rest_slot_some unlogged r (i + 1) Hu ltac:(lia) ltac:(lia))
      as (u0 & Hu0 & _).
    cbn [rest_pick_loop]. rewrite Hf. cbn.
    unfold rest_slot, rest_index in Hu0. rewrite Hu0. cbn.
    destruct (IH ({[u0]} ∪ acc)) as (rs & Hrs & Hchar).
    { intros j Hj. apply Hks. right. exact Hj. }
    exists rs. split; [exact Hrs|].
    intros u. rewrite Hchar. split.
    + intros [Hin|(j & Hj & Hslot)].
      * apply elem_of_union in Hin as [Hin|Hin]; [|left; exact Hin].
        apply elem_of_singleton in Hin as ->.
        right. exists i. split; [left|exact Hu0].
      * right. exists j. split; [right; exact Hj|exact Hslot].
    + intros [Hin|(j & Hj & Hslot)].
      * left. apply elem_of_union. right. exact Hin.
      * apply elem_of_cons in Hj as [->|Hj].
        -- left. apply elem_of_union. left. apply elem_of_singleton.
           unfold rest_slot, rest_index in Hslot. congruence.
        -- right. exists j. split; assumption.
Qed.

(** The set that [predict_rest] returns: the slots of the rest days
    [1 .. rest_remaining]. *)
Lemma predict_rest_spec (unlogged : list Z) (r : Z) :
  unlogged <> [] -> Py.len unlogged <= 7 -> 1 <= r <= 7 ->
  exists rs : gset Z,
    predict_rest unlogged r = Some rs /\
    forall u, u ∈ rs <->
      exists k, 1 <= k <= r /\ rest_slot unlogged r k = Some u.
Proof.
  intros Hu Hl Hr. pose proof (len_pos unlogged Hu) as Hpos.
  unfold predict_rest.
  destruct (Z.ltb_spec 0 r); [|lia].
  destruct (Z.ltb_spec 0 (Py.len unlogged)); [|lia]. cbn [andb].
  destruct (Py.truediv (Py.len unlogged) r) as [step|] eqn:Hstep.
  2:{ unfold Py.truediv in Hstep. destruct (Z.eqb_spec r 0); [lia|discriminate]. }
  cbn.
  destruct (rest_pick_loop_spec unlogged r step (Py.range r) ∅ Hstep Hu Hl Hr)
    as (rs & Hrs & Hchar).
  { intros i Hi. unfold Py.range in Hi. apply elem_of_seqZ in Hi. lia. }
  exists rs. split; [exact Hrs|].
  intros u. rewrite Hchar. split.
  - intros [Hin|(i & Hi & Hslot)]; [set_solver|].
    unfold Py.range in Hi. apply elem_of_seqZ in Hi.
    exists (i + 1). split; [lia|exact Hslot].
  - intros (k & Hk & Hslot). right. exists (k - 1). split.
    + unfold Py.range. apply elem_of_seqZ. lia.
    + replace (k - 1 + 1) with k by lia. exact Hslot.
Qed.

(** ** The loop of the week predictor *)

Lemma schedule_day_spec `{PyLib} (a : App) (logged : gmap string Entry)
    (rest_indices : gset Z) (monday today i c : Z) :
  cycle a <> [] ->
  exists line,
    schedule_day a logged rest_indices monday today i c =
      Some (line,
            if advancing logged rest_indices monday today i
            then (c + 1) mod Py.len (cycle a) else c).
Proof.
  intros Hc. unfold schedule_day, advancing, advance.
  destruct (logged !! Date.isoformat (monday + i)) as [entry|].
  - case_bool_decide; [rewrite mod_len by assumption|]; cbn; eauto.
  - destruct (monday + i <? today); [cbn; eauto|].
    case_bool_decide; [cbn; eauto|].
    rewrite !mod_len by assumption. cbn.
    pose proof (Z.mod_pos_bound c (Py.len (cycle a)) (len_pos _ Hc)) as Hb.
    destruct (getitem_in_range (cycle a) _ Hb) as [w Hw]. rewrite Hw. cbn.
    eauto.
Qed.

(** The line of a day that is not logged, not past and not a predicted
    rest day: the label of the rotation at the cursor. *)
Lemma schedule_day_workout `{PyLib} (a : App) (logged : gmap string Entry)
    (rest_indices : gset Z) (monday today i c : Z) :
  cycle a <> [] ->
  logged !! Date.isoformat (monday + i) = None ->
  today <= monday + i -> i ∉ rest_indices ->
  exists w,
    cycle a !! Z.to_nat (c mod Py.len (cycle a)) = Some w /\
    fst <$> schedule_day a logged rest_indices monday today i c =
      Some (mark_today (monday + i) today
              (line_workout (strftime_a (monday + i)) (str_title w))).
Proof.
  intros Hc Hl Ht Hr. unfold schedule_day, advance. rewrite Hl.
  destruct (Z.ltb_spec (monday + i) today); [lia|].
  rewrite bool_decide_eq_false_2 by assumption.
  rewrite !mod_len by assumption. cbn.
  pose proof (Z.mod_pos_bound c (Py.len (cycle a)) (len_pos _ Hc)) as Hb.
  destruct (getitem_in_range (cycle a) _ Hb) as [w Hw]. rewrite Hw. cbn.
  exists w. split; [|reflexivity]. rewrite getitem_nonneg in Hw by lia. exact Hw.
Qed.

(** The line of a predicted rest day. *)
Lemma schedule_day_rest `{PyLib} (a : App) (logged : gmap string Entry)
    (rest_indices : gset Z) (monday today i c : Z) :
  logged !! Date.isoformat (monday + i) = None ->
  today <= monday + i -> i ∈ rest_indices ->
  fst <$> schedule_day a logged rest_indices monday today i c =
    Some (mark_today (monday + i) today (line_rest (strftime_a (monday + i)))).
Proof.
  intros Hl Ht Hr. unfold schedule_day. rewrite Hl.
  destruct (Z.ltb_spec (monday + i) today); [lia|].
  rewrite bool_decide_eq_true_2 by assumption. reflexivity.
Qed.

Lemma schedule_loop_spec `{PyLib} (a : App) (logged : gmap string Entry)
    (rest_indices : gset Z) (monday today : Z) (ixs : list Z) (c : Z) :
  cycle a <> [] ->
  exists lines,
    schedule_loop a logged rest_indices monday today ixs c = Some lines /\
    length lines = length ixs /\
    forall n i, ixs !! n = Some i ->
      lines !! n =
        fst <$> schedule_day a logged rest_indices monday today i
          (advance_n (Py.len (cycle a))
             (length (filter
                (fun j => advancing logged rest_indices monday today j = true)
                (take n ixs))) c).
Proof.
  intros Hc. revert c. induction ixs as [|i ixs IH]; intros c.
  - exists []. split; [reflexivity|]. split; [reflexivity|].
    intros n j Hn. discriminate.
  - destruct (schedule_day_spec a logged rest_indices monday today i c Hc)
      as (line & Hday).
    destruct (IH (if advancing logged rest_indices monday today i
                  then (c + 1) mod Py.len (cycle a) else c))
      as (lines & Hlines & Hlen & Hlk).
    exists (line :: lines). cbn [schedule_loop]. rewrite Hday. cbn.
    rewrite Hlines. cbn. split; [reflexivity|].
    split; [rewrite Hlen; reflexivity|].
    intros n j Hn. destruct n as [|n].
    + cbn in Hn. injection Hn as <-. cbn. rewrite Hday. reflexivity.
    + cbn in Hn. rewrite lookup_cons. rewrite (Hlk n j Hn).
      cbn [take]. rewrite filter_cons.
      destruct (advancing logged rest_indices monday today i);
        case_decide; try congruence; cbn [length];
        rewrite ?advance_n_succ_r; reflexivity.
Qed.

Lemma range7_lookup (u : Z) :
  0 <= u < 7 ->
  Py.range 7 !! Z.to_nat u = Some u /\ take (Z.to_nat u) (Py.range 7) = seqZ 0 u.
Proof.
  intros Hu.
  assert (C : u = 0 \/ u = 1 \/ u = 2 \/ u = 3 \/ u = 4 \/ u = 5 \/ u = 6) by lia.
  repeat (destruct C as [-> | C]); try subst u; split; reflexivity.
Qed.

(** The week schedule has seven lines, and the line of day [u] is the one
    [schedule_day] renders with the running cursor of that day. *)
Lemma get_week_schedule_spec `{PyLib} (a : App) (today : Z)
    (rest_indices : gset Z) (start : Z) :
  cycle a <> [] ->
  week_rest_indices a today = Some rest_indices ->
  week_start_pos a today = Some start ->
  exists lines,
    _get_week_schedule a today = Some lines /\
    length lines = 7%nat /\
    forall u, 0 <= u < 7 ->
      lines !! Z.to_nat u =
        fst <$> schedule_day a (week_logged a) rest_indices
                  (monday_of today) today u
                  (cursor_at a (week_logged a) rest_indices
                     (monday_of today) today start u).
Proof.
  intros Hc Hr Hs.
  destruct (schedule_loop_spec a (week_logged a) rest_indices
              (monday_of today) today (Py.range 7) start Hc)
    as (lines & Hl & Hlen & Hlk).
  exists lines. unfold _get_week_schedule. rewrite Hr, Hs. cbn.
  split; [exact Hl|]. split; [exact Hlen|].
  intros u Hu. destruct (range7_lookup u Hu) as [Hlu Htk].
  rewrite (Hlk _ _ Hlu), Htk. reflexivity.
Qed.

Lemma week_start_pos_some (a : App) (today : Z) :
  cycle a <> [] -> is_Some (week_start_pos a today).
Proof.
  intros Hc. unfold week_start_pos.
  destruct (_logged_today a today); [rewrite mod_len by assumption|]; eauto.
Qed.

Lemma elem_of_week_unlogged `{PyLib} (a : App) (today u : Z) :
  u ∈ week_unlogged a today <->
  0 <= u < 7 /\
  week_logged a !! Date.isoformat (monday_of today + u) = None /\
  today <= monday_of today + u.
Proof.
  unfold week_unlogged, unlogged_days, Py.range.
  rewrite list_elem_of_filter, elem_of_seqZ. fold (week_logged a). tauto.
Qed.

Lemma week_unlogged_NoDup `{PyLib} (a : App) (today : Z) :
  NoDup (week_unlogged a today).
Proof.
  unfold week_unlogged, unlogged_days, Py.range.
  apply NoDup_filter, NoDup_seqZ.
Qed.

Lemma week_unlogged_len `{PyLib} (a : App) (today : Z) :
  Py.len (week_unlogged a today) <= 7.
Proof.
  unfold week_unlogged, unlogged_days, Py.range, Py.len.
  pose proof (length_filter
    (fun i => logged_map (get_history (db a) 30)
                !! Date.isoformat (monday_of today + i) = None
              /\ today <= monday_of today + i) (seqZ 0 7)) as Hf.
  rewrite length_seqZ in Hf. lia.
Qed.

Lemma rest_days_this_week_nonneg `{PyLib} (a : App) (today : Z) :
  0 <= _rest_days_this_week a today.
Proof.
  unfold _rest_days_this_week. rewrite rest_count_loop_filter. lia.
Qed.

(** With five unlogged slots and two rest days left, the rest days fall on
    the second and on the last slot. *)
Lemma rest_slot_5_2 (u0 u1 u2 u3 u4 k : Z) :
  1 <= k <= 2 ->
  rest_slot [u0; u1; u2; u3; u4] 2 k = Some (if k =? 1 then u1 else u4).
Proof.
  intros Hk. assert (C : k = 1 \/ k = 2) by lia.
  destruct C as [-> | ->]; reflexivity.
Qed.

Lemma filter_length_app {A} (P : A -> Prop) `{forall x, Decision (P x)}
    (l1 l2 : list A) :
  length (filter P (l1 ++ l2)) = (length (filter P l1) + length (filter P l2))%nat.
Proof. rewrite filter_app, length_app. reflexivity. Qed.

(** The cursor after a predicted workout day followed by [n] days that do
    not move it. *)
Lemma cursor_at_next `{PyLib} (a : App) (logged : gmap string Entry)
    (rest_indices : gset Z) (monday today start u : Z) (still : list Z) :
  0 <= u ->
  advancing logged rest_indices monday today u = true ->
  (forall j, j ∈ still -> advancing logged rest_indices monday today j = false) ->
  still = seqZ (u + 1) (Z.of_nat (length still)) ->
  cursor_at a logged rest_indices monday today start
    (u + 1 + Z.of_nat (length still))
  = (cursor_at a logged rest_indices monday today start u + 1)
      mod Py.len (cycle a).
Proof.
  intros Hu Hadv Hstill Hseq. unfold cursor_at.
  replace (u + 1 + Z.of_nat (length still)) with (u + (1 + Z.of_nat (length still)))
    by lia.
  rewrite seqZ_app by lia. rewrite seqZ_app by lia. rewrite !Z.add_0_l.
  rewrite <- Hseq. change (seqZ u 1) with [u].
  rewrite !filter_length_app.
  rewrite filter_cons, filter_nil. case_decide; [|congruence]. cbn [length].
  assert (E : filter (fun j => advancing logged rest_indices monday today j = true)
                still = []).
  { clear Hseq. induction still as [|j still IH]; [reflexivity|].
    rewrite filter_cons. case_decide as Hj.
    - rewrite Hstill in Hj by left. discriminate.
    - apply IH. intros j' Hj'. apply Hstill. right. exact Hj'. }
  rewrite E. cbn [length]. rewrite Nat.add_0_r, Nat.add_comm. reflexivity.
Qed.

Lemma advancing_unlogged `{PyLib} (a : App) (today u : Z) (rest_indices : gset Z) :
  u ∈ week_unlogged a today ->
  advancing (week_logged a) rest_indices (monday_of today) today u
  = negb (bool_decide (u ∈ rest_indices)).
Proof.
  intros Hu. apply elem_of_week_unlogged in Hu as (_ & Hl & Ht).
  unfold advancing. rewrite Hl.
  destruct (Z.ltb_spec (monday_of today + u) today); [lia|]. reflexivity.
Qed.

(** * The claims of the specification *)

(** C1 as stated fails. The tracker is built from a stored state whose
    rotation has three labels and whose position is 5: [__init__] accepts
    it. A confirmed Rest Instead, which appends one [rest] entry and no
    [done] entry, leaves the position at 5: it is not
    [(5 + 0) mod 3 = 2], and it is not an index into the rotation after
    this mutation. *)
Lemma C1_counterexample :
  exists a a',
    init db_position_5 = Some a /\
    cycle a = ["push"; "pull"; "legs"] /\ position a = 5 /\
    run (H:=ascii_lib) [MarkRest 738886] a = Ok tt a' /\
    db_logs (db a') = db_logs (db a) ++ [entry_for 738886 "rest" "rest"] /\
    done_entries [entry_for 738886 "rest" "rest"] = 0%nat /\
    position a' = 5 /\
    position a' <> (position a + 0) mod Py.len (cycle a) /\
    ~ (0 <= position a' < Py.len (cycle a')).
Proof.
  eexists. eexists.
  split; [reflexivity|]. split; [reflexivity|]. split; [reflexivity|].
  split; [reflexivity|]. split; [reflexivity|]. split; [reflexivity|].
  split; [reflexivity|].
  split; vm_compute; [discriminate|].
  intros [_ Hlt]. discriminate Hlt.
Qed.

(** C1, amended. Start from a state with a rotation that is not empty and
    run any sequence of [mark_done], [mark_rest] and [_check_missed_days]
    calls, with any answers. Every confirmed action appends one log entry
    with its status, so that the number [k] of [done] actions is the number
    of [done] entries appended. When the initial position is an index into
    the rotation, the position after the run is
    [(initial position + k) mod len(cycle)] and it is an index into the
    rotation. Whatever the initial position, with no [done] entry the
    position is the initial one, in the range or not, and with one [done]
    entry or more it is [(initial position + k) mod len(cycle)] and an index
    into the rotation. A confirmed [mark_done] appends one [done] entry and
    moves the position by one step; a [mark_rest], and a reconciliation in
    which no answer is Done (rest and skip answers), leave the position as
    it is. When the run returns, the position kept in the state is the
    position of the object. *)
Theorem C1_rotation_invariant `{PyLib} (acts : list action) (a : App) :
  cycle a <> [] ->
  let a' := final (run acts a) in
  (exists new,
     db_logs (db a') = db_logs (db a) ++ new /\
     (0 <= position a < Py.len (cycle a) ->
      position a' =
        (position a + Z.of_nat (done_entries new)) mod Py.len (cycle a) /\
      0 <= position a' < Py.len (cycle a')) /\
     (done_entries new = 0%nat -> position a' = position a) /\
     ((0 < done_entries new)%nat ->
      position a' =
        (position a + Z.of_nat (done_entries new)) mod Py.len (cycle a) /\
      0 <= position a' < Py.len (cycle a'))) /\
  cycle a' = cycle a /\
  (returned (run acts a) -> st_position (state a) = position a ->
   st_position (state a') = position a') /\
  (forall today, _logged_today a today = false ->
     exists w,
       db_logs (db (final (mark_done today a))) =
         db_logs (db a) ++ [entry_for today w "done"] /\
       position (final (mark_done today a)) =
         (position a + 1) mod Py.len (cycle a)) /\
  (forall today, position (final (mark_rest today a)) = position a) /\
  (forall today script, count_done script = 0%nat ->
     position (final (_check_missed_days today script a)) = position a).
Proof.
  intros Hc a'.
  destruct (run_effect acts a Hc) as (new & (Hl & Hcy & Hpos) & Hs).
  fold a' in Hl, Hcy, Hpos, Hs.
  pose proof (len_pos (cycle a) Hc) as Hlen.
  pose proof (Z.mod_pos_bound (position a + Z.of_nat (done_entries new))
                (Py.len (cycle a)) Hlen) as Hb.
  split.
  { exists new. split; [exact Hl|]. split; [|split].
    - intros Hp. rewrite advance_n_in_range in Hpos by exact Hp.
      split; [exact Hpos|]. rewrite Hcy, Hpos. exact Hb.
    - intros Hz. rewrite Hpos, Hz. reflexivity.
    - intros Hk. rewrite advance_n_pos in Hpos by assumption.
      split; [exact Hpos|]. rewrite Hcy, Hpos. exact Hb. }
  split; [exact Hcy|].
  split; [exact Hs|].
  split.
  { intros today Hl'. destruct (current_workout_some a Hc) as (w & Hw & _).
    exists w. rewrite (mark_done_fresh a today w Hl' Hc Hw). split; reflexivity. }
  split.
  - intros today.
    destruct (mark_rest_effect a today Hc) as (new' & _ & (_ & _ & Hp') & Hz & _).
    rewrite Hp', Hz. reflexivity.
  - intros today script Hz.
    destruct (check_missed_days_effect a today script Hc)
      as (new' & (_ & _ & Hp') & Hle & _).
    rewrite Hp'. replace (done_entries new') with 0%nat by lia. reflexivity.
Qed.

Lemma C1_witness :
  (exists new,
     db_logs (db (final (run (H:=ascii_lib) two_of_three fresh_app))) =
       db_logs (db fresh_app) ++ new /\
     done_entries new = 2%nat /\
     position (final (run (H:=ascii_lib) two_of_three fresh_app)) =
       (position fresh_app + Z.of_nat (done_entries new))
         mod Py.len (cycle fresh_app)) /\
  position fresh_app = 0 /\
  position (final (run (H:=ascii_lib) two_of_three fresh_app)) = 2 /\
  position (final (run (H:=ascii_lib) week_acts fresh_app)) = 0 /\
  length (db_logs (db (final (run (H:=ascii_lib) week_acts fresh_app)))) = 6%nat.
Proof.
  assert (Hc : cycle fresh_app <> []) by discriminate.
  destruct (C1_rotation_invariant (H:=ascii_lib) two_of_three fresh_app Hc)
    as ((new & Hl & Hin & _) & _).
  split.
  - exists new. split; [exact Hl|].
    assert (Hnew : new = [entry_for 738886 "push" "done";
                          entry_for 738887 "rest" "rest";
                          entry_for 738888 "pull" "done"]).
    { vm_compute in Hl. rewrite <- Hl. vm_compute. reflexivity. }
    split; [rewrite Hnew; reflexivity|].
    apply Hin. vm_compute. split; congruence.
  - vm_compute. repeat split; reflexivity.
Defined.
(** C2. [_get_streak] scans the 60 most recent entries with an expected
    date that starts at today. Over a chain of entries dated today,
    yesterday, and so on, it goes on and counts the [done] entries of the
    chain, so that a [rest] or [skip] entry in the chain is passed without
    being counted; it stops at the end of the history and at the first entry
    whose date does not read as the expected date (a date that cannot be
    read, or another date). Hence, with entries written by [log_entry]:
    [done] entries for two days ago, yesterday and today, and no entry for
    three days ago, give 3; [done] entries for two days ago and today,
    written one after the other, give 1. *)
Theorem C2_streak `{PyLib} (a : App) (today : Z) :
  (forall pre rest,
     get_history (db a) 60 = pre ++ rest ->
     dated_back_from today pre ->
     match rest with
     | [] => True
     | e :: _ =>
         fromisoformat (entry_date e) <> Some (today - Z.of_nat (length pre))
     end ->
     _get_streak a today = Z.of_nat (done_entries pre)) /\
  (fromisoformat_law ->
   Date.MINORD <= today - 2 -> today <= Date.MAXORD ->
   (forall older w0 w1 w2,
      db_logs (db a) =
        older ++ [entry_for (today - 2) w2 "done";
                  entry_for (today - 1) w1 "done";
                  entry_for today w0 "done"] ->
      (forall e, e ∈ older ->
                 fromisoformat (entry_date e) <> Some (today - 3)) ->
      _get_streak a today = 3) /\
   (forall older w0 w2,
      db_logs (db a) =
        older ++ [entry_for (today - 2) w2 "done";
                  entry_for today w0 "done"] ->
      _get_streak a today = 1)).
Proof.
  assert (General : forall pre rest,
     get_history (db a) 60 = pre ++ rest ->
     dated_back_from today pre ->
     match rest with
     | [] => True
     | e :: _ =>
         fromisoformat (entry_date e) <> Some (today - Z.of_nat (length pre))
     end ->
     _get_streak a today = Z.of_nat (done_entries pre)).
  { intros pre rest E Hd Hstop.
    rewrite get_streak_loop, E, (streak_loop_chain _ _ _ _ Hd).
    destruct rest as [|e rest]; [reflexivity|].
    rewrite streak_loop_stop by exact Hstop. reflexivity. }
  split; [exact General|].
  intros Hlaw Hlo Hhi. split.
  - intros older w0 w1 w2 Hlogs Hmiss.
    rewrite (General
               [entry_for today w0 "done"; entry_for (today - 1) w1 "done";
                entry_for (today - 2) w2 "done"]
               (take 57 (reverse older))).
    + reflexivity.
    + rewrite (get_history_app _ older _ 60 Hlogs) by (cbn; lia). reflexivity.
    + intros k e Hk.
      destruct k as [|[|[|k]]]; cbn in Hk; try discriminate;
        injection Hk as <-; rewrite entry_for_date by (assumption || lia);
        f_equal; lia.
    + destruct (take 57 (reverse older)) as [|e rest] eqn:Et; [exact I|].
      apply Hmiss.
      assert (He : e ∈ take 57 (reverse older)) by (rewrite Et; left).
      apply elem_of_take in He as (i & He & _).
      apply list_elem_of_lookup_2 in He. apply elem_of_reverse. exact He.
  - intros older w0 w2 Hlogs.
    rewrite (General [entry_for today w0 "done"]
               (entry_for (today - 2) w2 "done" :: take 58 (reverse older))).
    + reflexivity.
    + rewrite (get_history_app _ older _ 60 Hlogs) by (cbn; lia). reflexivity.
    + intros k e Hk. destruct k as [|k]; cbn in Hk; try discriminate.
      injection Hk as <-. rewrite entry_for_date by (assumption || lia).
      f_equal; lia.
    + rewrite entry_for_date by (assumption || lia). cbn. intros E.
      injection E as E. lia.
Qed.

Lemma C2_witness :
  _get_streak (H:=ascii_lib) app_mon_tue_wed 738888 = 3 /\
  _get_streak (H:=ascii_lib) app_mon_wed 738888 = 1 /\
  _get_streak (H:=ascii_lib) app_mon_rest_wed 738888 = 2.
Proof.
  split; [|split].
  - apply (proj1 (proj2 (C2_streak (H:=ascii_lib) app_mon_tue_wed 738888)
                   ascii_fromisoformat_law ltac:(vm_compute; congruence)
                   ltac:(vm_compute; congruence))
             [] "legs" "pull" "push").
    + reflexivity.
    + intros e He. inversion He.
  - apply (proj2 (proj2 (C2_streak (H:=ascii_lib) app_mon_wed 738888)
                   ascii_fromisoformat_law ltac:(vm_compute; congruence)
                   ltac:(vm_compute; congruence))
             [] "pull" "push").
    reflexivity.
  - apply (proj1 (C2_streak (H:=ascii_lib) app_mon_rest_wed 738888)
             [entry_for 738888 "pull" "done"; entry_for 738887 "rest" "rest";
              entry_for 738886 "push" "done"] []).
    + reflexivity.
    + intros k e Hk.
      destruct k as [|[|[|k]]]; cbn in Hk; try discriminate;
        injection Hk as <-; reflexivity.
    + exact I.
Defined.

(** C3. Let [unlogged] be the unlogged slots of the week, today included,
    and [rest_remaining] the rest days left, with a rest target between 0
    and 7. When there are rest days left and unlogged slots, the predicted
    rest days are the set of the slots picked for [k = 1 .. rest_remaining]:
    the [k]-th is the element of [unlogged] at the index
    [round((len(unlogged) / rest_remaining) * k) - 1], at most the last
    index, where the rounding of the float product (ties to even) is the
    rounding of the exact quotient, and where the index [-1], for a product
    that rounds to 0, is the last slot as Python indexes a list. With a
    target of 2, no rest day taken and five unlogged slots, the rest days
    are the second and the fifth slot, two distinct slots; the schedule has
    seven lines; the lines of these two are two blanks, the day, and the
    text [  ·  Rest], and the line of each of the other three unlogged slots
    is two blanks, the day, [  ·  ] and the title-cased label of the
    rotation at the running cursor, with the arrow [  ←] after the line of
    today. The cursor
    moves one step for each logged [done] day and each predicted workout
    before the day: over five slots that follow each other it goes from the
    first to the third slot and from the third to the fourth by one step of
    the rotation. *)
Theorem C3_rest_distribution `{PyLib} (a : App) (today : Z) :
  let unlogged := week_unlogged a today in
  let remaining := rest_remaining a today in
  let monday := monday_of today in
  0 <= default 2 (rest_days_per_week (state a)) <= 7 ->
  (0 < remaining -> unlogged <> [] ->
   exists rs : gset Z,
     week_rest_indices a today = Some rs /\
     (forall u, u ∈ rs <->
        exists k, 1 <= k <= remaining /\
                  rest_slot unlogged remaining k = Some u) /\
     (forall k, 1 <= k <= remaining ->
        float_round (Py.len unlogged) remaining k =
          Some (Py.round_half_even (Py.len unlogged * k) remaining) /\
        -1 <= rest_index unlogged remaining k <= Py.len unlogged - 1 /\
        exists u, rest_slot unlogged remaining k = Some u /\ u ∈ unlogged)) /\
  (default 2 (rest_days_per_week (state a)) = 2 ->
   _rest_days_this_week a today = 0 ->
   cycle a <> [] ->
   forall u0 u1 u2 u3 u4, unlogged = [u0; u1; u2; u3; u4] ->
   let rs : gset Z := {[u1; u4]} in
   week_rest_indices a today = Some rs /\
   u1 <> u4 /\ size rs = 2%nat /\
   exists lines start,
     let cursor u := cursor_at a (week_logged a) rs monday today start u in
     week_start_pos a today = Some start /\
     _get_week_schedule a today = Some lines /\
     length lines = 7%nat /\
     (forall u, u = u1 \/ u = u4 ->
        lines !! Z.to_nat u =
          Some (let line := "  " +:+ strftime_a (monday + u) +:+ "  ·  Rest" in
                if monday + u =? today then line +:+ "  ←" else line)) /\
     (forall u, u = u0 \/ u = u2 \/ u = u3 ->
        exists w,
          cycle a !! Z.to_nat (cursor u mod Py.len (cycle a)) = Some w /\
          lines !! Z.to_nat u =
            Some (let line := "  " +:+ strftime_a (monday + u) +:+ "  ·  "
                              +:+ str_title w in
                  if monday + u =? today then line +:+ "  ←" else line)) /\
     (u1 = u0 + 1 -> u2 = u0 + 2 -> u3 = u0 + 3 ->
        cursor u2 = (cursor u0 + 1) mod Py.len (cycle a) /\
        cursor u3 = (cursor u2 + 1) mod Py.len (cycle a))).
Proof.
  intros unlogged remaining monday Htarget.
  pose proof (week_unlogged_len a today) as Hlen. fold unlogged in Hlen.
  pose proof (rest_days_this_week_nonneg a today) as Htaken.
  assert (Hrem : remaining <= 7) by (unfold remaining, rest_remaining; lia).
  split.
  - intros Hpos Hne.
    destruct (predict_rest_spec unlogged remaining Hne Hlen ltac:(lia))
      as (rs & Hrs & Hchar).
    exists rs. split; [exact Hrs|]. split; [exact Hchar|].
    intros k Hk. pose proof (len_pos unlogged Hne) as Hl.
    split; [apply float_round_exact; lia|].
    split; [apply rest_index_bounds; [assumption|lia..]|].
    apply rest_slot_some; [assumption|lia..].
  - intros Htwo Hzero Hc u0 u1 u2 u3 u4 Hunl rs.
    assert (Hr2 : remaining = 2)
      by (unfold remaining, rest_remaining; rewrite Htwo, Hzero; reflexivity).
    assert (Hne : unlogged <> []) by (rewrite Hunl; discriminate).
    pose proof (week_unlogged_NoDup a today) as Hnd. fold unlogged in Hnd.
    rewrite Hunl in Hnd.
    assert (Hdist : forall i j x y, [u0; u1; u2; u3; u4] !! i = Some x ->
              [u0; u1; u2; u3; u4] !! j = Some y -> i <> j -> x <> y).
    { intros i j x y Hi Hj Hij ->. apply Hij. eapply NoDup_lookup; eassumption. }
    assert (Hin : forall u, u ∈ [u0; u1; u2; u3; u4] -> u ∈ week_unlogged a today).
    { intros u Hu. fold unlogged. rewrite Hunl. exact Hu. }
    assert (Hrs : week_rest_indices a today = Some rs).
    { destruct (predict_rest_spec unlogged remaining Hne Hlen ltac:(lia))
        as (rs' & Hrs' & Hchar).
      unfold week_rest_indices. fold unlogged remaining. rewrite Hrs'.
      f_equal. apply set_eq. intros u. rewrite Hchar, Hr2, Hunl.
      unfold rs. rewrite elem_of_union, !elem_of_singleton. split.
      - intros (k & Hk & Hslot). rewrite rest_slot_5_2 in Hslot by exact Hk.
        injection Hslot as <-. destruct (k =? 1); tauto.
      - intros [-> | ->]; [exists 1|exists 2]; (split; [lia|reflexivity]). }
    assert (H14 : u1 <> u4) by (apply (Hdist 1%nat 4%nat); [reflexivity..|lia]).
    split; [exact Hrs|]. split; [exact H14|].
    split.
    { unfold rs. rewrite size_union, !size_singleton; [reflexivity|].
      apply disjoint_singleton_l, not_elem_of_singleton. exact H14. }
    destruct (week_start_pos_some a today Hc) as [start Hstart].
    destruct (get_week_schedule_spec a today rs start Hc Hrs Hstart)
      as (lines & Hlines & Hl7 & Hlk).
    exists lines, start. cbv zeta.
    split; [exact Hstart|]. split; [exact Hlines|]. split; [exact Hl7|].
    assert (Hrest : forall u, u = u1 \/ u = u4 -> u ∈ rs).
    { intros u Hu. unfold rs. rewrite elem_of_union, !elem_of_singleton. exact Hu. }
    assert (Hwork : forall u, u = u0 \/ u = u2 \/ u = u3 -> u ∉ rs).
    { intros u Hu. unfold rs. rewrite elem_of_union, !elem_of_singleton.
      intros [E|E]; destruct Hu as [-> | [-> | ->]]; revert E.
      - apply (Hdist 0%nat 1%nat); [reflexivity..|lia].
      - apply (Hdist 2%nat 1%nat); [reflexivity..|lia].
      - apply (Hdist 3%nat 1%nat); [reflexivity..|lia].
      - apply (Hdist 0%nat 4%nat); [reflexivity..|lia].
      - apply (Hdist 2%nat 4%nat); [reflexivity..|lia].
      - apply (Hdist 3%nat 4%nat); [reflexivity..|lia]. }
    split; [|split].
    + intros u Hu.
      assert (Hmem : u ∈ week_unlogged a today)
        by (apply Hin; destruct Hu as [-> | ->]; in_list).
      apply elem_of_week_unlogged in Hmem as (Hu7 & Hlog & Htoday).
      rewrite (Hlk u Hu7).
      rewrite (schedule_day_rest a (week_logged a) rs (monday_of today)
                 today u) by auto.
      reflexivity.
    + intros u Hu.
      assert (Hmem : u ∈ week_unlogged a today)
        by (apply Hin; destruct Hu as [-> | [-> | ->]]; in_list).
      apply elem_of_week_unlogged in Hmem as (Hu7 & Hlog & Htoday).
      destruct (schedule_day_workout a (week_logged a) rs (monday_of today)
                  today u
                  (cursor_at a (week_logged a) rs (monday_of today) today
                     start u)
                  Hc Hlog Htoday (Hwork u Hu)) as (w & Hw & Hday).
      exists w. split; [exact Hw|].
      rewrite (Hlk u Hu7), Hday. reflexivity.
    + intros -> -> ->.
      assert (A0 : advancing (week_logged a) rs monday today u0 = true).
      { unfold monday. rewrite advancing_unlogged by (apply Hin; in_list).
        rewrite bool_decide_eq_false_2; [reflexivity|]. apply Hwork. tauto. }
      assert (A1 : advancing (week_logged a) rs monday today (u0 + 1) = false).
      { unfold monday. rewrite advancing_unlogged by (apply Hin; in_list).
        rewrite bool_decide_eq_true_2; [reflexivity|]. apply Hrest. tauto. }
      assert (A2 : advancing (week_logged a) rs monday today (u0 + 2) = true).
      { unfold monday. rewrite advancing_unlogged by (apply Hin; in_list).
        rewrite bool_decide_eq_false_2; [reflexivity|]. apply Hwork. tauto. }
      assert (H0 : 0 <= u0).
      { assert (Hm : u0 ∈ week_unlogged a today) by (apply Hin; in_list).
        apply elem_of_week_unlogged in Hm. lia. }
      split.
      * replace (u0 + 2) with (u0 + 1 + Z.of_nat (length [u0 + 1])) by (cbn; lia).
        apply cursor_at_next; [exact H0|exact A0| |reflexivity].
        intros j Hj. apply list_elem_of_singleton in Hj as ->. exact A1.
      * replace (u0 + 3) with (u0 + 2 + 1 + Z.of_nat (length (@nil Z)))
          by (cbn; lia).
        apply cursor_at_next; [lia|exact A2| |reflexivity].
        intros j Hj. inversion Hj.
Qed.

Lemma C3_witness :
  week_unlogged app_mon_tue 738888 = [2; 3; 4; 5; 6] /\
  rest_remaining (H:=ascii_lib) app_mon_tue 738888 = 2 /\
  week_rest_indices (H:=ascii_lib) app_mon_tue 738888 = Some {[3; 6]} /\
  (forall k, 1 <= k <= 2 ->
     float_round 5 2 k = Some (Py.round_half_even (5 * k) 2)) /\
  exists lines,
    _get_week_schedule (H:=ascii_lib) app_mon_tue 738888 = Some lines /\
    length lines = 7%nat /\
    lines !! Z.to_nat 3 = Some "  Thu  ·  Rest" /\
    lines !! Z.to_nat 6 = Some "  Sun  ·  Rest" /\
    lines !! Z.to_nat 2 = Some "  Wed  ·  Pull  ←" /\
    lines !! Z.to_nat 4 = Some "  Fri  ·  Legs" /\
    lines !! Z.to_nat 5 = Some "  Sat  ·  Push" /\
    lines = ["  Mon  +  Push"; "  Tue  +  Pull"; "  Wed  ·  Pull  ←";
             "  Thu  ·  Rest"; "  Fri  ·  Legs"; "  Sat  ·  Push";
             "  Sun  ·  Rest"].
Proof.
  assert (Hu : week_unlogged app_mon_tue 738888 = [2; 3; 4; 5; 6])
    by (vm_compute; reflexivity).
  assert (Hr : rest_remaining (H:=ascii_lib) app_mon_tue 738888 = 2)
    by (vm_compute; reflexivity).
  destruct (C3_rest_distribution (H:=ascii_lib) app_mon_tue 738888)
    as [Hgen Hscen].
  { vm_compute. split; congruence. }
  destruct Hgen as (rs & _ & _ & Hk).
  { rewrite Hr. lia. }
  { rewrite Hu. discriminate. }
  destruct (Hscen eq_refl ltac:(vm_compute; reflexivity) ltac:(discriminate)
              2 3 4 5 6 Hu)
    as (Hrs & _ & _ & lines & start & Hstart & Hlines & Hlen & Hrest & Hwork
        & _).
  split; [exact Hu|]. split; [exact Hr|]. split; [exact Hrs|].
  split.
  { intros k Hk12. rewrite Hu, Hr in Hk. apply Hk. exact Hk12. }
  assert (Hs : start = 2) by (vm_compute in Hstart; congruence).
  subst start.
  exists lines. split; [exact Hlines|]. split; [exact Hlen|].
  split; [rewrite (Hrest 3 (or_introl eq_refl)); vm_compute; reflexivity|].
  split; [rewrite (Hrest 6 (or_intror eq_refl)); vm_compute; reflexivity|].
  destruct (Hwork 2 (or_introl eq_refl)) as (w2 & Hw2 & Hl2).
  destruct (Hwork 4 (or_intror (or_introl eq_refl))) as (w4 & Hw4 & Hl4).
  destruct (Hwork 5 (or_intror (or_intror eq_refl))) as (w5 & Hw5 & Hl5).
  assert (w2 = "pull") as -> by (vm_compute in Hw2; congruence).
  assert (w4 = "legs") as -> by (vm_compute in Hw4; congruence).
  assert (w5 = "push") as -> by (vm_compute in Hw5; congruence).
  split; [rewrite Hl2; vm_compute; reflexivity|].
  split; [rewrite Hl4; vm_compute; reflexivity|].
  split; [rewrite Hl5; vm_compute; reflexivity|].
  vm_compute in Hlines. congruence.
Defined.

(** C4. With a recorded last log date that reads as the date [last], let
    [gap] be the number of days from it to today. If [gap <= 1] the
    reconciler changes nothing. Otherwise, when every dialog is answered,
    it appends exactly [gap - 1] log entries, the [k]-th of them dated
    [last + 1 + k] (so every day strictly between the last log and today,
    and no other) with the status of the [k]-th answer; the position
    advances by one step of the rotation for each Done answer and for no
    other; and [last_log_date] is set to the day before today, which is not
    today, in the object and in the saved state. *)
Theorem C4_gap_reconciliation `{PyLib} (a : App) (today : Z)
    (script : list Z) (s : string) (last : Z) :
  cycle a <> [] ->
  last_log_date (state a) = Some s -> s <> EmptyString ->
  fromisoformat s = Some last ->
  let gap := today - last in
  (gap <= 1 -> _check_missed_days today script a = Ok tt a) /\
  (1 < gap -> (Z.to_nat (gap - 1) <= length script)%nat ->
   exists a' new,
     _check_missed_days today script a = Ok tt a' /\
     db_logs (db a') = db_logs (db a) ++ new /\
     length new = Z.to_nat (gap - 1) /\
     (forall k r, (k < Z.to_nat (gap - 1))%nat -> script !! k = Some r ->
        exists e, new !! k = Some e /\
          e_date e = Some (Date.isoformat (last + 1 + Z.of_nat k)) /\
          e_status e = Some (decision r)) /\
     done_entries new = count_done (take (Z.to_nat (gap - 1)) script) /\
     position a' =
       advance_n (Py.len (cycle a))
         (count_done (take (Z.to_nat (gap - 1)) script)) (position a) /\
     cycle a' = cycle a /\
     st_position (state a') = position a' /\
     last_log_date (state a') = Some (Date.isoformat (today - 1)) /\
     (Date.MINORD < today <= Date.MAXORD ->
      last_log_date (state a') <> Some (Date.isoformat today)) /\
     db_state (db a') = Some (state a')).
Proof.
  intros Hc Hs Hne Hf gap.
  rewrite (check_missed_days_unfold a today script s last Hs Hne Hf).
  fold gap. split.
  - intros Hg. destruct (Z.leb_spec gap 1); [reflexivity|lia].
  - intros Hg Hlen. destruct (Z.leb_spec gap 1); [lia|].
    rewrite missed_loop_spec by assumption. cbv zeta.
    rewrite range2_length.
    case_decide as Hd; [|lia].
    rewrite (bool_decide_eq_true_2 (Py.range2 1 gap <> []))
      by (apply range2_nonempty; lia).
    cbn [orb].
    eexists. exists (backfill_log (cycle a) last (Py.range2 1 gap) script (position a)).
    split; [reflexivity|]. cbn.
    split; [reflexivity|].
    split; [rewrite backfill_log_length, range2_length; lia|].
    split.
    { intros k r Hk Hr.
      eexists. split.
      - apply backfill_log_lookup; [apply range2_lookup; exact Hk|exact Hr].
      - cbn. split; [|reflexivity]. do 2 f_equal. lia. }
    split; [rewrite backfill_log_done, range2_length; reflexivity|].
    split; [rewrite backfill_pos_advance, range2_length; reflexivity|].
    split; [reflexivity|]. split; [reflexivity|]. split; [reflexivity|].
    split; [|reflexivity].
    intros Ht E. injection E as E.
    apply DateFacts.isoformat_inj in E; unfold Date.MINORD, Date.MAXORD in *; lia.
Qed.

Lemma C4_witness :
  _check_missed_days (H:=ascii_lib) 738887 [] app_mon = Ok tt app_mon /\
  exists a' new,
    _check_missed_days (H:=ascii_lib) 738890 [1; -1; 0] app_mon = Ok tt a' /\
    db_logs (db a') = db_logs (db app_mon) ++ new /\
    length new = 3%nat /\
    position a' = 2 /\
    last_log_date (state a') = Some "2024-01-04".
Proof.
  split.
  - apply (C4_gap_reconciliation (H:=ascii_lib) app_mon 738887 []
             "2024-01-01" 738886);
      [discriminate|reflexivity|discriminate|reflexivity|vm_compute; congruence].
  - destruct (proj2 (C4_gap_reconciliation (H:=ascii_lib) app_mon 738890
                       [1; -1; 0] "2024-01-01" 738886 ltac:(discriminate)
                       eq_refl ltac:(discriminate) eq_refl))
      as (a' & new & E & Hlog & Hlen & _ & _ & Hp & _ & _ & Hd & _).
    + reflexivity.
    + vm_compute. lia.
    + exists a', new. repeat split; assumption.
Defined.

(** C5. [set_cycle] (the Save branch of [edit_cycle]): the labels of the
    comma-separated text are trimmed and lower-cased and the empty ones are
    dropped. When nothing is left the call changes nothing: cycle, position,
    state and database are as before. Otherwise the cycle becomes the
    normalized sequence and the position 0, whatever it was, in the object,
    in its state and in the saved state; the other fields and the log are
    kept. *)
Theorem C5_set_cycle `{PyLib} (a : App) (text : string) :
  str_lower_law ->
  let new_cycle :=
    filter (fun w => w <> EmptyString)
      ((fun w => str_lower (str_strip w)) <$> Py.split "," text) in
  (new_cycle = [] -> edit_cycle true text a = Ok tt a) /\
  (new_cycle <> [] ->
   exists a', edit_cycle true text a = Ok tt a' /\
     cycle a' = new_cycle /\ position a' = 0 /\
     st_cycle (state a') = new_cycle /\ st_position (state a') = 0 /\
     last_log_date (state a') = last_log_date (state a) /\
     rest_days_per_week (state a') = rest_days_per_week (state a) /\
     db_state (db a') = Some (state a') /\
     db_logs (db a') = db_logs (db a)).
Proof.
  intros Hlow new_cycle.
  assert (E : normalize_cycle text = new_cycle)
    by (apply normalize_cycle_alt; assumption).
  unfold edit_cycle. rewrite E. clearbody new_cycle.
  split; intros Hn.
  - rewrite Hn. reflexivity.
  - destruct new_cycle as [|w ws]; [congruence|].
    eexists. split; [reflexivity|]. repeat split.
Qed.

Lemma C5_witness :
  position app_mon = 1 /\
  edit_cycle (H:=ascii_lib) true "  , ," app_mon = Ok tt app_mon /\
  exists a',
    edit_cycle (H:=ascii_lib) true " Upper, lower ,,CORE" app_mon = Ok tt a' /\
    cycle a' = ["upper"; "lower"; "core"] /\ position a' = 0.
Proof.
  split; [reflexivity|]. split.
  - apply (C5_set_cycle (H:=ascii_lib) app_mon "  , ," ascii_lower_law).
    reflexivity.
  - destruct (proj2 (C5_set_cycle (H:=ascii_lib) app_mon " Upper, lower ,,CORE"
                       ascii_lower_law)) as (a' & E & Hc & Hp & _).
    + vm_compute. discriminate.
    + exists a'. split; [exact E|]. split; [rewrite Hc; reflexivity|exact Hp].
Defined.

(** C6 as stated fails: two [rest] entries share the date 2024-01-02, a
    Tuesday, and on the Wednesday of that week [_rest_days_this_week]
    counts 2, one for each entry, not 1 for the one date. *)
Lemma C6_counterexample :
  (entry_date <$> get_history (db app_two_rests) 30)
    = ["2024-01-02"; "2024-01-02"] /\
  monday_of 738888 = 738886 /\
  _rest_days_this_week (H:=ascii_lib) app_two_rests 738888 = 2 /\
  _rest_days_this_week (H:=ascii_lib) app_two_rests 738888 <> 1.
Proof. vm_compute. repeat split; congruence. Qed.

(** C6, amended. [_rest_days_this_week] is the number of entries, among the
    30 most recent ones, whose status is [rest] and whose date can be read
    and is between the Monday of this week and today, both included. Each
    such entry counts: nothing is de-duplicated by date, and two [rest]
    entries for one date of the week count twice. *)
Theorem C6_rest_days_this_week `{PyLib} (a : App) (today : Z) :
  Date.weekday (monday_of today) = 0 /\
  0 <= today - monday_of today <= 6 /\
  _rest_days_this_week a today =
    Z.of_nat (length (filter
                (fun e => rest_in_week (monday_of today) today e = true)
                (get_history (db a) 30))) /\
  (forall e older,
     db_logs (db a) = older ++ [e; e] ->
     rest_in_week (monday_of today) today e = true ->
     2 <= _rest_days_this_week a today).
Proof.
  destruct (monday_of_spec today) as [Hw Hr].
  assert (E : _rest_days_this_week a today =
    Z.of_nat (length (filter
                (fun e => rest_in_week (monday_of today) today e = true)
                (get_history (db a) 30)))).
  { unfold _rest_days_this_week. rewrite rest_count_loop_filter. lia. }
  split; [exact Hw|]. split; [exact Hr|]. split; [exact E|].
  intros e older Hlogs He. rewrite E.
  rewrite (get_history_app _ older [e; e] 30 Hlogs) by (cbn; lia).
  cbn [reverse]. change (reverse [e; e]) with [e; e].
  rewrite filter_app, length_app. cbn [app].
  rewrite !filter_cons. case_decide; [|congruence]. cbn [length]. lia.
Qed.

Lemma C6_witness :
  2 <= _rest_days_this_week (H:=ascii_lib) app_two_rests 738888.
Proof.
  apply (proj2 (proj2 (proj2
           (C6_rest_days_this_week (H:=ascii_lib) app_two_rests 738888)))
           (entry_for 738887 "rest" "rest") []); reflexivity.
Defined.

(** C7 as stated fails: after Monday and Tuesday are done the cursor is on
    [legs] (position 2), and marking Wednesday done wraps it to position 0,
    [push]; it does not become 1, [pull]. Monday is 2024-01-01. *)
Lemma C7_counterexample :
  Date.weekday 738886 = 0 /\
  current_workout app_mon_tue = Some "legs" /\
  position app_mon_tue_wed = 0 /\ position app_mon_tue_wed <> 1 /\
  current_workout app_mon_tue_wed = Some "push" /\
  current_workout app_mon_tue_wed <> Some "pull".
Proof. vm_compute. repeat split; congruence. Qed.

(** C7, amended. From the default state (cycle push, pull, legs; position
    0), after [mark_done] on a Monday [m] and on the Tuesday the log holds
    push/done and pull/done, Wednesday is not logged and [current_workout]
    is [legs]; marking Wednesday done wraps the position to 0, so that
    [current_workout] is [push], and sets [last_log_date] to Wednesday, in
    the object and in the saved state. This holds for any three days in a
    row. *)
Theorem C7_end_to_end (m : Z) :
  Date.MINORD <= m -> m + 2 <= Date.MAXORD ->
  exists a2 a3,
    (mark_done m;;; mark_done (m + 1)) fresh_app = Ok tt a2 /\
    db_logs (db a2) =
      [entry_for m "push" "done"; entry_for (m + 1) "pull" "done"] /\
    _logged_today a2 (m + 2) = false /\
    current_workout a2 = Some "legs" /\
    mark_done (m + 2) a2 = Ok tt a3 /\
    position a3 = 0 /\ current_workout a3 = Some "push" /\
    last_log_date (state a3) = Some (Date.isoformat (m + 2)) /\
    st_position (state a3) = 0 /\
    db_state (db a3) = Some (state a3).
Proof.
  intros Hlo Hhi.
  assert (N1 : Date.isoformat m <> Date.isoformat (m + 1)).
  { intros E. apply DateFacts.isoformat_inj in E; lia. }
  assert (N2 : Date.isoformat (m + 1) <> Date.isoformat (m + 2)).
  { intros E. apply DateFacts.isoformat_inj in E; lia. }
  eexists. eexists.
  split.
  { unfold bind at 1.
    rewrite (mark_done_fresh fresh_app m "push");
      [|reflexivity|discriminate|reflexivity].
    cbv zeta.
    rewrite (mark_done_fresh _ (m + 1) "pull");
      [reflexivity| |discriminate|reflexivity].
    apply logged_today_false. simpl. congruence. }
  split; [reflexivity|].
  split; [apply logged_today_false; simpl; congruence|].
  split; [reflexivity|].
  split.
  { rewrite (mark_done_fresh _ (m + 2) "legs");
      [reflexivity| |discriminate|reflexivity].
    apply logged_today_false. simpl. congruence. }
  repeat split.
Qed.

Lemma C7_witness :
  exists a2 a3,
    (mark_done 738886;;; mark_done (738886 + 1)) fresh_app = Ok tt a2 /\
    db_logs (db a2) =
      [entry_for 738886 "push" "done"; entry_for (738886 + 1) "pull" "done"] /\
    _logged_today a2 (738886 + 2) = false /\
    current_workout a2 = Some "legs" /\
    mark_done (738886 + 2) a2 = Ok tt a3 /\
    position a3 = 0 /\ current_workout a3 = Some "push" /\
    last_log_date (state a3) = Some (Date.isoformat (738886 + 2)) /\
    st_position (state a3) = 0 /\
    db_state (db a3) = Some (state a3).
Proof. apply (C7_end_to_end 738886); vm_compute; congruence. Defined.

(** C8 as stated fails. Monday 2024-01-01 is logged and the application
    starts on Friday: three days are missed. The dialog for Tuesday is
    answered Done and the one for Wednesday does not return. The entry for
    Tuesday is in the log and the cursor of the object has moved to 2, but
    the state of the object and the saved state are those from before the
    run: position 1 and last log date Monday, not position 2 and Tuesday. *)
Lemma C8_counterexample :
  exists a',
    _check_missed_days (H:=ascii_lib) 738890 [1] app_mon = Exn a' /\
    db_logs (db a') = db_logs (db app_mon) ++ [entry_for 738887 "pull" "done"] /\
    position a' = 2 /\
    db_state (db a') = db_state (db app_mon) /\
    (st_position <$> db_state (db a')) = Some 1 /\
    (db_state (db a') ≫= last_log_date) = Some "2024-01-01" /\
    (db_state (db a') ≫= last_log_date) <> Some (Date.isoformat 738887).
Proof.
  eexists. split; [vm_compute; reflexivity|].
  vm_compute. repeat split; congruence.
Qed.

(** C8, amended. When the dialogs stop returning after [m] of the
    [gap - 1] missed days were decided, the run stops there with the
    exception: the log has one entry for each of the [m] decided days, dated
    and marked as decided, and none for the days left; the cursor of the
    object has advanced for the Done answers. Nothing of this reaches the
    state: the state of the object and the saved state document, with their
    position and last log date, are those from before the run. *)
Theorem C8_partial_progress `{PyLib} (a : App) (today : Z)
    (script : list Z) (s : string) (last : Z) :
  cycle a <> [] ->
  last_log_date (state a) = Some s -> s <> EmptyString ->
  fromisoformat s = Some last ->
  let gap := today - last in
  1 < gap -> (length script < Z.to_nat (gap - 1))%nat ->
  exists a' new,
    _check_missed_days today script a = Exn a' /\
    db_logs (db a') = db_logs (db a) ++ new /\
    length new = length script /\
    (forall k r, script !! k = Some r ->
       exists e, new !! k = Some e /\
         e_date e = Some (Date.isoformat (last + 1 + Z.of_nat k)) /\
         e_status e = Some (decision r)) /\
    position a' =
      advance_n (Py.len (cycle a)) (count_done script) (position a) /\
    cycle a' = cycle a /\
    state a' = state a /\
    db_state (db a') = db_state (db a).
Proof.
  intros Hc Hs Hne Hf gap Hg Hlen.
  rewrite (check_missed_days_unfold a today script s last Hs Hne Hf).
  fold gap. destruct (Z.leb_spec gap 1); [lia|].
  rewrite missed_loop_spec by assumption. cbv zeta.
  rewrite range2_length.
  case_decide as Hd; [lia|].
  eexists. exists (backfill_log (cycle a) last (Py.range2 1 gap) script (position a)).
  split; [reflexivity|]. cbn.
  split; [reflexivity|].
  split; [rewrite backfill_log_length, range2_length; lia|].
  split.
  { intros k r Hr.
    assert (Hk : (k < length script)%nat) by (eapply lookup_lt_Some; exact Hr).
    eexists. split.
    - apply backfill_log_lookup; [apply range2_lookup; lia|exact Hr].
    - cbn. split; [|reflexivity]. do 2 f_equal. lia. }
  split.
  { rewrite backfill_pos_advance, range2_length.
    rewrite take_ge by lia. reflexivity. }
  repeat split.
Qed.

Lemma C8_witness :
  exists a' new,
    _check_missed_days (H:=ascii_lib) 738890 [1] app_mon = Exn a' /\
    db_logs (db a') = db_logs (db app_mon) ++ new /\
    length new = 1%nat /\
    state a' = state app_mon /\
    db_state (db a') = db_state (db app_mon).
Proof.
  destruct (C8_partial_progress (H:=ascii_lib) app_mon 738890 [1]
              "2024-01-01" 738886
              ltac:(discriminate) eq_refl ltac:(discriminate) eq_refl)
    as (a' & new & E & Hlog & Hlen & _ & _ & _ & Hst & Hdb).
  - reflexivity.
  - vm_compute. lia.
  - exists a', new. repeat split; assumption.
Defined.

(** C9. [set_rest_target] (the Save branch of [edit_rest_target]): when the
    trimmed text reads as an integer [n] with [0 <= n <= 7],
    [rest_days_per_week] becomes [n] in the state, which is saved, and
    nothing else changes; for every other text (not an integer, or out of
    range) the call returns normally and the object and the database are
    as before. *)
Theorem C9_set_rest_target `{PyLib} (a : App) (text : string) :
  (forall n, str_int (str_strip text) = Some n -> 0 <= n <= 7 ->
   exists a', edit_rest_target true text a = Ok tt a' /\
     rest_days_per_week (state a') = Some n /\
     st_cycle (state a') = st_cycle (state a) /\
     st_position (state a') = st_position (state a) /\
     last_log_date (state a') = last_log_date (state a) /\
     cycle a' = cycle a /\ position a' = position a /\
     db_state (db a') = Some (state a') /\
     db_logs (db a') = db_logs (db a)) /\
  ((forall n, str_int (str_strip text) = Some n -> ~ (0 <= n <= 7)) ->
   edit_rest_target true text a = Ok tt a).
Proof.
  unfold edit_rest_target. split.
  - intros n Hn Hr. rewrite Hn.
    destruct (Z.leb_spec 0 n); [|lia]. destruct (Z.leb_spec n 7); [|lia].
    eexists. split; [reflexivity|]. repeat split.
  - intros Hbad. destruct (str_int (str_strip text)) as [n|] eqn:Hn; [|reflexivity].
    specialize (Hbad n eq_refl).
    destruct (Z.leb_spec 0 n); destruct (Z.leb_spec n 7); simpl;
      try reflexivity. lia.
Qed.

Lemma C9_witness :
  (exists a', edit_rest_target (H:=ascii_lib) true " 3 " fresh_app = Ok tt a' /\
              rest_days_per_week (state a') = Some 3) /\
  edit_rest_target (H:=ascii_lib) true "8" fresh_app = Ok tt fresh_app /\
  edit_rest_target (H:=ascii_lib) true "three" fresh_app = Ok tt fresh_app.
Proof.
  split; [|split].
  - destruct (proj1 (C9_set_rest_target (H:=ascii_lib) fresh_app " 3 ") 3)
      as (a' & E & Hr & _); [reflexivity|lia|].
    exists a'. split; assumption.
  - apply (C9_set_rest_target (H:=ascii_lib) fresh_app "8").
    intros n Hn. vm_compute in Hn. injection Hn as <-. lia.
  - apply (C9_set_rest_target (H:=ascii_lib) fresh_app "three").
    intros n Hn. vm_compute in Hn. discriminate.
Defined.

(** C10. When today is already logged ([last_log_date] is today's date),
    [mark_done] and [mark_rest] return at once: the object after the call is
    the object before it, database included, so that no log entry is
    appended, position and [last_log_date] are unchanged and nothing is
    saved. The guard is in the methods themselves. *)
Theorem C10_logged_today_is_noop (a : App) (today : Z) :
  last_log_date (state a) = Some (Date.isoformat today) ->
  mark_done today a = Ok tt a /\ mark_rest today a = Ok tt a.
Proof.
  intros E. apply logged_today_true in E.
  unfold mark_done, mark_rest. unfold_m. rewrite E. split; reflexivity.
Qed.

Lemma C10_witness :
  last_log_date (state app_mon) = Some (Date.isoformat 738886) /\
  mark_done 738886 app_mon = Ok tt app_mon /\
  mark_rest 738886 app_mon = Ok tt app_mon.
Proof.
  split; [reflexivity|].
  apply (C10_logged_today_is_noop app_mon 738886). reflexivity.
Defined.

(** * Further properties of the code *)

(** ** The rotation cursor *)

(** X1. [current_workout] raises exactly when the rotation is empty;
    otherwise it returns a label of the rotation, and the same label for
    positions that differ by a multiple of its length. *)
Theorem X1_current_workout (a : App) :
  (current_workout a = None <-> cycle a = []) /\
  (forall w, current_workout a = Some w -> w ∈ cycle a) /\
  (forall k, current_workout
               (with_position (position a + k * Py.len (cycle a)) a)
             = current_workout a).
Proof.
  split; [|split].
  - split.
    + intros E. destruct (cycle a) as [|w ws] eqn:Hc; [reflexivity|].
      destruct (current_workout_some a) as (w' & Hw' & _); [congruence|].
      congruence.
    + intros Hc. unfold current_workout. rewrite Hc. reflexivity.
  - intros w Hw. destruct (decide (cycle a = [])) as [Hc|Hc].
    + unfold current_workout in Hw. rewrite Hc in Hw. discriminate.
    + destruct (current_workout_some a Hc) as (w' & Hw' & Hlk).
      assert (w' = w) by congruence. subst w'.
      eapply list_elem_of_lookup_2. exact Hlk.
  - intros k. unfold current_workout. cbn [with_position cycle position].
    destruct (decide (cycle a = [])) as [Hc|Hc].
    + rewrite Hc. reflexivity.
    + rewrite !mod_len by assumption. cbn.
      rewrite Z.mod_add by (pose proof (len_pos _ Hc); lia). reflexivity.
Qed.

Lemma mark_done_empty (a : App) (today : Z) :
  cycle a = [] -> _logged_today a today = false -> mark_done today a = Exn a.
Proof.
  intros Hc Hl.
  assert (Hw : current_workout a = None)
    by (unfold current_workout; rewrite Hc; reflexivity).
  unfold mark_done. unfold_m. rewrite Hl, Hw. reflexivity.
Qed.

Lemma mark_rest_empty (a : App) (today : Z) :
  cycle a = [] -> _logged_today a today = false -> mark_rest today a = Exn a.
Proof.
  intros Hc Hl.
  assert (Hw : current_workout a = None)
    by (unfold current_workout; rewrite Hc; reflexivity).
  unfold mark_rest. unfold_m. rewrite Hl, Hw. reflexivity.
Qed.

(** X2. With an empty rotation, a click on a day that is not logged raises
    before anything is written: the tracker and its database are as they
    were. *)
Theorem X2_empty_cycle_raises (a : App) (today : Z) :
  cycle a = [] -> _logged_today a today = false ->
  mark_done today a = Exn a /\ mark_rest today a = Exn a.
Proof.
  intros Hc Hl. split; [apply mark_done_empty|apply mark_rest_empty]; assumption.
Qed.

Lemma X2_witness :
  mark_done 738886 (with_cycle [] fresh_app) = Exn (with_cycle [] fresh_app) /\
  mark_rest 738886 (with_cycle [] fresh_app) = Exn (with_cycle [] fresh_app).
Proof.
  apply (X2_empty_cycle_raises (with_cycle [] fresh_app) 738886); reflexivity.
Defined.

(** ** One entry a day *)

Lemma click_when_logged (a : App) (today : Z) (b : bool) :
  _logged_today a today = true -> click today b a = Ok tt a.
Proof.
  intros Hl. destruct b; unfold click, mark_done, mark_rest; unfold_m;
    rewrite Hl; reflexivity.
Qed.

Lemma click_returns_logged (a : App) (today : Z) (b : bool) :
  cycle a <> [] ->
  exists a1, click today b a = Ok tt a1 /\ _logged_today a1 today = true /\
             cycle a1 = cycle a.
Proof.
  intros Hc. destruct (_logged_today a today) eqn:Hl.
  - exists a. rewrite click_when_logged by exact Hl. auto.
  - destruct b; unfold click.
    + destruct (current_workout_some a Hc) as (w & Hw & _).
      rewrite (mark_done_fresh a today w Hl Hc Hw). cbv zeta.
      eexists. split; [reflexivity|]. split; [|reflexivity].
      apply logged_today_true. reflexivity.
    + rewrite (mark_rest_fresh a today Hl Hc). cbv zeta.
      eexists. split; [reflexivity|]. split; [|reflexivity].
      apply logged_today_true. reflexivity.
Qed.

Lemma clicks_when_logged (a : App) (today : Z) (bs : list bool) :
  _logged_today a today = true -> clicks today bs a = Ok tt a.
Proof.
  intros Hl. induction bs as [|b bs IH]; [reflexivity|].
  cbn [clicks]. unfold bind. rewrite click_when_logged by exact Hl. exact IH.
Qed.

(** X3. The first click of a day wins. With a rotation that is not empty,
    any sequence of Done and Rest Instead clicks on one day does what its
    first click does, and leaves the day logged; so at most one entry is
    written for the day, and the position moves at most once. *)
Theorem X3_first_click_wins (a : App) (today : Z) (b : bool) (bs : list bool) :
  cycle a <> [] ->
  clicks today (b :: bs) a = click today b a /\
  _logged_today (final (click today b a)) today = true /\
  (length (db_logs (db (final (clicks today (b :: bs) a))))
   <= S (length (db_logs (db a))))%nat.
Proof.
  intros Hc.
  destruct (click_returns_logged a today b Hc) as (a1 & E & Hl & _).
  assert (E2 : clicks today (b :: bs) a = click today b a).
  { cbn [clicks]. unfold bind. rewrite E. apply clicks_when_logged. exact Hl. }
  split; [exact E2|]. rewrite E2, E. cbn [final]. split; [exact Hl|].
  destruct (_logged_today a today) eqn:Hl0.
  - rewrite click_when_logged in E by exact Hl0. injection E as <-. lia.
  - destruct b; unfold click in E.
    + destruct (current_workout_some a Hc) as (w & Hw & _).
      rewrite (mark_done_fresh a today w Hl0 Hc Hw) in E. injection E as <-.
      cbn. rewrite length_app. cbn. lia.
    + rewrite (mark_rest_fresh a today Hl0 Hc) in E. injection E as <-.
      cbn. rewrite length_app. cbn. lia.
Qed.

Lemma X3_witness :
  clicks 738886 [false; true; true] fresh_app = click 738886 false fresh_app /\
  position (final (clicks 738886 [false; true; true] fresh_app)) = 0 /\
  length (db_logs (db (final (clicks 738886 [false; true; true] fresh_app))))
  = 1%nat.
Proof.
  split.
  - apply (X3_first_click_wins fresh_app 738886 false [true; true]). discriminate.
  - split; reflexivity.
Defined.

(** ** What a call can do to the tracker *)

(** The three ways [_check_missed_days] ends: nothing to do; a backfill over
    all the missed days, saved; a backfill cut short by the exception, not
    saved. *)
Lemma check_missed_days_shape `{PyLib} (a : App) (today : Z) (script : list Z) :
  cycle a <> [] ->
  (forall script', _check_missed_days today script' a = Ok tt a) \/
  exists s last,
    last_log_date (state a) = Some s /\ s <> EmptyString /\
    fromisoformat s = Some last /\ 1 < today - last /\
    let offsets := Py.range2 1 (today - last) in
    let es := backfill_log (cycle a) last offsets script (position a) in
    let p := backfill_pos (Py.len (cycle a)) offsets script (position a) in
    ((length offsets <= length script)%nat /\
     _check_missed_days today script a = Ok tt (after_reconcile a today es p))
    \/
    ((length script < length offsets)%nat /\
     _check_missed_days today script a = Exn (after_backfill a es p)).
Proof.
  intros Hc.
  destruct (last_log_date (state a)) as [s|] eqn:Hs.
  2:{ left. intros script'. unfold _check_missed_days. unfold_m. rewrite Hs.
      reflexivity. }
  destruct (decide (s = EmptyString)) as [->|Hne].
  { left. intros script'. unfold _check_missed_days. unfold_m. rewrite Hs.
    reflexivity. }
  destruct (fromisoformat s) as [last|] eqn:Hf.
  2:{ left. intros script'. unfold _check_missed_days. unfold_m. rewrite Hs.
      destruct s; [congruence|]. rewrite Hf. reflexivity. }
  destruct (Z.leb_spec (today - last) 1) as [Hg|Hg].
  { left. intros script'.
    rewrite (check_missed_days_unfold a today script' s last Hs Hne Hf).
    destruct (Z.leb_spec (today - last) 1); [reflexivity|lia]. }
  rewrite (check_missed_days_unfold a today script s last Hs Hne Hf).
  destruct (Z.leb_spec (today - last) 1); [lia|].
  right. exists s, last. split; [reflexivity|]. split; [exact Hne|].
  split; [exact Hf|]. split; [exact Hg|]. cbv zeta.
  rewrite missed_loop_spec by assumption. cbv zeta.
  case_decide as Hd.
  - left. split; [exact Hd|].
    rewrite (bool_decide_eq_true_2 (Py.range2 1 (today - last) <> []))
      by (apply range2_nonempty; lia).
    reflexivity.
  - right. split; [lia|reflexivity].
Qed.

Lemma missed_loop_empty_cycle `{PyLib} (last i : Z) (offsets script : list Z)
    (changed : bool) (a : App) :
  cycle a = [] -> missed_loop last (i :: offsets) script changed a = Exn a.
Proof.
  intros Hc. cbn [missed_loop]. unfold_m.
  unfold current_workout. rewrite Hc. reflexivity.
Qed.

(** With an empty rotation [_check_missed_days] writes nothing: it returns,
    or it raises at the first missed day. *)
Lemma check_missed_days_empty_cycle `{PyLib} (a : App) (today : Z)
    (script : list Z) :
  cycle a = [] -> final (_check_missed_days today script a) = a.
Proof.
  intros Hc.
  destruct (last_log_date (state a)) as [s|] eqn:Hs.
  2:{ unfold _check_missed_days. unfold_m. rewrite Hs. reflexivity. }
  destruct (decide (s = EmptyString)) as [->|Hne].
  { unfold _check_missed_days. unfold_m. rewrite Hs. reflexivity. }
  destruct (fromisoformat s) as [last|] eqn:Hf.
  2:{ unfold _check_missed_days. unfold_m. rewrite Hs.
      destruct s; [congruence|]. rewrite Hf. reflexivity. }
  rewrite (check_missed_days_unfold a today script s last Hs Hne Hf).
  destruct (Z.leb_spec (today - last) 1) as [Hg|Hg]; [reflexivity|].
  destruct (Py.range2 1 (today - last)) as [|i offsets] eqn:Hr.
  { exfalso. revert Hr. apply range2_nonempty. lia. }
  rewrite missed_loop_empty_cycle by exact Hc. reflexivity.
Qed.

Lemma decision_cases (r : Z) :
  (decision r = "done" \/ decision r = "rest" \/ decision r = "skip") /\
  (decision r = "rest" -> (r =? -1) = true).
Proof.
  unfold decision. destruct (r =? 1); [split; [auto|discriminate]|].
  destruct (r =? -1); split; auto; discriminate.
Qed.

Lemma backfill_log_written (cyc : list string) (last : Z)
    (offsets script : list Z) (p : Z) :
  Forall written (backfill_log cyc last offsets script p).
Proof.
  revert script p. induction offsets as [|i offsets IH]; intros script p.
  - constructor.
  - destruct script as [|r script]; [constructor|].
    cbn [backfill_log]. constructor; [|apply IH].
    destruct (decision_cases r) as [H3 Hrest].
    eexists _, _, _. split; [reflexivity|]. split; [exact H3|].
    intros E. rewrite (Hrest E). reflexivity.
Qed.

Lemma written_entry_for (d : Z) (w st : string) :
  (st = "done" \/ st = "rest" \/ st = "skip") -> (st = "rest" -> w = "rest") ->
  written (entry_for d w st).
Proof. intros H1 H2. exists d, w, st. auto. Qed.

Lemma edit_cycle_cases `{PyLib} (clicked : bool) (text : string) (a : App) :
  edit_cycle clicked text a = Ok tt a \/
  exists c, c <> [] /\
    edit_cycle clicked text a =
      Ok tt (let s := state_set_position 0 (state_set_cycle c (state a)) in
             {| db := save_state (db a) s; state := s; cycle := c;
                position := 0 |}).
Proof.
  unfold edit_cycle. destruct clicked; [|left; reflexivity].
  destruct (normalize_cycle text) as [|w ws]; [left; reflexivity|].
  right. exists (w :: ws). split; [discriminate|reflexivity].
Qed.

Lemma edit_rest_target_cases `{PyLib} (clicked : bool) (text : string) (a : App) :
  edit_rest_target clicked text a = Ok tt a \/
  exists n, 0 <= n <= 7 /\
    edit_rest_target clicked text a =
      Ok tt (let s := state_set_rest_days_per_week n (state a) in
             {| db := save_state (db a) s; state := s; cycle := cycle a;
                position := position a |}).
Proof.
  unfold edit_rest_target. destruct clicked; [|left; reflexivity].
  destruct (str_int (str_strip text)) as [n|]; [|left; reflexivity].
  destruct (Z.leb_spec 0 n); [|left; reflexivity].
  destruct (Z.leb_spec n 7); [|left; reflexivity].
  right. exists n. split; [lia|reflexivity].
Qed.

(** The ways a click ends. *)
Lemma mark_done_cases (a : App) (today : Z) :
  mark_done today a = Ok tt a \/ mark_done today a = Exn a \/
  exists w,
    cycle a <> [] /\ current_workout a = Some w /\
    mark_done today a =
      Ok tt (let p := (position a + 1) mod Py.len (cycle a) in
             let s := state_set_last_log_date (Date.isoformat today)
                        (state_set_position p (state a)) in
             {| db := save_state (log_entry (db a) w "done" today) s;
                state := s; cycle := cycle a; position := p |}).
Proof.
  destruct (_logged_today a today) eqn:Hl.
  - left. unfold mark_done. unfold_m. rewrite Hl. reflexivity.
  - destruct (decide (cycle a = [])) as [Hc|Hc].
    + right. left. apply mark_done_empty; assumption.
    + right. right. destruct (current_workout_some a Hc) as (w & Hw & _).
      exists w. split; [exact Hc|]. split; [exact Hw|].
      apply mark_done_fresh; assumption.
Qed.

Lemma mark_rest_cases (a : App) (today : Z) :
  mark_rest today a = Ok tt a \/ mark_rest today a = Exn a \/
  (cycle a <> [] /\
   mark_rest today a =
     Ok tt (let s := state_set_last_log_date (Date.isoformat today) (state a) in
            {| db := save_state (log_entry (db a) "rest" "rest" today) s;
               state := s; cycle := cycle a; position := position a |})).
Proof.
  destruct (_logged_today a today) eqn:Hl.
  - left. unfold mark_rest. unfold_m. rewrite Hl. reflexivity.
  - destruct (decide (cycle a = [])) as [Hc|Hc].
    + right. left. apply mark_rest_empty; assumption.
    + right. right. split; [exact Hc|]. apply mark_rest_fresh; assumption.
Qed.

Lemma exec1_logs `{PyLib} (c : command) (a : App) :
  exists new,
    db_logs (db (final (exec1 c a))) = db_logs (db a) ++ new /\
    Forall written new.
Proof.
  assert (Hsame : forall o : outcome unit, final o = a ->
            exists new, db_logs (db (final o)) = db_logs (db a) ++ new /\
                        Forall written new).
  { intros o ->. exists []. rewrite app_nil_r. split; [reflexivity|constructor]. }
  destruct c as [today|today|today script|clicked text|clicked text]; cbn [exec1].
  - destruct (mark_done_cases a today) as [E|[E|(w & _ & _ & E)]];
      rewrite E; try (apply Hsame; reflexivity).
    exists [entry_for today w "done"]. split; [reflexivity|].
    constructor; [|constructor]. apply written_entry_for; [auto|discriminate].
  - destruct (mark_rest_cases a today) as [E|[E|(_ & E)]];
      rewrite E; try (apply Hsame; reflexivity).
    exists [entry_for today "rest" "rest"]. split; [reflexivity|].
    constructor; [|constructor]. apply written_entry_for; auto.
  - destruct (decide (cycle a = [])) as [Hc|Hc].
    + apply Hsame. apply check_missed_days_empty_cycle. exact Hc.
    + destruct (check_missed_days_shape a today script Hc)
        as [E|(s & last & _ & _ & _ & _ & [[_ E]|[_ E]])];
        rewrite E; try (apply Hsame; reflexivity);
        eexists; (split; [reflexivity|apply backfill_log_written]).
  - destruct (edit_cycle_cases clicked text a) as [E|(c & _ & E)];
      rewrite E; [apply Hsame; reflexivity|].
    exists []. cbn. rewrite app_nil_r. split; [reflexivity|constructor].
  - destruct (edit_rest_target_cases clicked text a) as [E|(n & _ & E)];
      rewrite E; [apply Hsame; reflexivity|].
    exists []. cbn. rewrite app_nil_r. split; [reflexivity|constructor].
Qed.

Lemma backfill_pos_in_range (n : Z) (offsets script : list Z) (p : Z) :
  0 <= p < n -> 0 <= backfill_pos n offsets script p < n.
Proof.
  intros Hp. rewrite backfill_pos_advance, advance_n_in_range by assumption.
  apply Z.mod_pos_bound. lia.
Qed.

Lemma exec1_well_formed `{PyLib} (c : command) (a : App) :
  well_formed a -> well_formed (final (exec1 c a)).
Proof.
  intros Hwf. pose proof Hwf as (Hc & Hp & Ht).
  destruct c as [today|today|today script|clicked text|clicked text]; cbn [exec1].
  - destruct (mark_done_cases a today) as [E|[E|(w & _ & _ & E)]];
      rewrite E; try exact Hwf.
    unfold well_formed. cbn -[Z.modulo Py.len].
    split; [exact Hc|]. split; [|exact Ht].
    apply Z.mod_pos_bound. lia.
  - destruct (mark_rest_cases a today) as [E|[E|(_ & E)]];
      rewrite E; exact Hwf.
  - destruct (check_missed_days_shape a today script Hc)
      as [E|(s & last & _ & _ & _ & _ & [[_ E]|[_ E]])];
      rewrite E; try exact Hwf;
      unfold well_formed; cbn -[backfill_pos Py.len];
      (split; [exact Hc|]); (split; [|exact Ht]);
      apply backfill_pos_in_range; exact Hp.
  - destruct (edit_cycle_cases clicked text a) as [E|(c & Hne & E)];
      rewrite E; try exact Hwf.
    unfold well_formed. cbn -[Py.len].
    split; [exact Hne|]. split; [|exact Ht].
    pose proof (len_pos c Hne). lia.
  - destruct (edit_rest_target_cases clicked text a) as [E|(n & Hn & E)];
      rewrite E; try exact Hwf.
    unfold well_formed. cbn -[Py.len].
    split; [exact Hc|]. split; [exact Hp|exact Hn].
Qed.

Lemma exec1_synced `{PyLib} (c : command) (a : App) :
  cycle a <> [] -> synced a -> returned (exec1 c a) ->
  synced (final (exec1 c a)).
Proof.
  intros Hc Hs. pose proof Hs as (Hdb & Hcy & Hpos).
  destruct c as [today|today|today script|clicked text|clicked text]; cbn [exec1].
  - destruct (mark_done_cases a today) as [E|[E|(w & _ & _ & E)]];
      rewrite E; cbn; intros Hr; try contradiction; try exact Hs.
    split; [reflexivity|]. split; [exact Hcy|reflexivity].
  - destruct (mark_rest_cases a today) as [E|[E|(_ & E)]];
      rewrite E; cbn; intros Hr; try contradiction; try exact Hs.
    split; [reflexivity|]. split; [exact Hcy|exact Hpos].
  - destruct (check_missed_days_shape a today script Hc)
      as [E|(s & last & _ & _ & _ & _ & [[_ E]|[_ E]])];
      rewrite E; cbn; intros Hr; try contradiction; try exact Hs.
    split; [reflexivity|]. split; [exact Hcy|reflexivity].
  - destruct (edit_cycle_cases clicked text a) as [E|(c & Hne & E)];
      rewrite E; cbn; intros Hr; try exact Hs.
    split; [reflexivity|]. split; reflexivity.
  - destruct (edit_rest_target_cases clicked text a) as [E|(n & Hn & E)];
      rewrite E; cbn; intros Hr; try exact Hs.
    split; [reflexivity|]. split; [exact Hcy|exact Hpos].
Qed.

Lemma exec_cons `{PyLib} (c : command) (cs : list command) (a : App) :
  exec (c :: cs) a =
  match exec1 c a with
  | Ok _ a1 => exec cs a1
  | Exn a1 => Exn a1
  end.
Proof. reflexivity. Qed.

(** X4. The log is append-only. Whatever calls are made, with whatever
    input, and however they end, the log afterwards is the log before
    followed by new entries; every new entry is dated, has one of the
    statuses [done], [rest], [skip], and is labelled [rest] when its status
    is [rest]. No call removes or rewrites an entry. *)
Theorem X4_log_append_only `{PyLib} (cs : list command) (a : App) :
  exists new,
    db_logs (db (final (exec cs a))) = db_logs (db a) ++ new /\
    Forall written new.
Proof.
  revert a. induction cs as [|c cs IH]; intros a.
  - exists []. cbn. rewrite app_nil_r. split; [reflexivity|constructor].
  - destruct (exec1_logs c a) as (new1 & Hl1 & Hw1).
    rewrite exec_cons. destruct (exec1 c a) as [u a1|a1]; cbn [final] in Hl1.
    + destruct (IH a1) as (new2 & Hl2 & Hw2).
      exists (new1 ++ new2). rewrite Hl2, Hl1, app_assoc.
      split; [reflexivity|]. apply Forall_app. split; assumption.
    + exists new1. split; assumption.
Qed.

Lemma exec_well_formed `{PyLib} (cs : list command) (a : App) :
  well_formed a -> well_formed (final (exec cs a)).
Proof.
  revert a. induction cs as [|c cs IH]; intros a Hwf; [exact Hwf|].
  pose proof (exec1_well_formed c a Hwf) as H1.
  rewrite exec_cons. destruct (exec1 c a) as [u a1|a1]; cbn [final] in *.
  - apply IH. exact H1.
  - exact H1.
Qed.

(** X5. A tracker stays well formed. From a rotation that is not empty, a
    position that is an index into it and a rest target from 0 to 7, every
    sequence of calls, however it ends, leaves a rotation that is not empty,
    a position that is an index into it and a rest target from 0 to 7. *)
Theorem X5_well_formed_kept `{PyLib} (cs : list command) (a : App) :
  well_formed a -> well_formed (final (exec cs a)).
Proof. apply exec_well_formed. Qed.

Lemma fresh_app_well_formed : well_formed fresh_app.
Proof. unfold well_formed. vm_compute. repeat split; congruence. Qed.

Lemma fresh_app_synced : synced fresh_app.
Proof. repeat split. Qed.

Lemma X5_witness :
  well_formed (final (exec (H:=ascii_lib) busy_week fresh_app)) /\
  cycle (final (exec (H:=ascii_lib) busy_week fresh_app)) = ["upper"; "lower"] /\
  position (final (exec (H:=ascii_lib) busy_week fresh_app)) = 1.
Proof.
  split.
  - apply (X5_well_formed_kept (H:=ascii_lib) busy_week fresh_app).
    unfold well_formed. vm_compute. repeat split; congruence.
  - split; reflexivity.
Defined.

(** X6. What is saved is what the tracker holds. From a well-formed tracker
    in sync with its store, when a sequence of calls returns, the tracker is
    in sync again: the state document of the database is its state, with its
    rotation and its position; so that a restart on this database,
    [__init__], builds the very same tracker. *)
Theorem X6_restart `{PyLib} (cs : list command) (a : App) :
  well_formed a -> synced a -> returned (exec cs a) ->
  synced (final (exec cs a)) /\
  init (db (final (exec cs a))) = Some (final (exec cs a)).
Proof.
  intros Hwf Hs Hr.
  assert (Hsync : synced (final (exec cs a))).
  { revert a Hwf Hs Hr. induction cs as [|c cs IH]; intros a Hwf Hs Hr.
    - exact Hs.
    - pose proof (exec1_well_formed c a Hwf) as Hwf1.
      pose proof (exec1_synced c a (proj1 Hwf) Hs) as Hs1.
      rewrite exec_cons in *. destruct (exec1 c a) as [u a1|a1];
        cbn [final returned] in *; [|contradiction].
      apply IH; [exact Hwf1|apply Hs1; exact I|exact Hr]. }
  split; [exact Hsync|].
  pose proof (exec_well_formed cs a Hwf) as Hwf'.
  destruct (final (exec cs a)) as [d s c p].
  destruct Hsync as (Hdb & Hcy & Hpos). destruct Hwf' as (Hc & _).
  cbn in *. unfold init, get_state. rewrite Hdb. cbn.
  destruct (current_workout_some {| db := d; state := s; cycle := c; position := p |} Hc)
    as (w & Hw & _).
  rewrite Hcy, Hpos, Hw. reflexivity.
Qed.

Lemma X6_witness :
  init (db (final (exec (H:=ascii_lib) busy_week fresh_app)))
  = Some (final (exec (H:=ascii_lib) busy_week fresh_app)).
Proof.
  apply (X6_restart (H:=ascii_lib) busy_week fresh_app).
  - unfold well_formed. vm_compute. repeat split; congruence.
  - repeat split.
  - vm_compute. exact I.
Defined.

(** ** Reconciling again *)

Lemma isoformat_nonempty (d : Z) : Date.isoformat d <> EmptyString.
Proof.
  unfold Date.isoformat. destruct (Date._ord2ymd d) as [[y m] dd].
  unfold Date.fmt4. cbv [String.append]. discriminate.
Qed.

(** X7. Reconciling twice on one day does nothing more. When
    [_check_missed_days] returns, a second call on the same day, with any
    answers at hand, opens no dialog and changes nothing: the first call
    either had nothing to do, or left the last log date at yesterday. *)
Theorem X7_reconcile_again `{PyLib} (a : App) (today : Z)
    (script script' : list Z) :
  fromisoformat_law ->
  cycle a <> [] ->
  Date.MINORD < today <= Date.MAXORD ->
  returned (_check_missed_days today script a) ->
  _check_missed_days today script'
    (final (_check_missed_days today script a))
  = Ok tt (final (_check_missed_days today script a)).
Proof.
  intros Hlaw Hc Ht Hr.
  destruct (check_missed_days_shape a today script Hc)
    as [E|(s & last & _ & _ & _ & _ & [[_ E]|[_ E]])].
  - rewrite (E script). cbn [final]. apply E.
  - rewrite E. cbn [final].
    rewrite (check_missed_days_unfold _ today script'
               (Date.isoformat (today - 1)) (today - 1));
      [|reflexivity|apply isoformat_nonempty
       |apply Hlaw; unfold Date.MINORD, Date.MAXORD in *; lia].
    destruct (Z.leb_spec (today - (today - 1)) 1); [reflexivity|lia].
  - rewrite E in Hr. contradiction.
Qed.

Lemma X7_witness :
  _check_missed_days (H:=ascii_lib) 738890 [0; 0; 0; 0]
    (final (_check_missed_days (H:=ascii_lib) 738890 [1; -1; 0] app_mon))
  = Ok tt (final (_check_missed_days (H:=ascii_lib) 738890 [1; -1; 0] app_mon)).
Proof.
  apply (X7_reconcile_again (H:=ascii_lib) app_mon 738890 [1; -1; 0] [0; 0; 0; 0]).
  - exact ascii_fromisoformat_law.
  - discriminate.
  - vm_compute. split; congruence.
  - vm_compute. exact I.
Defined.

(** X8. A backfill that was cut short starts over after a restart. Take a
    tracker in sync with its store whose last log date is more than one day
    back, and let the dialogs stop after [m] answers. The [m] entries are
    in the log, but the saved state is the one from before, so that the
    restarted tracker has the old position and the old last log date: the
    cursor moves made for the Done answers are lost. Its check asks again
    for every missed day, from the first: with all the answers it appends
    [gap - 1] entries, so that each of the [m] days decided before has two
    entries, and the position advances from the old one for the Done
    answers of the second round only. *)
Theorem X8_restart_after_interruption `{PyLib} (a : App) (today : Z)
    (script1 script2 : list Z) (s : string) (last : Z) :
  cycle a <> [] -> synced a ->
  last_log_date (state a) = Some s -> s <> EmptyString ->
  fromisoformat s = Some last ->
  let gap := today - last in
  1 < gap ->
  (length script1 < Z.to_nat (gap - 1))%nat ->
  (Z.to_nat (gap - 1) <= length script2)%nat ->
  exists a1 b a2 new1 new2,
    _check_missed_days today script1 a = Exn a1 /\
    init (db a1) = Some b /\
    position b = position a /\ state b = state a /\
    _check_missed_days today script2 b = Ok tt a2 /\
    db_logs (db a2) = db_logs (db a) ++ new1 ++ new2 /\
    length new1 = length script1 /\
    length new2 = Z.to_nat (gap - 1) /\
    (forall k, (k < length script1)%nat ->
       exists e1 e2, new1 !! k = Some e1 /\ new2 !! k = Some e2 /\
         e_date e1 = Some (Date.isoformat (last + 1 + Z.of_nat k)) /\
         e_date e2 = Some (Date.isoformat (last + 1 + Z.of_nat k))) /\
    position a2 =
      advance_n (Py.len (cycle a))
        (count_done (take (Z.to_nat (gap - 1)) script2)) (position a).
Proof.
  intros Hc (Hdb & Hcy & Hpos) Hs Hne Hf gap Hg Hl1 Hl2.
  set (offsets := Py.range2 1 gap).
  assert (Hlo : length offsets = Z.to_nat (gap - 1))
    by (unfold offsets; apply range2_length).
  set (new1 := backfill_log (cycle a) last offsets script1 (position a)).
  set (p1 := backfill_pos (Py.len (cycle a)) offsets script1 (position a)).
  set (a1 := after_backfill a new1 p1).
  set (b := {| db := db a1; state := state a; cycle := cycle a;
               position := position a |}).
  set (new2 := backfill_log (cycle a) last offsets script2 (position a)).
  set (p2 := backfill_pos (Py.len (cycle a)) offsets script2 (position a)).
  exists a1, b, (after_reconcile b today new2 p2), new1, new2.
  assert (E1 : _check_missed_days today script1 a = Exn a1).
  { rewrite (check_missed_days_unfold a today script1 s last Hs Hne Hf).
    fold gap. destruct (Z.leb_spec gap 1); [lia|].
    rewrite missed_loop_spec by assumption. cbv zeta. fold offsets.
    case_decide; [lia|]. reflexivity. }
  assert (E2 : _check_missed_days today script2 b
               = Ok tt (after_reconcile b today new2 p2)).
  { rewrite (check_missed_days_unfold b today script2 s last Hs Hne Hf).
    fold gap. destruct (Z.leb_spec gap 1); [lia|].
    rewrite missed_loop_spec by exact Hc. cbv zeta. fold offsets.
    case_decide; [|lia].
    rewrite (bool_decide_eq_true_2 (offsets <> []))
      by (apply range2_nonempty; lia).
    reflexivity. }
  split; [exact E1|].
  split.
  { unfold init, get_state. cbn. rewrite Hdb. cbn.
    destruct (current_workout_some
                {| db := {| db_state := Some (state a);
                            db_logs := db_logs (db a) ++ new1 |};
                   state := state a; cycle := st_cycle (state a);
                   position := st_position (state a) |}) as (w & Hw & _).
    { cbn. rewrite Hcy. exact Hc. }
    rewrite Hw. cbn. unfold b, a1, after_backfill. cbn.
    rewrite Hdb, Hcy, Hpos. reflexivity. }
  split; [reflexivity|]. split; [reflexivity|].
  split; [exact E2|].
  split; [cbn; rewrite app_assoc; reflexivity|].
  split; [unfold new1; rewrite backfill_log_length; lia|].
  split; [unfold new2; rewrite backfill_log_length; lia|].
  split.
  - intros k Hk.
    destruct (lookup_lt_is_Some_2 script1 k Hk) as [r1 Hr1].
    destruct (lookup_lt_is_Some_2 script2 k ltac:(lia)) as [r2 Hr2].
    assert (Ho : offsets !! k = Some (1 + Z.of_nat k))
      by (apply range2_lookup; lia).
    eexists _, _. split; [apply backfill_log_lookup; eassumption|].
    split; [apply backfill_log_lookup; eassumption|].
    cbn. split; do 2 f_equal; lia.
  - cbn. unfold p2. rewrite backfill_pos_advance, Hlo. reflexivity.
Qed.

Lemma X8_witness :
  exists a1 b a2 new1 new2,
    _check_missed_days (H:=ascii_lib) 738890 [1] app_mon = Exn a1 /\
    init (db a1) = Some b /\
    position b = position app_mon /\ state b = state app_mon /\
    _check_missed_days (H:=ascii_lib) 738890 [1; 0; -1] b = Ok tt a2 /\
    db_logs (db a2) = db_logs (db app_mon) ++ new1 ++ new2 /\
    length new1 = 1%nat /\ length new2 = 3%nat.
Proof.
  destruct (X8_restart_after_interruption (H:=ascii_lib) app_mon 738890
              [1] [1; 0; -1] "2024-01-01" 738886)
    as (a1 & b & a2 & new1 & new2 & E1 & Ei & Hp & Hs & E2 & Hl & Hn1 & Hn2 & _).
  - discriminate.
  - repeat split.
  - reflexivity.
  - discriminate.
  - reflexivity.
  - reflexivity.
  - vm_compute. lia.
  - vm_compute. lia.
  - exists a1, b, a2, new1, new2. repeat split; assumption.
Defined.

(** ** The streak *)

Lemma streak_loop_bounds `{PyLib} (entries : list Entry) (expected acc : Z) :
  acc <= streak_loop entries expected acc
      <= acc + Z.of_nat (done_entries entries).
Proof.
  revert expected acc. induction entries as [|e entries IH]; intros expected acc.
  - cbn. lia.
  - cbn [streak_loop]. rewrite done_entries_cons.
    destruct (fromisoformat (entry_date e)) as [d|]; [|case_bool_decide; lia].
    case_bool_decide; [case_bool_decide; lia|].
    case_bool_decide.
    + specialize (IH (expected - 1) (acc + 1)). lia.
    + specialize (IH (expected - 1) acc). lia.
Qed.

Lemma done_entries_le_length (es : list Entry) :
  (done_entries es <= length es)%nat.
Proof. unfold done_entries. apply length_filter. Qed.

Lemma get_history_length (d : Db) (limit : Z) :
  (length (get_history d limit) <= Z.to_nat limit)%nat /\
  (length (get_history d limit) <= length (db_logs d))%nat.
Proof.
  unfold get_history. rewrite length_take, length_reverse. lia.
Qed.

(** X9. The streak is a count of [done] entries among the 60 most recent
    ones: it is at least 0, at most the number of [done] entries retrieved,
    and at most 60. It is 0 as long as the most recent entry is not dated
    today, whatever the days before: with an empty log, and on a day that
    is not logged yet. *)
Theorem X9_streak_bounds `{PyLib} (a : App) (today : Z) :
  0 <= _get_streak a today
    <= Z.of_nat (done_entries (get_history (db a) 60)) /\
  _get_streak a today <= 60 /\
  _get_streak a today <= Z.of_nat (length (db_logs (db a))) /\
  (match get_history (db a) 60 with
   | [] => True
   | e :: _ => fromisoformat (entry_date e) <> Some today
   end -> _get_streak a today = 0).
Proof.
  rewrite get_streak_loop.
  pose proof (streak_loop_bounds (get_history (db a) 60) today 0) as Hb.
  pose proof (done_entries_le_length (get_history (db a) 60)) as Hd.
  destruct (get_history_length (db a) 60) as [H60 Hlogs].
  split; [lia|]. split; [lia|]. split; [lia|].
  destruct (get_history (db a) 60) as [|e es]; [reflexivity|].
  intros Hne. apply streak_loop_stop. exact Hne.
Qed.

Lemma X9_witness :
  _get_streak (H:=ascii_lib) app_mon_tue 738887 = 2 /\
  _get_streak (H:=ascii_lib) app_mon_tue 738888 = 0.
Proof.
  split; [reflexivity|].
  apply (proj2 (proj2 (proj2 (X9_streak_bounds (H:=ascii_lib) app_mon_tue 738888)))).
  vm_compute. congruence.
Defined.

(** ** The dictionary of logged days *)

Lemma logged_map_foldl (entries : list Entry) (m : gmap string Entry)
    (k : string) :
  foldl (fun logged entry =>
           let date_str := entry_date entry in
           match logged !! date_str with
           | None => <[date_str := entry]> logged
           | Some _ => logged
           end) m entries !! k
  = match m !! k with
    | Some e => Some e
    | None => head (filter (fun e => entry_date e = k) entries)
    end.
Proof.
  revert m. induction entries as [|e entries IH]; intros m.
  - cbn. destruct (m !! k); reflexivity.
  - cbn [foldl]. rewrite IH. rewrite filter_cons.
    destruct (m !! entry_date e) as [e0|] eqn:Hm.
    + destruct (m !! k) as [e1|] eqn:Hk; [reflexivity|].
      case_decide as Hd; [|reflexivity]. congruence.
    + destruct (decide (entry_date e = k)) as [Hd|Hd].
      * subst k. rewrite lookup_insert_eq, Hm. reflexivity.
      * rewrite lookup_insert_ne by exact Hd.
        destruct (m !! k); reflexivity.
Qed.

(** X10. The week view keeps one entry for each date string: the first one
    in the order of retrieval, which is the most recently written. The
    dictionary has a date exactly when some retrieved entry carries it, and
    an entry without a date is filed under the empty string. *)
Theorem X10_logged_first_wins (entries : list Entry) (k : string) :
  logged_map entries !! k = head (filter (fun e => entry_date e = k) entries) /\
  (is_Some (logged_map entries !! k) <->
   exists e, e ∈ entries /\ entry_date e = k) /\
  (forall e older newer,
     entries = newer ++ e :: older ->
     entry_date e = k ->
     (forall e', e' ∈ newer -> entry_date e' <> k) ->
     logged_map entries !! k = Some e).
Proof.
  assert (E : logged_map entries !! k
              = head (filter (fun e => entry_date e = k) entries)).
  { unfold logged_map. rewrite logged_map_foldl, lookup_empty. reflexivity. }
  split; [exact E|]. split.
  - rewrite E. split.
    + intros [e He]. apply head_Some_elem_of in He.
      apply list_elem_of_filter in He as [Hk Hin]. eauto.
    + intros (e & Hin & Hk).
      destruct (filter (fun e => entry_date e = k) entries) as [|e0 l] eqn:Hf.
      * assert (He : e ∈ filter (fun e => entry_date e = k) entries)
          by (apply list_elem_of_filter; auto).
        rewrite Hf in He. inversion He.
      * cbn. eauto.
  - intros e older newer -> Hk Hnew. rewrite E, filter_app.
    assert (Hn : filter (fun e => entry_date e = k) newer = []).
    { clear E. induction newer as [|e' newer IH]; [reflexivity|].
      rewrite filter_cons. case_decide as Hd.
      - exfalso. apply (Hnew e'); [left|exact Hd].
      - apply IH. intros e'' Hin. apply Hnew. right. exact Hin. }
    rewrite Hn, filter_cons. case_decide; [reflexivity|contradiction].
Qed.

(** ** The week predictor *)

Lemma round_half_even_mul (n d : Z) :
  0 < d -> Py.round_half_even (n * d) d = n.
Proof.
  intros Hd. unfold Py.round_half_even.
  rewrite Z.div_mul, Z.mod_mul by lia.
  change (2 * 0) with 0. destruct (Z.compare_spec 0 d); lia.
Qed.

(** The last rest day falls on the last unlogged slot. *)
Lemma rest_slot_last (unlogged : list Z) (r : Z) (u : Z) :
  0 < r -> last unlogged = Some u -> rest_slot unlogged r r = Some u.
Proof.
  intros Hr Hlast. unfold rest_slot, rest_index.
  rewrite round_half_even_mul by exact Hr.
  assert (Hne : unlogged <> []) by (intros ->; discriminate).
  pose proof (len_pos unlogged Hne) as Hl.
  rewrite Z.min_id, getitem_nonneg by lia.
  rewrite last_lookup in Hlast. rewrite <- Hlast. f_equal.
  unfold Py.len in *. lia.
Qed.

Lemma gset_size_le_list (rs : gset Z) (l : list Z) :
  (forall u, u ∈ rs -> u ∈ l) -> (size rs <= length l)%nat.
Proof.
  intros Hsub. unfold size, set_size. cbn.
  apply submseteq_length, NoDup_submseteq; [apply NoDup_elements|].
  intros u Hu. apply Hsub. apply elem_of_elements. exact Hu.
Qed.

(** What [predict_rest] returns, for at most seven slots and at most seven
    rest days left. *)
Lemma predict_rest_total (unlogged : list Z) (r : Z) :
  Py.len unlogged <= 7 -> r <= 7 ->
  exists rs : gset Z,
    predict_rest unlogged r = Some rs /\
    (forall u, u ∈ rs -> u ∈ unlogged) /\
    (size rs <= length unlogged)%nat /\
    Z.of_nat (size rs) <= Z.max 0 r /\
    (0 < r -> forall u, last unlogged = Some u -> u ∈ rs) /\
    (r <= 0 \/ unlogged = [] -> rs = ∅).
Proof.
  intros Hl Hr.
  destruct (decide (0 < r /\ unlogged <> [])) as [[Hpos Hne]|Hno].
  - destruct (predict_rest_spec unlogged r Hne Hl ltac:(lia)) as (rs & E & Hchar).
    exists rs. split; [exact E|].
    assert (Hsub : forall u, u ∈ rs -> u ∈ unlogged).
    { intros u Hu. apply Hchar in Hu as (k & Hk & Hslot).
      destruct (rest_slot_some unlogged r k Hne Hpos ltac:(lia)) as (u' & Hu' & Hin).
      congruence. }
    split; [exact Hsub|]. split; [apply gset_size_le_list; exact Hsub|].
    split.
    { pose proof (gset_size_le_list rs
        ((fun k => default 0 (rest_slot unlogged r k)) <$> seqZ 1 r)) as Hsz.
      rewrite length_fmap, length_seqZ in Hsz.
      assert (size rs <= Z.to_nat r)%nat; [|lia].
      apply Hsz. intros u Hu. apply Hchar in Hu as (k & Hk & Hslot).
      apply list_elem_of_fmap. exists k. rewrite Hslot. split; [reflexivity|].
      apply elem_of_seqZ. lia. }
    split.
    { intros _ u Hlast. apply Hchar. exists r. split; [lia|].
      apply rest_slot_last; assumption. }
    intros [Hle|He]; [lia|contradiction].
  - exists ∅. split.
    { unfold predict_rest.
      destruct (Z.ltb_spec 0 r); [|reflexivity].
      destruct (Z.ltb_spec 0 (Py.len unlogged)); [|reflexivity].
      exfalso. apply Hno. split; [assumption|].
      intros ->. unfold Py.len in *. cbn [length] in *. lia. }
    split; [intros u Hu; exfalso; revert Hu; apply not_elem_of_empty|].
    rewrite size_empty. split; [lia|]. split; [lia|].
    split; [|reflexivity].
    intros Hpos u Hlast. exfalso. apply Hno. split; [exact Hpos|].
    intros ->. discriminate.
Qed.

Lemma rest_remaining_bounds `{PyLib} (a : App) (today : Z) :
  0 <= default 2 (rest_days_per_week (state a)) <= 7 ->
  0 <= rest_remaining a today <= 7.
Proof.
  intros Ht. pose proof (rest_days_this_week_nonneg a today).
  unfold rest_remaining. lia.
Qed.

(** X11. With a rotation that is not empty and a rest target from 0 to 7,
    [_get_week_schedule] returns, and returns seven lines: neither the
    rounding nor the indexing of the rest days nor the rotation lookups
    raise. With an empty rotation and today logged it raises. *)
Theorem X11_week_schedule_seven_lines `{PyLib} (a : App) (today : Z) :
  (cycle a <> [] ->
   0 <= default 2 (rest_days_per_week (state a)) <= 7 ->
   exists lines, _get_week_schedule a today = Some lines /\
                 length lines = 7%nat) /\
  (cycle a = [] -> _logged_today a today = true ->
   _get_week_schedule a today = None).
Proof.
  split.
  - intros Hc Ht.
    destruct (predict_rest_total (week_unlogged a today) (rest_remaining a today)
                (week_unlogged_len a today)
                (proj2 (rest_remaining_bounds a today Ht)))
      as (rs & Hrs & _).
    destruct (week_start_pos_some a today Hc) as [start Hstart].
    destruct (get_week_schedule_spec a today rs start Hc Hrs Hstart)
      as (lines & Hl & Hlen & _).
    exists lines. split; assumption.
  - intros Hc Hl. unfold _get_week_schedule.
    destruct (week_rest_indices a today); [|reflexivity]. cbn.
    unfold week_start_pos. rewrite Hl, Hc. reflexivity.
Qed.

Lemma X11_witness :
  (exists lines,
     _get_week_schedule (H:=ascii_lib) app_mon_rest_wed 738889 = Some lines /\
     length lines = 7%nat) /\
  _get_week_schedule (H:=ascii_lib) (with_cycle [] app_mon) 738886 = None.
Proof.
  split.
  - apply (X11_week_schedule_seven_lines (H:=ascii_lib) app_mon_rest_wed 738889).
    + discriminate.
    + vm_compute. split; congruence.
  - apply (X11_week_schedule_seven_lines (H:=ascii_lib) (with_cycle [] app_mon)
             738886); reflexivity.
Defined.

(** X12. The predicted rest days, for a rest target from 0 to 7. They are
    unlogged days of the week, today or later; there are no more of them
    than rest days left and no more than unlogged days; when a rest day is
    left, the last unlogged day of the week is one of them; and there is
    none when no rest day is left or no day is unlogged. *)
Theorem X12_predicted_rest_days `{PyLib} (a : App) (today : Z) :
  0 <= default 2 (rest_days_per_week (state a)) <= 7 ->
  exists rs : gset Z,
    week_rest_indices a today = Some rs /\
    (forall u, u ∈ rs ->
       0 <= u < 7 /\ today <= monday_of today + u /\
       week_logged a !! Date.isoformat (monday_of today + u) = None) /\
    Z.of_nat (size rs) <= rest_remaining a today /\
    (size rs <= length (week_unlogged a today))%nat /\
    (0 < rest_remaining a today ->
     forall u, last (week_unlogged a today) = Some u -> u ∈ rs) /\
    (rest_remaining a today = 0 \/ week_unlogged a today = [] -> rs = ∅).
Proof.
  intros Ht. pose proof (rest_remaining_bounds a today Ht) as Hr.
  destruct (predict_rest_total (week_unlogged a today) (rest_remaining a today)
              (week_unlogged_len a today) (proj2 Hr))
    as (rs & Hrs & Hsub & Hsz & Hszr & Hlast & Hempty).
  exists rs. split; [exact Hrs|].
  split.
  { intros u Hu. apply Hsub, elem_of_week_unlogged in Hu. tauto. }
  split; [lia|]. split; [exact Hsz|]. split; [exact Hlast|].
  intros [E|E]; apply Hempty; [left; lia|right; exact E].
Qed.

Lemma X12_witness :
  exists rs : gset Z,
    week_rest_indices (H:=ascii_lib) app_mon_tue 738888 = Some rs /\
    Z.of_nat (size rs) <= 2 /\ 6 ∈ rs.
Proof.
  destruct (X12_predicted_rest_days (H:=ascii_lib) app_mon_tue 738888)
    as (rs & E & _ & Hsz & _ & Hlast & _).
  - vm_compute. split; congruence.
  - exists rs. split; [exact E|]. split; [exact Hsz|].
    apply Hlast; [vm_compute|]; reflexivity.
Defined.

Lemma filter_length_ext {A} (f g : A -> bool) (l : list A) :
  (forall x, x ∈ l -> f x = g x) ->
  length (filter (fun x => f x = true) l) = length (filter (fun x => g x = true) l).
Proof.
  intros Hfg. induction l as [|x l IH]; [reflexivity|].
  assert (IH' := IH (fun y Hy => Hfg y (list_elem_of_further _ _ _ Hy))).
  rewrite !filter_cons. rewrite (Hfg x) by left.
  destruct (decide (g x = true)); cbn [length]; rewrite IH'; reflexivity.
Qed.

Lemma weekday_bounds (today : Z) :
  0 <= Date.weekday today < 7 /\
  monday_of today + Date.weekday today = today.
Proof.
  unfold monday_of, Date.weekday.
  pose proof (Z.mod_pos_bound (today + 6) 7 ltac:(lia)). lia.
Qed.

(** X13. The label the week view shows for today. On a day that is not
    logged and not a predicted rest day, today's line shows the label of the
    rotation [d] steps after the position, where [d] is the number of days
    earlier in the week that are logged as [done]: the loop starts from the
    position, which already counts those days, and steps once more for each
    of them. The line shows the current workout when [d] is a multiple of
    the length of the rotation, so on Monday, and not in general. *)
Theorem X13_today_label `{PyLib} (a : App) (today : Z) (rs : gset Z) :
  cycle a <> [] ->
  0 <= position a < Py.len (cycle a) ->
  _logged_today a today = false ->
  week_logged a !! Date.isoformat today = None ->
  week_rest_indices a today = Some rs ->
  Date.weekday today ∉ rs ->
  let d := Z.of_nat (done_days_before (week_logged a) today) in
  exists lines w,
    _get_week_schedule a today = Some lines /\
    cycle a !! Z.to_nat ((position a + d) mod Py.len (cycle a)) = Some w /\
    lines !! Z.to_nat (Date.weekday today) =
      Some (line_workout (strftime_a today) (str_title w) +:+ "  ←") /\
    (d mod Py.len (cycle a) = 0 -> current_workout a = Some w).
Proof.
  intros Hc Hp Hl Hlog Hrs Hnot d.
  destruct (weekday_bounds today) as [Hwd Hmon].
  assert (Hstart : week_start_pos a today = Some (position a))
    by (unfold week_start_pos; rewrite Hl; reflexivity).
  destruct (get_week_schedule_spec a today rs (position a) Hc Hrs Hstart)
    as (lines & Hlines & _ & Hlk).
  specialize (Hlk (Date.weekday today) Hwd).
  assert (Hcur : cursor_at a (week_logged a) rs (monday_of today) today
                   (position a) (Date.weekday today)
                 = (position a + d) mod Py.len (cycle a)).
  { unfold cursor_at. rewrite advance_n_in_range by exact Hp.
    f_equal. f_equal. unfold d, done_days_before. f_equal.
    apply filter_length_ext. intros j Hj. apply elem_of_seqZ in Hj.
    unfold advancing, done_day.
    destruct (week_logged a !! Date.isoformat (monday_of today + j));
      [reflexivity|].
    destruct (Z.ltb_spec (monday_of today + j) today); [reflexivity|lia]. }
  destruct (schedule_day_workout a (week_logged a) rs (monday_of today) today
              (Date.weekday today)
              (cursor_at a (week_logged a) rs (monday_of today) today
                 (position a) (Date.weekday today)) Hc)
    as (w & Hw & Hday).
  { rewrite Hmon. exact Hlog. }
  { lia. }
  { exact Hnot. }
  exists lines, w. split; [exact Hlines|].
  rewrite Hcur in Hw.
  assert (Hmod : (position a + d) mod Py.len (cycle a)
                 mod Py.len (cycle a) = (position a + d) mod Py.len (cycle a))
    by (apply Z.mod_mod; lia).
  rewrite Hmod in Hw. split; [exact Hw|].
  split.
  { rewrite Hlk, Hday, Hmon. unfold mark_today. rewrite Z.eqb_refl. reflexivity. }
  intros Hd. destruct (current_workout_some a Hc) as (w' & Hw' & Hlk').
  rewrite Hw'. f_equal.
  assert (E : (position a + d) mod Py.len (cycle a)
              = position a mod Py.len (cycle a)).
  { rewrite <- Zplus_mod_idemp_r, Hd, Z.add_0_r. reflexivity. }
  rewrite E in Hw. congruence.
Qed.

Lemma X13_witness :
  exists lines,
    _get_week_schedule (H:=ascii_lib) app_mon_tue 738888 = Some lines /\
    lines !! 2%nat = Some "  Wed  ·  Pull  ←" /\
    current_workout app_mon_tue = Some "legs".
Proof.
  destruct (X13_today_label (H:=ascii_lib) app_mon_tue 738888 {[3; 6]})
    as (lines & w & E & Hw & Hline & _).
  - discriminate.
  - vm_compute. split; congruence.
  - reflexivity.
  - reflexivity.
  - vm_compute. reflexivity.
  - intros Hin. apply elem_of_union in Hin as [Hin|Hin];
      apply elem_of_singleton in Hin; vm_compute in Hin; discriminate.
  - exists lines. split; [exact E|].
    assert (w = "pull") as -> by (vm_compute in Hw; congruence).
    split; [exact Hline|reflexivity].
Defined.

(** ** The store *)

(** X14. Reading the log back. [get_history] returns at most [limit]
    entries, all of them from the log, the most recently written first; and
    after [log_entry] the entry just written comes first, followed by what
    was retrieved before with one entry less. *)
Theorem X14_history_after_log_entry (d : Db) (workout_type status : string)
    (date limit : Z) :
  (length (get_history d limit) <= Z.to_nat limit)%nat /\
  (forall e, e ∈ get_history d limit -> e ∈ db_logs d) /\
  (forall older e, db_logs d = older ++ [e] -> 0 < limit ->
     head (get_history d limit) = Some e) /\
  (0 < limit ->
   get_history (log_entry d workout_type status date) limit
   = entry_for date workout_type status :: get_history d (limit - 1)) /\
  db_state (log_entry d workout_type status date) = db_state d.
Proof.
  split; [apply get_history_length|].
  split.
  { intros e He. unfold get_history in He. apply elem_of_take in He as (i & He & _).
    apply list_elem_of_lookup_2 in He. apply elem_of_reverse. exact He. }
  split.
  { intros older e Hlogs Hl. unfold get_history. rewrite Hlogs, reverse_app.
    destruct (Z.to_nat limit) as [|n] eqn:Hn; [lia|]. reflexivity. }
  split; [|reflexivity].
  intros Hl. unfold get_history, log_entry. cbn [db_logs].
  rewrite reverse_app. change (reverse [?x]) with [x].
  replace (Z.to_nat limit) with (S (Z.to_nat (limit - 1))) by lia.
  reflexivity.
Qed.

(** ** Start-up *)

(** X15. Start-up. [__init__] raises exactly when the stored rotation is
    empty. Otherwise the tracker it builds is in sync with the database; the
    log is untouched; on a first run, with no state document, the default
    state is written, and with a state document nothing is written at all;
    and a second start on the resulting database builds the same tracker. *)
Theorem X15_init (d : Db) :
  (init d = None <-> exists s, db_state d = Some s /\ st_cycle s = []) /\
  (forall a, init d = Some a ->
     synced a /\ cycle a <> [] /\
     db_logs (db a) = db_logs d /\
     (db_state d = None -> state a = first_state) /\
     (forall s, db_state d = Some s -> db a = d /\ state a = s) /\
     init (db a) = Some a).
Proof.
  unfold init, get_state.
  destruct (db_state d) as [s|] eqn:Hs.
  - destruct (decide (st_cycle s = [])) as [Hc|Hc].
    + assert (Hnone : current_workout
                {| db := d; state := s; cycle := st_cycle s;
                   position := st_position s |} = None).
      { unfold current_workout. cbn [cycle position]. rewrite Hc. reflexivity. }
      rewrite Hnone. cbn. split.
      * split; [intros _; exists s; auto | reflexivity].
      * intros a Ha. discriminate.
    + destruct (current_workout_some
                  {| db := d; state := s; cycle := st_cycle s;
                     position := st_position s |} Hc) as (w & Hw & _).
      rewrite Hw. cbn. split.
      * split; [discriminate|]. intros (s' & Hs' & Hc'). congruence.
      * intros a Ha. injection Ha as <-. cbn [db state cycle position].
        unfold synced. cbn [db state cycle position].
        rewrite Hs, Hw. cbn.
        repeat split; try assumption; try congruence; try discriminate.
        all: intros s' Hs'; destruct d; cbn in *; congruence.
  - cbn. split.
    + split; [discriminate|]. intros (s' & Hs' & _). discriminate.
    + intros a Ha. injection Ha as <-. unfold synced. cbn.
      repeat split; try discriminate.
Qed.

(** ** Saving the rotation dialog as it opens *)

Lemma split_nonempty (sep : ascii) (s : string) : Py.split sep s <> [].
Proof.
  induction s as [|c s IH]; cbn [Py.split]; [discriminate|].
  destruct (Ascii.eqb c sep); [discriminate|].
  destruct (Py.split sep s); discriminate.
Qed.

Lemma split_cons_other (sep c : ascii) (s : string) :
  Ascii.eqb c sep = false ->
  Py.split sep (String c s) =
    String c (hd EmptyString (Py.split sep s)) :: tl (Py.split sep s).
Proof.
  intros Hc. cbn [Py.split]. rewrite Hc.
  pose proof (split_nonempty sep s) as Hne.
  destruct (Py.split sep s); [contradiction|reflexivity].
Qed.

Lemma split_cons_sep (sep : ascii) (s : string) :
  Py.split sep (String sep s) = EmptyString :: Py.split sep s.
Proof. cbn [Py.split]. rewrite Ascii.eqb_refl. reflexivity. Qed.

Lemma split_app_comma_free (w s : string) :
  comma_free w = true ->
  Py.split "," (w +:+ s) =
    (w +:+ hd EmptyString (Py.split "," s)) :: tl (Py.split "," s).
Proof.
  induction w as [|c w IH]; intros Hw.
  - cbv [String.append]. pose proof (split_nonempty "," s) as Hne.
    destruct (Py.split "," s); [contradiction|reflexivity].
  - cbn [comma_free] in Hw. apply andb_true_iff in Hw as [Hc Hw].
    apply negb_true_iff in Hc.
    change (String c w +:+ s) with (String c (w +:+ s)).
    rewrite split_cons_other by exact Hc.
    rewrite (IH Hw). reflexivity.
Qed.

Lemma append_empty_r (w : string) : w +:+ EmptyString = w.
Proof.
  induction w as [|c w IH]; [reflexivity|].
  change (String c w +:+ EmptyString) with (String c (w +:+ EmptyString)).
  rewrite IH. reflexivity.
Qed.

Lemma split_comma_free (w : string) :
  comma_free w = true -> Py.split "," w = [w].
Proof.
  intros Hw. rewrite <- (append_empty_r w) at 1.
  rewrite split_app_comma_free by exact Hw.
  cbn [Py.split hd tl]. rewrite append_empty_r. reflexivity.
Qed.

(** Splitting what [join] made: the labels, each but the first after a
    blank. *)
Lemma split_join (w : string) (ws : list string) :
  Forall (fun w => comma_free w = true) (w :: ws) ->
  Py.split "," (join ", " (w :: ws)) = w :: (String " " <$> ws).
Proof.
  revert w. induction ws as [|w2 ws IH]; intros w Hall.
  - cbn [join fmap list_fmap]. apply split_comma_free.
    inversion Hall; assumption.
  - inversion Hall as [|? ? Hw Hrest]; subst.
    change (join ", " (w :: w2 :: ws))
      with (w +:+ ", " +:+ join ", " (w2 :: ws)).
    rewrite split_app_comma_free by exact Hw.
    change (", " +:+ join ", " (w2 :: ws))
      with (String "," (String " " (join ", " (w2 :: ws)))).
    rewrite split_cons_sep. cbn [hd tl]. rewrite append_empty_r.
    rewrite split_cons_other by reflexivity.
    rewrite (IH w2 Hrest). reflexivity.
Qed.

Lemma normalize_current_cycle `{PyLib} (a : App) :
  Forall clean_label (cycle a) ->
  cycle a <> [] ->
  normalize_cycle (current_cycle a) = cycle a.
Proof.
  intros Hall Hne. unfold normalize_cycle, current_cycle.
  destruct (cycle a) as [|w ws]; [contradiction|]. clear Hne.
  rewrite split_join
    by (eapply Forall_impl; [exact Hall|]; intros x Hx; apply Hx).
  inversion Hall as [|? ? (_ & Hw0 & Hws & _ & Hwl) Hrest]; subst.
  rewrite filter_cons. destruct (decide (str_strip w <> EmptyString)) as [_|Hn];
    [|exfalso; apply Hn; rewrite Hws; exact Hw0].
  rewrite fmap_cons, Hws, Hwl. f_equal.
  clear Hall Hw0 Hws Hwl.
  induction ws as [|x xs IH]; [reflexivity|].
  inversion Hrest as [|? ? (_ & Hx0 & _ & Hxs & Hxl) Hrest']; subst.
  rewrite fmap_cons, filter_cons.
  destruct (decide (str_strip (String " " x) <> EmptyString)) as [_|Hn];
    [|exfalso; apply Hn; rewrite Hxs; exact Hx0].
  rewrite fmap_cons, Hxs, Hxl, (IH Hrest'). reflexivity.
Qed.

(** X16. Saving the rotation dialog as it opens. The dialog of [edit_cycle]
    opens with the labels joined by a comma and a blank. When every label
    of a rotation that is not empty is one that the normalisation keeps (no
    comma, not empty, no blank around it, lower case), Save on this text
    reads the rotation back as it is; the call still sets the position back
    to 0, in the tracker and in the saved state, and leaves the log as it
    is. *)
Theorem X16_resave_cycle `{PyLib} (a : App) :
  cycle a <> [] ->
  Forall clean_label (cycle a) ->
  normalize_cycle (current_cycle a) = cycle a /\
  exists a',
    edit_cycle true (current_cycle a) a = Ok tt a' /\
    cycle a' = cycle a /\ position a' = 0 /\
    st_cycle (state a') = cycle a /\ st_position (state a') = 0 /\
    last_log_date (state a') = last_log_date (state a) /\
    db_state (db a') = Some (state a') /\
    db_logs (db a') = db_logs (db a).
Proof.
  intros Hne Hall.
  pose proof (normalize_current_cycle a Hall Hne) as Hn.
  split; [exact Hn|].
  unfold edit_cycle. rewrite Hn.
  destruct (cycle a) as [|w ws] eqn:Hc; [contradiction|].
  eexists. split; [reflexivity|].
  cbn. repeat split.
Qed.

Lemma X16_witness :
  normalize_cycle (H:=ascii_lib) (current_cycle app_mon_tue)
    = ["push"; "pull"; "legs"] /\
  position app_mon_tue = 2 /\
  exists a',
    edit_cycle (H:=ascii_lib) true "push, pull, legs" app_mon_tue = Ok tt a' /\
    cycle a' = ["push"; "pull"; "legs"] /\ position a' = 0.
Proof.
  assert (Hne : cycle app_mon_tue <> []) by (vm_compute; discriminate).
  assert (Hall : Forall (clean_label (H:=ascii_lib)) (cycle app_mon_tue)).
  { vm_compute cycle. repeat constructor; vm_compute; discriminate. }
  destruct (X16_resave_cycle (H:=ascii_lib) app_mon_tue Hne Hall)
    as (Hn & a' & He & Hc & Hp & _).
  split; [exact Hn|]. split; [reflexivity|].
  exists a'. split; [exact He|]. split; [exact Hc|exact Hp].
Defined.

(** ** The counters after a click *)

Lemma streak_loop_acc `{PyLib} (entries : list Entry) (expected acc : Z) :
  streak_loop entries expected acc = acc + streak_loop entries expected 0.
Proof.
  revert expected acc. induction entries as [|e es IH]; intros expected acc;
    cbn [streak_loop]; [lia|].
  destruct (fromisoformat (entry_date e)) as [d|]; [|lia].
  case_bool_decide; [lia|].
  case_bool_decide.
  - rewrite (IH _ (acc + 1)), (IH _ (0 + 1)). lia.
  - rewrite (IH _ acc). reflexivity.
Qed.

(** The history after one more entry, when the log is shorter than the
    limit: the new entry, then the whole log from the most recent. *)
Lemma get_history_log_entry_short (d : Db) (w st : string) (date limit : Z) :
  (length (db_logs d) < Z.to_nat limit)%nat ->
  get_history (log_entry d w st date) limit
    = entry_for date w st :: get_history d limit /\
  get_history d limit = reverse (db_logs d).
Proof.
  intros Hlen. unfold get_history, log_entry. cbn [db_logs].
  rewrite reverse_app.
  destruct (Z.to_nat limit) as [|n] eqn:Hn; [lia|].
  change (reverse [?x]) with [x]. cbn [app take].
  rewrite !take_ge by (rewrite length_reverse; lia).
  split; reflexivity.
Qed.

(** X17. The streak after a click. On a day that is not logged, with fewer
    than 60 entries in the log, Done makes the streak one more than the
    streak that ended yesterday, and Rest Instead makes it that streak: a
    rest day neither adds to the streak nor breaks it. *)
Theorem X17_streak_after_click `{PyLib} (a : App) (today : Z) :
  fromisoformat_law ->
  Date.MINORD <= today <= Date.MAXORD ->
  cycle a <> [] ->
  _logged_today a today = false ->
  (length (db_logs (db a)) < 60)%nat ->
  _get_streak (final (mark_done today a)) today
    = _get_streak a (today - 1) + 1 /\
  _get_streak (final (mark_rest today a)) today
    = _get_streak a (today - 1).
Proof.
  intros Hlaw Hrange Hne Hl Hlen.
  destruct (current_workout_some a Hne) as (w & Hw & _).
  rewrite (mark_done_fresh a today w Hl Hne Hw), (mark_rest_fresh a today Hl Hne).
  cbn [final]. rewrite !get_streak_loop. cbn [db save_state].
  unfold get_history at 1 3. cbn [db_logs save_state].
  fold (get_history (log_entry (db a) w "done" today) 60).
  fold (get_history (log_entry (db a) "rest" "rest" today) 60).
  destruct (get_history_log_entry_short (db a) w "done" today 60) as [E1 _];
    [exact Hlen|].
  destruct (get_history_log_entry_short (db a) "rest" "rest" today 60)
    as [E2 _]; [exact Hlen|].
  rewrite E1, E2. cbn [streak_loop].
  rewrite !entry_for_date by assumption.
  rewrite bool_decide_eq_false_2 by (intros Hn; apply Hn; reflexivity).
  cbn [entry_for e_status].
  rewrite bool_decide_eq_true_2 by reflexivity.
  rewrite bool_decide_eq_false_2 by discriminate.
  rewrite (streak_loop_acc _ _ (0 + 1)). split; [lia|reflexivity].
Qed.

Lemma X17_witness :
  _get_streak (H:=ascii_lib) app_mon_tue 738887 = 2 /\
  _get_streak (H:=ascii_lib) (final (mark_done 738888 app_mon_tue)) 738888
    = 3 /\
  _get_streak (H:=ascii_lib) (final (mark_rest 738888 app_mon_tue)) 738888
    = 2.
Proof.
  assert (Hrange : Date.MINORD <= 738888 <= Date.MAXORD) by (vm_compute; split; discriminate).
  assert (Hne : cycle app_mon_tue <> []) by (vm_compute; discriminate).
  assert (Hl : _logged_today app_mon_tue 738888 = false) by (vm_compute; reflexivity).
  assert (Hlen : (length (db_logs (db app_mon_tue)) < 60)%nat)
    by (vm_compute; lia).
  destruct (X17_streak_after_click (H:=ascii_lib) app_mon_tue 738888
              ascii_fromisoformat_law Hrange Hne Hl Hlen) as [Hd Hr].
  split; [vm_compute; reflexivity|].
  split; [rewrite Hd | rewrite Hr]; vm_compute; reflexivity.
Defined.

(** X18. The rest counter after a click. On a day that is not logged, with
    fewer than 30 entries in the log, Rest Instead adds one to the rest days
    of the week and takes one from the rest days left, down to 0; Done
    changes neither. *)
Theorem X18_rest_count_after_click `{PyLib} (a : App) (today : Z) :
  fromisoformat_law ->
  Date.MINORD <= today <= Date.MAXORD ->
  cycle a <> [] ->
  _logged_today a today = false ->
  (length (db_logs (db a)) < 30)%nat ->
  _rest_days_this_week (final (mark_rest today a)) today
    = _rest_days_this_week a today + 1 /\
  rest_remaining (final (mark_rest today a)) today
    = Z.max 0 (rest_remaining a today - 1) /\
  _rest_days_this_week (final (mark_done today a)) today
    = _rest_days_this_week a today /\
  rest_remaining (final (mark_done today a)) today = rest_remaining a today.
Proof.
  intros Hlaw Hrange Hne Hl Hlen.
  destruct (current_workout_some a Hne) as (w & Hw & _).
  assert (Hrest : _rest_days_this_week (final (mark_rest today a)) today
                  = _rest_days_this_week a today + 1).
  { rewrite (mark_rest_fresh a today Hl Hne). cbn [final].
    unfold _rest_days_this_week. cbn [db].
    unfold get_history at 1. cbn [db_logs save_state].
    fold (get_history (log_entry (db a) "rest" "rest" today) 30).
    destruct (get_history_log_entry_short (db a) "rest" "rest" today 30)
      as [E _]; [exact Hlen|].
    rewrite E. cbn [rest_count_loop].
    rewrite entry_for_date by assumption.
    pose proof (weekday_bounds today) as Hwd.
    replace (monday_of today <=? today) with true
      by (symmetry; apply Z.leb_le; unfold monday_of; lia).
    rewrite Z.leb_refl. cbn [entry_for e_status andb].
    rewrite bool_decide_eq_true_2 by reflexivity.
    rewrite !rest_count_loop_filter. lia. }
  assert (Hdone : _rest_days_this_week (final (mark_done today a)) today
                  = _rest_days_this_week a today).
  { rewrite (mark_done_fresh a today w Hl Hne Hw). cbn [final].
    unfold _rest_days_this_week. cbn [db].
    unfold get_history at 1. cbn [db_logs save_state].
    fold (get_history (log_entry (db a) w "done" today) 30).
    destruct (get_history_log_entry_short (db a) w "done" today 30)
      as [E _]; [exact Hlen|].
    rewrite E. cbn [rest_count_loop].
    rewrite entry_for_date by assumption.
    cbn [entry_for e_status].
    rewrite bool_decide_eq_false_2 by discriminate.
    rewrite !andb_false_r. reflexivity. }
  split; [exact Hrest|].
  split; [|split; [exact Hdone|]].
  - unfold rest_remaining. rewrite Hrest.
    rewrite (mark_rest_fresh a today Hl Hne). cbn [final state].
    cbn [rest_days_per_week state_set_last_log_date]. lia.
  - unfold rest_remaining. rewrite Hdone.
    rewrite (mark_done_fresh a today w Hl Hne Hw). cbn [final state].
    cbn [rest_days_per_week state_set_last_log_date state_set_position].
    reflexivity.
Qed.

Lemma X18_witness :
  _rest_days_this_week (H:=ascii_lib) app_mon_tue 738888 = 0 /\
  _rest_days_this_week (H:=ascii_lib) (final (mark_rest 738888 app_mon_tue))
    738888 = 1 /\
  rest_remaining (H:=ascii_lib) (final (mark_rest 738888 app_mon_tue)) 738888
    = 1.
Proof.
  assert (Hrange : Date.MINORD <= 738888 <= Date.MAXORD) by (vm_compute; split; discriminate).
  assert (Hne : cycle app_mon_tue <> []) by (vm_compute; discriminate).
  assert (Hl : _logged_today app_mon_tue 738888 = false) by (vm_compute; reflexivity).
  assert (Hlen : (length (db_logs (db app_mon_tue)) < 30)%nat)
    by (vm_compute; lia).
  destruct (X18_rest_count_after_click (H:=ascii_lib) app_mon_tue 738888
              ascii_fromisoformat_law Hrange Hne Hl Hlen)
    as (Hr & Hrem & _).
  split; [vm_compute; reflexivity|].
  split; [rewrite Hr | rewrite Hrem]; vm_compute; reflexivity.
Defined.

(** ** The menu *)

Lemma rotation_loop_spec `{PyLib} (a : App) (ws : list string) (i : Z) :
  cycle a <> [] ->
  exists lines,
    rotation_loop a i ws = Some lines /\
    length lines = length ws /\
    forall j x, ws !! j = Some x ->
      lines !! j =
        Some (rotation_line
                (if i + Z.of_nat j =? position a mod Py.len (cycle a)
                 then arrow_here else arrow_none) (str_title x)).
Proof.
  intros Hne. revert i. induction ws as [|w ws IH]; intros i.
  - exists []. split; [reflexivity|]. split; [reflexivity|].
    intros j x Hj. rewrite lookup_nil in Hj. discriminate.
  - destruct (IH (i + 1)) as (lines & Hl & Hlen & Hlook).
    cbn [rotation_loop]. rewrite mod_len by exact Hne. cbn [mbind option_bind].
    rewrite Hl. cbn [mbind option_bind].
    eexists. split; [reflexivity|]. split; [cbn [length]; lia|].
    intros [|j] x Hj.
    + cbn in Hj. injection Hj as <-. cbn [lookup list_lookup Z.of_nat].
      rewrite Z.add_0_r. reflexivity.
    + change (ws !! j = Some x) in Hj.
      transitivity (lines !! j); [reflexivity|]. rewrite (Hlook j x Hj).
      replace (i + 1 + Z.of_nat j) with (i + Z.of_nat (S j)) by lia.
      reflexivity.
Qed.

Lemma build_menu_unlogged `{PyLib} (a : App) (today : Z) (w : string)
    (lines : list string) :
  current_workout a = Some w ->
  _logged_today a today = false ->
  rotation_loop a 0 (cycle a) = Some lines ->
  exists pre,
    _build_menu a today =
      Some {| menu_title := title_current (str_title w);
              menu_items :=
                pre ++ [done_button; rest_button; Separator]
                ++ [rest_counter_item (_rest_days_this_week a today)
                      (default 2 (rest_days_per_week (state a)));
                    Separator]
                ++ [Submenu "— Rotation —" lines; Separator]
                ++ fixed_items |} /\
    existsb logs_today pre = false /\
    rotation_of {| menu_title := EmptyString; menu_items := pre |} = [].
Proof.
  intros Hw Hl Hrot. unfold _build_menu.
  rewrite Hw, Hl, Hrot. cbn [mbind option_bind].
  destruct (0 <? _get_streak a today).
  - eexists ([_; _] ++ [_; _]). split; [reflexivity|]. split; reflexivity.
  - eexists [_; _]. split; [reflexivity|]. split; reflexivity.
Qed.

Lemma build_menu_logged `{PyLib} (a : App) (today : Z) (w : string)
    (lines : list string) :
  current_workout a = Some w ->
  _logged_today a today = true ->
  rotation_loop a 0 (cycle a) = Some lines ->
  exists pre,
    _build_menu a today =
      Some {| menu_title :=
                (let logged_type :=
                   match get_history (db a) 1 with
                   | e :: _ => str_title (default w (e_workout_type e))
                   | [] => str_title w
                   end in
                 let logged_status :=
                   match get_history (db a) 1 with
                   | e :: _ => default EmptyString (e_status e)
                   | [] => EmptyString
                   end in
                 if bool_decide (str_lower logged_type = "rest")
                    || bool_decide (logged_status = "rest")
                 then title_rest else title_done logged_type);
              menu_items :=
                pre
                ++ [rest_counter_item (_rest_days_this_week a today)
                      (default 2 (rest_days_per_week (state a)));
                    Separator]
                ++ [Submenu "— Rotation —" lines; Separator]
                ++ fixed_items |} /\
    existsb logs_today pre = false /\
    rotation_of {| menu_title := EmptyString; menu_items := pre |} = [].
Proof.
  intros Hw Hl Hrot. unfold _build_menu.
  rewrite Hw, Hl, Hrot. cbn [mbind option_bind].
  destruct (0 <? _get_streak a today).
  - eexists ([_; _] ++ [_; _]). split; [reflexivity|]. split; reflexivity.
  - eexists [_; _]. split; [reflexivity|]. split; reflexivity.
Qed.

(** X19. The menu. [_build_menu] raises exactly when the rotation is empty.
    Otherwise the menu offers Done and Rest Instead exactly when today is
    not logged, and the title then names the current workout; the menu has
    one rotation item, with one line for each label of the rotation, in
    order, and the arrow is on the line of index [position mod len(cycle)]
    and on no other: the line of the current workout. *)
Theorem X19_build_menu `{PyLib} (a : App) (today : Z) :
  (cycle a = [] -> _build_menu a today = None) /\
  (cycle a <> [] ->
   exists m w lines,
     _build_menu a today = Some m /\
     current_workout a = Some w /\
     existsb logs_today (menu_items m) = negb (_logged_today a today) /\
     (_logged_today a today = false ->
        menu_title m = title_current (str_title w) /\
        done_button ∈ menu_items m /\ rest_button ∈ menu_items m) /\
     rotation_of m = [lines] /\
     length lines = length (cycle a) /\
     (forall j x, cycle a !! j = Some x ->
        lines !! j =
          Some (rotation_line
                  (if Z.of_nat j =? position a mod Py.len (cycle a)
                   then arrow_here else arrow_none) (str_title x))) /\
     lines !! Z.to_nat (position a mod Py.len (cycle a))
       = Some (rotation_line arrow_here (str_title w))).
Proof.
  split.
  - intros Hc. unfold _build_menu, current_workout. rewrite Hc. reflexivity.
  - intros Hne.
    destruct (current_workout_some a Hne) as (w & Hw & Hcw).
    destruct (rotation_loop_spec a (cycle a) 0 Hne)
      as (lines & Hrot & Hlen & Hlook).
    assert (Hlook' : forall j x, cycle a !! j = Some x ->
              lines !! j =
                Some (rotation_line
                        (if Z.of_nat j =? position a mod Py.len (cycle a)
                         then arrow_here else arrow_none) (str_title x))).
    { intros j x Hj. rewrite (Hlook j x Hj), Z.add_0_l. reflexivity. }
    assert (Hcur : lines !! Z.to_nat (position a mod Py.len (cycle a))
                   = Some (rotation_line arrow_here (str_title w))).
    { rewrite (Hlook' _ w Hcw).
      pose proof (len_pos (cycle a) Hne) as Hpos.
      pose proof (Z.mod_pos_bound (position a) (Py.len (cycle a)) Hpos).
      rewrite Z2Nat.id by lia. rewrite Z.eqb_refl. reflexivity. }
    destruct (_logged_today a today) eqn:Hl.
    + destruct (build_menu_logged a today w lines Hw Hl Hrot)
        as (pre & Hm & Hpre & Hpre').
      eexists _, w, lines. split; [exact Hm|]. split; [exact Hw|].
      cbn [menu_items menu_title negb].
      split; [rewrite existsb_app, Hpre; reflexivity|].
      split; [discriminate|].
      split; [|auto].
      unfold rotation_of in *. cbn [menu_items] in *.
      rewrite omap_app, Hpre'. reflexivity.
    + destruct (build_menu_unlogged a today w lines Hw Hl Hrot)
        as (pre & Hm & Hpre & Hpre').
      eexists _, w, lines. split; [exact Hm|]. split; [exact Hw|].
      cbn [menu_items menu_title negb].
      split; [rewrite existsb_app, Hpre; reflexivity|].
      split.
      { intros _. split; [reflexivity|].
        split; apply elem_of_app; right; [left | right; left]. }
      split; [|auto].
      unfold rotation_of in *. cbn [menu_items] in *.
      rewrite omap_app, Hpre'. reflexivity.
Qed.

Lemma X19_witness :
  exists m lines,
    _build_menu (H:=ascii_lib) app_mon_tue 738888 = Some m /\
    menu_title m = title_current "Legs" /\
    existsb logs_today (menu_items m) = true /\
    rotation_of m = [lines] /\
    lines = [rotation_line arrow_none "Push"; rotation_line arrow_none "Pull";
             rotation_line arrow_here "Legs"] /\
    menu_title m = "🏋️ Legs" /\
    menu_items m =
      [MenuItem "Today: Legs Day" None; Separator;
       MenuItem "✅ Done" (Some cb_mark_done);
       MenuItem "😴 Rest Instead" (Some cb_mark_rest); Separator;
       MenuItem "😴 Rest: 0/2 this week" None; Separator;
       Submenu "— Rotation —"
         ["    🏋️ Push"; "    🏋️ Pull"; "→ 🏋️ Legs"];
       Separator;
       MenuItem "📅 View Schedule" (Some cb_show_schedule);
       MenuItem "Edit Cycle..." (Some cb_edit_cycle);
       MenuItem "Rest Days/Week..." (Some cb_edit_rest_target);
       MenuItem "Quit" (Some cb_quit)].
Proof.
  assert (Hne : cycle app_mon_tue <> []) by (vm_compute; discriminate).
  destruct (X19_build_menu (H:=ascii_lib) app_mon_tue 738888) as [_ Hm].
  destruct (Hm Hne) as (m & w & lines & Hb & Hw & Hbtn & Ht & Hrot & _).
  exists m, lines. split; [exact Hb|].
  assert (Hm' : _build_menu (H:=ascii_lib) app_mon_tue 738888 = Some m)
    by exact Hb.
  vm_compute in Hm'. injection Hm' as <-.
  vm_compute in Hrot. injection Hrot as <-.
  repeat split; vm_compute; reflexivity.
Defined.

(** X20. The title after a click. On a day that is not logged, with a
    rotation that is not empty, the menu rebuilt after Rest Instead has the
    rest title; the menu rebuilt after Done has the done title with the
    workout just logged, or the rest title when that workout is itself
    called rest; and in both the Done and Rest Instead items are gone. *)
Theorem X20_title_after_click `{PyLib} (a : App) (today : Z) (w : string) :
  cycle a <> [] ->
  _logged_today a today = false ->
  current_workout a = Some w ->
  (exists m,
     _build_menu (final (mark_done today a)) today = Some m /\
     menu_title m =
       (if bool_decide (str_lower (str_title w) = "rest")
        then title_rest else title_done (str_title w)) /\
     existsb logs_today (menu_items m) = false) /\
  (exists m,
     _build_menu (final (mark_rest today a)) today = Some m /\
     menu_title m = title_rest /\
     existsb logs_today (menu_items m) = false).
Proof.
  intros Hne Hl Hw.
  rewrite (mark_done_fresh a today w Hl Hne Hw), (mark_rest_fresh a today Hl Hne).
  cbn [final].
  set (a1 := {| db := save_state (log_entry (db a) w "done" today) _;
                state := _; cycle := cycle a;
                position := (position a + 1) mod Py.len (cycle a) |}).
  set (a2 := {| db := save_state (log_entry (db a) "rest" "rest" today) _;
                state := _; cycle := cycle a; position := position a |}).
  assert (Hh : forall d x st (s : State),
            get_history (save_state (log_entry d x st today) s) 1
            = [entry_for today x st]).
  { intros d x st s. unfold get_history, save_state, log_entry.
    cbn [db_logs]. rewrite reverse_app. reflexivity. }
  split.
  - assert (Hne1 : cycle a1 <> []) by exact Hne.
    destruct (current_workout_some a1 Hne1) as (w1 & Hw1 & _).
    destruct (rotation_loop_spec a1 (cycle a1) 0 Hne1) as (lines & Hrot & _).
    assert (Hl1 : _logged_today a1 today = true)
      by (apply logged_today_true; reflexivity).
    destruct (build_menu_logged a1 today w1 lines Hw1 Hl1 Hrot)
      as (pre & Hm & Hpre & _).
    eexists. split; [exact Hm|]. cbn [menu_title menu_items].
    split.
    + subst a1. cbn [db]. rewrite Hh. cbn [entry_for e_workout_type e_status default].
      rewrite (bool_decide_eq_false_2 ("done" = "rest")) by discriminate.
      rewrite orb_false_r. reflexivity.
    + rewrite existsb_app, Hpre. reflexivity.
  - assert (Hne2 : cycle a2 <> []) by exact Hne.
    destruct (current_workout_some a2 Hne2) as (w2 & Hw2 & _).
    destruct (rotation_loop_spec a2 (cycle a2) 0 Hne2) as (lines & Hrot & _).
    assert (Hl2 : _logged_today a2 today = true)
      by (apply logged_today_true; reflexivity).
    destruct (build_menu_logged a2 today w2 lines Hw2 Hl2 Hrot)
      as (pre & Hm & Hpre & _).
    eexists. split; [exact Hm|]. cbn [menu_title menu_items].
    split.
    + subst a2. cbn [db]. rewrite Hh. cbn [entry_for e_workout_type e_status default].
      rewrite (bool_decide_eq_true_2 ("rest" = "rest")) by reflexivity.
      rewrite orb_true_r. reflexivity.
    + rewrite existsb_app, Hpre. reflexivity.
Qed.

Lemma X20_witness :
  (exists m,
     _build_menu (H:=ascii_lib) (final (mark_done 738888 app_mon_tue)) 738888
       = Some m /\
     menu_title m = title_done "Legs" /\
     menu_title m = "✅ Legs") /\
  (exists m,
     _build_menu (H:=ascii_lib) (final (mark_rest 738888 app_mon_tue)) 738888
       = Some m /\
     menu_title m = title_rest /\
     menu_title m = "😴 Rest").
Proof.
  assert (Hne : cycle app_mon_tue <> []) by (vm_compute; discriminate).
  assert (Hl : _logged_today app_mon_tue 738888 = false)
    by (vm_compute; reflexivity).
  assert (Hw : current_workout app_mon_tue = Some "legs")
    by (vm_compute; reflexivity).
  destruct (X20_title_after_click (H:=ascii_lib) app_mon_tue 738888 "legs"
              Hne Hl Hw) as ((m1 & Hb1 & Ht1 & _) & (m2 & Hb2 & Ht2 & _)).
  split.
  - exists m1. split; [exact Hb1|]. rewrite Ht1.
    split; vm_compute; reflexivity.
  - exists m2. split; [exact Hb2|]. rewrite Ht2. split; reflexivity.
Defined.

(** ** The week view on a logged day *)

(** X21. The label the week view shows for tomorrow, once today is logged.
    When tomorrow is in the same week, not logged and not a predicted rest
    day, its line shows the label of the rotation [d - 1] steps after the
    position, where [d] is the number of days of the week, today included,
    that are logged as [done]: the loop starts one step before the position,
    whatever today's entry is. So after a rest today, in a week with no
    workout done, the line for tomorrow shows the label before the current
    workout; it shows the current workout when [d - 1] is a multiple of the
    length of the rotation. *)
Theorem X21_tomorrow_label `{PyLib} (a : App) (today : Z) (rs : gset Z) :
  cycle a <> [] ->
  0 <= position a < Py.len (cycle a) ->
  _logged_today a today = true ->
  is_Some (week_logged a !! Date.isoformat today) ->
  Date.weekday today < 6 ->
  week_logged a !! Date.isoformat (today + 1) = None ->
  week_rest_indices a today = Some rs ->
  Date.weekday today + 1 ∉ rs ->
  let d := Z.of_nat (done_days_through (week_logged a) today) in
  exists lines w,
    _get_week_schedule a today = Some lines /\
    cycle a !! Z.to_nat ((position a - 1 + d) mod Py.len (cycle a)) = Some w /\
    lines !! Z.to_nat (Date.weekday today + 1) =
      Some (line_workout (strftime_a (today + 1)) (str_title w)) /\
    ((d - 1) mod Py.len (cycle a) = 0 -> current_workout a = Some w).
Proof.
  intros Hc Hp Hl Hlog Hsun Hnext Hrs Hnot d.
  destruct (weekday_bounds today) as [Hwd Hmon].
  pose proof (len_pos (cycle a) Hc) as Hlen.
  assert (Hstart : week_start_pos a today
                   = Some ((position a - 1) mod Py.len (cycle a))).
  { unfold week_start_pos. rewrite Hl. apply mod_len. exact Hc. }
  destruct (get_week_schedule_spec a today rs _ Hc Hrs Hstart)
    as (lines & Hlines & _ & Hlk).
  assert (Hwd' : 0 <= Date.weekday today + 1 < 7) by lia.
  specialize (Hlk (Date.weekday today + 1) Hwd').
  assert (Hcur : cursor_at a (week_logged a) rs (monday_of today) today
                   ((position a - 1) mod Py.len (cycle a))
                   (Date.weekday today + 1)
                 = (position a - 1 + d) mod Py.len (cycle a)).
  { unfold cursor_at.
    rewrite advance_n_in_range by (apply Z.mod_pos_bound; exact Hlen).
    rewrite Zplus_mod_idemp_l.
    f_equal. f_equal. unfold d, done_days_through. f_equal.
    apply filter_length_ext. intros j Hj. apply elem_of_seqZ in Hj.
    unfold advancing, done_day.
    destruct (week_logged a !! Date.isoformat (monday_of today + j)) eqn:Ej;
      [reflexivity|].
    destruct (Z.ltb_spec (monday_of today + j) today); [reflexivity|].
    exfalso. assert (j = Date.weekday today) as -> by lia.
    rewrite Hmon in Ej. rewrite Ej in Hlog. destruct Hlog; discriminate. }
  destruct (schedule_day_workout a (week_logged a) rs (monday_of today) today
              (Date.weekday today + 1)
              (cursor_at a (week_logged a) rs (monday_of today) today
                 ((position a - 1) mod Py.len (cycle a))
                 (Date.weekday today + 1)) Hc)
    as (w & Hw & Hday).
  { replace (monday_of today + (Date.weekday today + 1)) with (today + 1)
      by lia. exact Hnext. }
  { lia. }
  { exact Hnot. }
  exists lines, w. split; [exact Hlines|].
  rewrite Hcur in Hw.
  assert (Hmod : (position a - 1 + d) mod Py.len (cycle a)
                 mod Py.len (cycle a)
                 = (position a - 1 + d) mod Py.len (cycle a))
    by (apply Z.mod_mod; lia).
  rewrite Hmod in Hw. split; [exact Hw|].
  split.
  { rewrite Hlk, Hday.
    replace (monday_of today + (Date.weekday today + 1)) with (today + 1)
      by lia.
    unfold mark_today.
    destruct (Z.eqb_spec (today + 1) today); [lia|reflexivity]. }
  intros Hd. destruct (current_workout_some a Hc) as (w' & Hw' & Hlk').
  rewrite Hw'. f_equal.
  assert (E : (position a - 1 + d) mod Py.len (cycle a)
              = position a mod Py.len (cycle a)).
  { replace (position a - 1 + d) with (position a + (d - 1)) by lia.
    rewrite <- Zplus_mod_idemp_r, Hd, Z.add_0_r. reflexivity. }
  rewrite E in Hw. congruence.
Qed.

Lemma X21_witness :
  exists lines,
    _get_week_schedule (H:=ascii_lib) app_rest_mon 738886 = Some lines /\
    lines !! 1%nat = Some "  Tue  ·  Legs" /\
    current_workout app_rest_mon = Some "push".
Proof.
  destruct (X21_tomorrow_label (H:=ascii_lib) app_rest_mon 738886 {[6]})
    as (lines & w & E & Hw & Hline & _).
  - discriminate.
  - vm_compute. split; congruence.
  - reflexivity.
  - vm_compute. eexists; reflexivity.
  - vm_compute. reflexivity.
  - reflexivity.
  - vm_compute. reflexivity.
  - intros Hin. apply elem_of_singleton in Hin; vm_compute in Hin;
      discriminate.
  - exists lines. split; [exact E|].
    assert (w = "legs") as -> by (vm_compute in Hw; congruence).
    split; [exact Hline|reflexivity].
Defined.

(** ** Today after the reconciliation *)

(** X22. The reconciliation leaves today open. On a day that is not logged,
    however [_check_missed_days] ends, with the dialogs answered or cut
    short, today is still not logged afterwards and the rotation is the
    same: a Done click then goes through, appends one entry dated today with
    the workout that is current after the backfill, and logs the day. *)
Theorem X22_reconcile_leaves_today_open `{PyLib} (a : App) (today : Z)
    (script : list Z) :
  cycle a <> [] ->
  Date.MINORD < today <= Date.MAXORD ->
  _logged_today a today = false ->
  let a1 := final (_check_missed_days today script a) in
  _logged_today a1 today = false /\
  cycle a1 = cycle a /\
  exists w a2,
    current_workout a1 = Some w /\
    mark_done today a1 = Ok tt a2 /\
    db_logs (db a2) = db_logs (db a1) ++ [entry_for today w "done"] /\
    _logged_today a2 today = true.
Proof.
  intros Hc Ht Hl a1.
  assert (H1 : _logged_today a1 today = false /\ cycle a1 = cycle a).
  { subst a1.
    destruct (check_missed_days_shape a today script Hc)
      as [E|(s & last & _ & _ & _ & _ & [[_ E]|[_ E]])].
    - rewrite (E script). cbn [final]. split; [exact Hl|reflexivity].
    - rewrite E. cbn [final]. split; [|reflexivity].
      apply logged_today_false. unfold after_reconcile. cbn [state].
      cbn [last_log_date state_set_last_log_date].
      intros Heq. injection Heq as Heq.
      apply DateFacts.isoformat_inj in Heq;
        unfold Date.MINORD, Date.MAXORD in *; lia.
    - rewrite E. cbn [final]. split; [exact Hl|reflexivity]. }
  destruct H1 as [Hl1 Hc1]. split; [exact Hl1|]. split; [exact Hc1|].
  assert (Hne1 : cycle a1 <> []) by (rewrite Hc1; exact Hc).
  destruct (current_workout_some a1 Hne1) as (w & Hw & _).
  eexists w, _. split; [exact Hw|].
  split; [apply (mark_done_fresh a1 today w Hl1 Hne1 Hw)|].
  split; [reflexivity|].
  apply logged_today_true. reflexivity.
Qed.

Lemma X22_witness :
  _logged_today
    (final (_check_missed_days (H:=ascii_lib) 738890 [1; -1; 0] app_mon))
    738890 = false /\
  _logged_today
    (final (_check_missed_days (H:=ascii_lib) 738890 [1] app_mon))
    738890 = false.
Proof.
  assert (Hc : cycle app_mon <> []) by discriminate.
  assert (Ht : Date.MINORD < 738890 <= Date.MAXORD)
    by (vm_compute; split; congruence).
  assert (Hl : _logged_today app_mon 738890 = false) by reflexivity.
  split.
  - apply (X22_reconcile_leaves_today_open (H:=ascii_lib) app_mon 738890
             [1; -1; 0] Hc Ht Hl).
  - apply (X22_reconcile_leaves_today_open (H:=ascii_lib) app_mon 738890
             [1] Hc Ht Hl).
Defined.

(** ** The normalisation of ASCII text *)

Ltac each_ascii c :=
  destruct c as [[] [] [] [] [] [] [] []]; vm_compute; reflexivity.

Lemma is_space_to_lower (c : ascii) :
  Ascii7.is_space (Ascii7.to_lower c) = Ascii7.is_space c.
Proof. each_ascii c. Qed.

Lemma to_lower_idem (c : ascii) :
  Ascii7.to_lower (Ascii7.to_lower c) = Ascii7.to_lower c.
Proof. each_ascii c. Qed.

Lemma to_lower_comma (c : ascii) :
  Ascii.eqb (Ascii7.to_lower c) "," = Ascii.eqb c ",".
Proof. each_ascii c. Qed.

Lemma lower_idem (s : string) :
  Ascii7.lower (Ascii7.lower s) = Ascii7.lower s.
Proof.
  induction s as [|c s IH]; [reflexivity|].
  cbn [Ascii7.lower]. rewrite to_lower_idem, IH. reflexivity.
Qed.

Lemma lower_lstrip (s : string) :
  Ascii7.lower (Ascii7.lstrip s) = Ascii7.lstrip (Ascii7.lower s).
Proof.
  induction s as [|c s IH]; [reflexivity|].
  cbn [Ascii7.lower Ascii7.lstrip]. rewrite is_space_to_lower.
  destruct (Ascii7.is_space c); [exact IH|reflexivity].
Qed.

Lemma lower_rstrip (s : string) :
  Ascii7.lower (Ascii7.rstrip s) = Ascii7.rstrip (Ascii7.lower s).
Proof.
  induction s as [|c s IH]; [reflexivity|].
  cbn [Ascii7.lower Ascii7.rstrip]. rewrite <- IH, is_space_to_lower.
  destruct (Ascii7.rstrip s) as [|c' r]; cbn [Ascii7.lower].
  - destruct (Ascii7.is_space c); reflexivity.
  - reflexivity.
Qed.

Lemma lower_strip (s : string) :
  Ascii7.lower (Ascii7.strip s) = Ascii7.strip (Ascii7.lower s).
Proof. unfold Ascii7.strip. rewrite lower_rstrip, lower_lstrip. reflexivity. Qed.

Lemma rstrip_idem (s : string) :
  Ascii7.rstrip (Ascii7.rstrip s) = Ascii7.rstrip s.
Proof.
  induction s as [|c s IH]; [reflexivity|].
  cbn [Ascii7.rstrip].
  destruct (Ascii7.rstrip s) as [|c' r] eqn:Er.
  - destruct (Ascii7.is_space c) eqn:Ec; [reflexivity|].
    cbn [Ascii7.rstrip]. rewrite Ec. reflexivity.
  - change (Ascii7.rstrip (String c (String c' r)))
      with (match Ascii7.rstrip (String c' r) with
            | EmptyString =>
                if Ascii7.is_space c then EmptyString else String c EmptyString
            | r' => String c r'
            end).
    rewrite IH. reflexivity.
Qed.

Lemma rstrip_keeps_head (c : ascii) (s : string) :
  Ascii7.is_space c = false ->
  exists r, Ascii7.rstrip (String c s) = String c r.
Proof.
  intros Hc. cbn [Ascii7.rstrip]. rewrite Hc.
  destruct (Ascii7.rstrip s); eauto.
Qed.

Lemma lstrip_head (s : string) :
  Ascii7.lstrip s = EmptyString \/
  exists c t, Ascii7.lstrip s = String c t /\ Ascii7.is_space c = false.
Proof.
  induction s as [|c s IH]; [left; reflexivity|].
  cbn [Ascii7.lstrip]. destruct (Ascii7.is_space c) eqn:Ec; [exact IH|].
  right. eauto.
Qed.

Lemma strip_idem (s : string) :
  Ascii7.strip (Ascii7.strip s) = Ascii7.strip s.
Proof.
  unfold Ascii7.strip.
  destruct (lstrip_head s) as [E|(c & t & E & Hc)]; rewrite E.
  - reflexivity.
  - destruct (rstrip_keeps_head c t Hc) as (r & Er).
    rewrite Er. cbn [Ascii7.lstrip]. rewrite Hc, <- Er.
    apply rstrip_idem.
Qed.

Lemma comma_free_lstrip (s : string) :
  comma_free s = true -> comma_free (Ascii7.lstrip s) = true.
Proof.
  induction s as [|c s IH]; [reflexivity|]. intros Hs.
  cbn [Ascii7.lstrip]. destruct (Ascii7.is_space c); [|exact Hs].
  cbn [comma_free] in Hs. apply andb_true_iff in Hs as [_ Hs]. auto.
Qed.

Lemma comma_free_rstrip (s : string) :
  comma_free s = true -> comma_free (Ascii7.rstrip s) = true.
Proof.
  induction s as [|c s IH]; [reflexivity|]. intros Hs.
  cbn [comma_free] in Hs. apply andb_true_iff in Hs as [Hc Hs].
  specialize (IH Hs). cbn [Ascii7.rstrip].
  destruct (Ascii7.rstrip s) as [|c' r].
  - destruct (Ascii7.is_space c); [reflexivity|].
    cbn [comma_free]. rewrite Hc. reflexivity.
  - cbn [comma_free] in IH |- *. rewrite Hc, IH. reflexivity.
Qed.

Lemma comma_free_lower (s : string) :
  comma_free (Ascii7.lower s) = comma_free s.
Proof.
  induction s as [|c s IH]; [reflexivity|].
  cbn [Ascii7.lower comma_free]. rewrite to_lower_comma, IH. reflexivity.
Qed.

Lemma split_pieces_comma_free (s : string) :
  Forall (fun w => comma_free w = true) (Py.split "," s).
Proof.
  induction s as [|c s IH]; [repeat constructor|].
  cbn [Py.split]. destruct (Ascii.eqb c ",") eqn:Ec.
  - constructor; [reflexivity|exact IH].
  - destruct (Py.split "," s) as [|w ws]; [repeat constructor|].
    + cbn [comma_free]. rewrite Ec. reflexivity.
    + inversion IH as [|? ? Hw Hws]; subst. constructor; [|exact Hws].
      cbn [comma_free]. rewrite Ec, Hw. reflexivity.
Qed.

(** Every label that the normalisation produces from ASCII text is one that
    it keeps. *)
Lemma normalize_cycle_clean (text : string) :
  Forall (clean_label (H:=ascii_lib)) (normalize_cycle (H:=ascii_lib) text).
Proof.
  unfold normalize_cycle. apply Forall_fmap.
  pose proof (split_pieces_comma_free text) as Hall.
  induction Hall as [|w ws Hw Hws IH]; [constructor|].
  rewrite filter_cons. case_decide as Hs; [|exact IH].
  constructor; [|exact IH].
  change (@str_strip ascii_lib) with Ascii7.strip in *.
  change (@str_lower ascii_lib) with Ascii7.lower in *.
  unfold clean_label, compose.
  change (@str_strip ascii_lib) with Ascii7.strip.
  change (@str_lower ascii_lib) with Ascii7.lower.
  assert (Hfix : Ascii7.strip (Ascii7.lower (Ascii7.strip w))
                 = Ascii7.lower (Ascii7.strip w))
    by (rewrite <- lower_strip, strip_idem; reflexivity).
  repeat split.
  - rewrite comma_free_lower. unfold Ascii7.strip.
    apply comma_free_rstrip, comma_free_lstrip. exact Hw.
  - intros E. apply Hs. apply ascii_lower_law. exact E.
  - exact Hfix.
  - exact Hfix.
  - apply lower_idem.
Qed.

(** X23. Saving twice is saving once, for ASCII text. When Save on a text
    installs a rotation, its labels are ones that the normalisation keeps,
    so that opening the dialog again and saving it as it opens changes
    nothing at all: the tracker and the database stay as the first Save
    left them. *)
Theorem X23_save_twice (a : App) (text : string) :
  normalize_cycle (H:=ascii_lib) text <> [] ->
  exists a1,
    edit_cycle (H:=ascii_lib) true text a = Ok tt a1 /\
    cycle a1 = normalize_cycle (H:=ascii_lib) text /\
    position a1 = 0 /\
    normalize_cycle (H:=ascii_lib) (current_cycle a1) = cycle a1 /\
    edit_cycle (H:=ascii_lib) true (current_cycle a1) a1 = Ok tt a1.
Proof.
  intros Hne.
  set (c := normalize_cycle (H:=ascii_lib) text) in *.
  set (s := state_set_position 0 (state_set_cycle c (state a))).
  set (a1 := {| db := save_state (db a) s; state := s; cycle := c;
                position := 0 |}).
  assert (E1 : edit_cycle (H:=ascii_lib) true text a = Ok tt a1).
  { unfold edit_cycle. fold c. destruct c as [|w ws] eqn:Ec;
      [contradiction|reflexivity]. }
  assert (Hn : normalize_cycle (H:=ascii_lib) (current_cycle a1) = cycle a1).
  { apply normalize_current_cycle; [|exact Hne].
    subst a1 c. cbn [cycle]. apply normalize_cycle_clean. }
  exists a1. split; [exact E1|]. split; [reflexivity|].
  split; [reflexivity|]. split; [exact Hn|].
  unfold edit_cycle. rewrite Hn.
  subst a1. cbn [cycle]. destruct c as [|w ws] eqn:Ec; [contradiction|].
  reflexivity.
Qed.

Lemma X23_witness :
  exists a1,
    edit_cycle (H:=ascii_lib) true " Upper ,, lower,CORE " app_mon_tue
      = Ok tt a1 /\
    cycle a1 = ["upper"; "lower"; "core"] /\
    current_cycle a1 = "upper, lower, core" /\
    edit_cycle (H:=ascii_lib) true "upper, lower, core" a1 = Ok tt a1.
Proof.
  destruct (X23_save_twice app_mon_tue " Upper ,, lower,CORE ")
    as (a1 & E1 & Hc & _ & _ & E2).
  - vm_compute. discriminate.
  - exists a1. split; [exact E1|].
    assert (Hc' : cycle a1 = ["upper"; "lower"; "core"])
      by (rewrite Hc; vm_compute; reflexivity).
    split; [exact Hc'|].
    assert (Ht : current_cycle a1 = "upper, lower, core")
      by (unfold current_cycle; rewrite Hc'; vm_compute; reflexivity).
    split; [exact Ht|]. rewrite <- Ht. exact E2.
Defined.
